(** * Exploratory data analysis notebook (notebooks/data-exploration.ipynb)

    A shallow embedding of the notebook's three components: the dataset
    loader [loadData] together with the logging set-up that precedes it, the
    median-centred boxplot renderer [boxplotTimeSeries] and the missingness
    heatmap renderer [missingHeatMap], with their stacked entry points.

    The notebook calls pandas, numpy, matplotlib and seaborn.  The part of
    those libraries the notebook relies on is modelled in the first half of
    the file: float64 cells, grouped median and linearly interpolated
    quantile, NaN-skipping and NaN-propagating maxima, data frames living in
    a heap of mutable objects, and a small state-and-exception monad [Py] in
    which the notebook's functions are written statement by statement.

    Cells come in two implementations.  [Binary64] is IEEE-754 double
    precision, bit for bit, and is what the notebook runs on; [Exact] is
    rational arithmetic without rounding.  Properties that only depend on
    how NaN and the order behave are proved for both at once; properties of
    the centring arithmetic are proved for [Exact] and evaluated on
    [Binary64]. *)

From Stdlib Require Import ZArith QArith Qround Qabs Lqa Lia List Bool Ascii String.
From Stdlib Require Import SpecFloat Sorted Permutation.
From stdpp Require Import base option list gmap strings.
Import ListNotations.

Local Open Scope nat_scope.

(** ** float64 cells

    A column of measurements has dtype float64; a missing observation is the
    cell NaN.  The operations the notebook (and the pandas routines it calls)
    performs on cells are collected in one interface, with two
    implementations: IEEE-754 binary64, which is what the notebook runs on,
    and exact rational arithmetic, in which no operation rounds. *)

Class Float64 (F : Type) : Type := {
  nan : F;
  isna : F -> bool;            (* pd.isna on a float cell *)
  fadd : F -> F -> F;
  fsub : F -> F -> F;
  fmul : F -> F -> F;
  fdiv : F -> F -> F;
  fabs : F -> F;
  fneg : F -> F;
  fle : F -> F -> bool;        (* a <= b, False as soon as one side is NaN *)
  feq : F -> F -> bool;        (* a == b, False as soon as one side is NaN *)
  isfinite : F -> bool;        (* np.isfinite *)
  of_int : Z -> F;             (* cast of an integer to float64 *)
  to_int : F -> Z;             (* cast to int64: truncation toward zero *)
  fmod1 : F -> F;              (* x % 1 *)
}.

(** A decimal literal [n/d] of the source, e.g. [0.025] is [lit 25 1000]:
    the quotient of two exactly represented integers is the float nearest to
    the decimal. *)
Definition lit {F} `{Float64 F} (n d : Z) : F := fdiv (of_int n) (of_int d).

(** a >= b is evaluated as b <= a *)
Definition fge {F} `{Float64 F} (a b : F) : bool := fle b a.

Module Binary64.

(** IEEE-754 binary64: 53 bits of precision, infinities at exponent 1024.
    A value is a [spec_float]: a signed zero, a signed infinity, NaN, or
    [(-1)^s * m * 2^e]; every operation rounds to nearest, ties to even. *)
Definition prec : Z := 53.
Definition emax : Z := 1024.

Definition float : Type := spec_float.

(** [m * 2^e], rounded when it is not representable *)
Definition b64 (m e : Z) : float := binary_normalize prec emax m e false.

Definition from_Z (z : Z) : float := b64 z 0.

Definition trunc (x : float) : Z :=
  match x with
  | S754_finite s m e => cond_Zopp s (Z.shiftl (Zpos m) e)
  | _ => 0%Z
  end.

Definition is_nan (x : float) : bool :=
  match x with S754_nan => true | _ => false end.

Definition finite (x : float) : bool :=
  match x with
  | S754_zero _ | S754_finite _ _ _ => true
  | _ => false
  end.

Definition mod1 (x : float) : float :=
  let r := SFsub prec emax x (from_Z (trunc x)) in
  if SFltb r (from_Z 0) then SFadd prec emax r (from_Z 1) else r.

#[global] Instance binary64 : Float64 float := {|
  nan := S754_nan;
  isna := is_nan;
  fadd := SFadd prec emax;
  fsub := SFsub prec emax;
  fmul := SFmul prec emax;
  fdiv := SFdiv prec emax;
  fabs := SFabs;
  fneg := SFopp;
  fle := SFleb;
  feq := SFeqb;
  isfinite := finite;
  of_int := from_Z;
  to_int := trunc;
  fmod1 := mod1;
|}.

End Binary64.

Module Exact.

(** [None] is NaN; there are no infinities and no signed zero. *)
Definition cell : Type := option Q.

Definition lift2 (f : Q -> Q -> Q) (a b : cell) : cell :=
  match a, b with
  | Some x, Some y => Some (f x y)
  | _, _ => None
  end.

Definition div (a b : cell) : cell :=
  match a, b with
  | Some x, Some y => if Qeq_bool y 0 then None else Some (x / y)%Q
  | _, _ => None
  end.

Definition le (a b : cell) : bool :=
  match a, b with
  | Some x, Some y => Qle_bool x y
  | _, _ => false
  end.

Definition eq (a b : cell) : bool :=
  match a, b with
  | Some x, Some y => Qeq_bool x y
  | _, _ => false
  end.

Definition trunc (a : cell) : Z :=
  match a with
  | Some x => if Qle_bool 0 x then Qfloor x else Qceiling x
  | None => 0%Z
  end.

Definition mod1 (a : cell) : cell :=
  match a with
  | Some x => Some (x - inject_Z (Qfloor x))%Q
  | None => None
  end.

#[global] Instance exact : Float64 cell := {|
  nan := None;
  isna := fun a => match a with None => true | Some _ => false end;
  fadd := lift2 Qplus;
  fsub := lift2 Qminus;
  fmul := lift2 Qmult;
  fdiv := div;
  fabs := option_map Qabs;
  fneg := option_map Qopp;
  fle := le;
  feq := eq;
  isfinite := fun a => match a with None => false | Some _ => true end;
  of_int := fun z => Some (inject_Z z);
  to_int := trunc;
  fmod1 := mod1;
|}.

End Exact.

(** ** Laws of float64 cells that the proofs rely on

    They hold in exact arithmetic and in binary64 alike: NaN is contagious
    and unordered, and [<=] is a total preorder on the other values. *)

Class Float64Laws (F : Type) `{Float64 F} : Prop := {
  isna_nan : isna nan = true;
  isna_fsub_l : forall x y, isna x = true -> isna (fsub x y) = true;
  isna_fabs : forall x, isna (fabs x) = isna x;
  fle_notna : forall x y, fle x y = true -> isna x = false /\ isna y = false;
  fle_refl : forall x, isna x = false -> fle x x = true;
  fle_trans : forall x y z, fle x y = true -> fle y z = true -> fle x z = true;
  fle_total : forall x y,
    isna x = false -> isna y = false -> fle x y = true \/ fle y x = true;
  isna_floor : isna (lit 5 100) = false;
}.

(** ** pandas and numpy routines on a column of float64 cells *)

(** [df.groupby(key)[col]]: the values of the rows whose key is [h]. *)
Definition group_values {A} (keys : list Z) (s : list A) (h : Z) : list A :=
  map snd (List.filter (fun p => Z.eqb (fst p) h) (combine keys s)).

Section Series.

Context {F : Type} `{Float64 F}.

(** A Series of float64 values, in row order. *)
Definition Series : Type := list F.

Definition dropna (s : Series) : Series :=
  List.filter (fun x => negb (isna x)) s.

(** Ascending order of the non-missing values of a group. *)
Fixpoint insert_sorted (x : F) (l : list F) : list F :=
  match l with
  | [] => [x]
  | y :: l' => if fle x y then x :: l else y :: insert_sorted x l'
  end.

Fixpoint sort_values (l : list F) : list F :=
  match l with
  | [] => []
  | x :: l' => insert_sorted x (sort_values l')
  end.

(** [kth_smallest a k]: element of rank [k] (from 0) among the values. *)
Definition kth_smallest (a : list F) (k : nat) : F :=
  nth k (sort_values a) nan.

(** Grouped 'median' (pandas' median_linear): missing values are skipped;
    NaN for a group without values; the middle value for an odd count and
    the mean of the two middle values for an even count. *)
Definition median (s : Series) : F :=
  let a := dropna s in
  let n := length a in
  if Nat.eqb n 0 then nan
  else if Nat.odd n then kth_smallest a (n / 2)
  else fdiv (fadd (kth_smallest a (n / 2)) (kth_smallest a (n / 2 - 1)))
            (of_int 2).

(** Grouped 'quantile' with the default linear interpolation (pandas'
    group_quantile): missing values are skipped; NaN for a group without
    values; otherwise the position [q * (n - 1)] is split into the index
    [idx] and the fraction [frac]. *)
Definition quantile (q : F) (s : Series) : F :=
  let a := dropna s in
  let n := length a in
  if Nat.eqb n 0 then nan
  else
    let q_idx := fmul q (of_int (Z.of_nat (n - 1))) in
    let idx := Z.to_nat (to_int q_idx) in
    let frac := fmod1 q_idx in
    let val := kth_smallest a idx in
    if feq frac (of_int 0) then val
    else
      let next_val := kth_smallest a (idx + 1) in
      fadd val (fmul (fsub next_val val) frac).


(** [df.groupby(key)[col].transform(agg)]: every row receives the
    aggregate of its own group. *)
Definition groupby_transform (agg : Series -> F) (keys : list Z)
    (s : Series) : Series :=
  map (fun h => agg (group_values keys s h)) (firstn (length s) keys).

(** Element-wise [s1 - s2] of two aligned Series. *)
Fixpoint series_sub (s1 s2 : Series) : Series :=
  match s1, s2 with
  | x :: s1', y :: s2' => fsub x y :: series_sub s1' s2'
  | _, _ => []
  end.

Definition fmax (a b : F) : F := if fle a b then b else a.

(** [Series.max()]: the largest non-missing value, NaN when there is
    none (skipna=True is the default). *)
Definition series_max (s : Series) : F :=
  match dropna s with
  | [] => nan
  | x :: l => fold_left fmax l x
  end.

(** [np.max((a, b))]: the larger of the two, NaN as soon as one is NaN
    (np.max propagates NaN, unlike np.nanmax). *)
Definition np_max2 (a b : F) : F :=
  if isna a || isna b then nan else fmax a b.

End Series.


(** ** Python objects: exceptions, data frames, axes, files, the logger *)

Inductive exn : Type :=
| KeyError (key : string)          (* a column that the frame does not have *)
| TypeError                        (* e.g. subscripting a single Axes *)
| ValueError                       (* e.g. NaN axis limits *)
| ZeroDivisionError
| FileNotFoundError (path : string)
| FileExistsError
| OSError.                         (* any other failure of the table reader *)

Inductive result (A : Type) : Type :=
| Ok (a : A)
| Raise (e : exn).

Arguments Ok {A} a.
Arguments Raise {A} e.

(** Levels of the logging module. *)
Definition DEBUG : nat := 10.
Definition CRITICAL : nat := 50.

Record LogRecord : Type := {
  levelno : nat;
  message : string;
}.

Inductive HandlerKind : Type :=
| FileHandler (path : string)
| StreamHandler.

Record Handler : Type := {
  kind : HandlerKind;
  hlevel : nat;
  formatter : option string;
}.

Section Objects.

Context {F : Type} `{Float64 F}.

(** A column is integral (Hour, RecordID, counts) or float64. *)
Inductive column : Type :=
| IntCol (l : list Z)
| FloatCol (l : list F).

(** A DataFrame: row labels and named columns, in column order. *)
Record DataFrame : Type := {
  index : list Z;
  columns : list (string * column);
}.

(** What has been drawn on an Axes. *)
Inductive artist : Type :=
| BoxPlot (x : list Z) (y : list F)
| HeatMap (cols : list Z) (vals : list F) (vmin vmax : F).

Record Axes : Type := {
  artists : list artist;
  ax_title : string;
  ax_xlabel : string;
  ax_ylabel : string;
  ylim : option (F * F);
  labelbottom : bool;
}.

Record Figure : Type := {
  figsize : Z * Z;
  fig_axes : list nat;
  fig_suptitle : option string;
  adjust : option (F * F);          (* hspace, top *)
}.

(** What [plt.subplots] hands back as its second component. *)
Inductive AxesResult : Type :=
| OneAxes (ax : nat)                (* nrows = ncols = 1: the Axes itself *)
| AxesArray (axs : list nat).       (* otherwise: an array of Axes *)

Inductive File : Type :=
| Parquet (df : DataFrame)
| LogFile (records : list LogRecord).

(** The state of the interpreter and of its environment.  Objects are
    referred to by their position in the heap they live in; regular files
    and directories are kept in separate name spaces. *)
Record State : Type := {
  frames : list DataFrame;
  axes : list Axes;
  figures : list Figure;
  files : gmap string File;
  dirs : gset string;
  logger_level : option nat;        (* level of 'data-exploration-logger' *)
  handlers : list Handler;          (* its own handlers *)
  root_handlers : list Handler;     (* handlers of its parent, the root *)
  sns_style : option string;
}.

Definition set_frames (f : list DataFrame) (st : State) : State :=
  {| frames := f; axes := axes st; figures := figures st;
     files := files st; dirs := dirs st; logger_level := logger_level st;
     handlers := handlers st; root_handlers := root_handlers st;
     sns_style := sns_style st |}.

Definition set_axes (a : list Axes) (st : State) : State :=
  {| frames := frames st; axes := a; figures := figures st;
     files := files st; dirs := dirs st; logger_level := logger_level st;
     handlers := handlers st; root_handlers := root_handlers st;
     sns_style := sns_style st |}.

Definition set_figures (g : list Figure) (st : State) : State :=
  {| frames := frames st; axes := axes st; figures := g;
     files := files st; dirs := dirs st; logger_level := logger_level st;
     handlers := handlers st; root_handlers := root_handlers st;
     sns_style := sns_style st |}.

Definition set_files (m : gmap string File) (st : State) : State :=
  {| frames := frames st; axes := axes st; figures := figures st;
     files := m; dirs := dirs st; logger_level := logger_level st;
     handlers := handlers st; root_handlers := root_handlers st;
     sns_style := sns_style st |}.

Definition set_dirs (d : gset string) (st : State) : State :=
  {| frames := frames st; axes := axes st; figures := figures st;
     files := files st; dirs := d; logger_level := logger_level st;
     handlers := handlers st; root_handlers := root_handlers st;
     sns_style := sns_style st |}.

Definition set_logger_level (l : option nat) (st : State) : State :=
  {| frames := frames st; axes := axes st; figures := figures st;
     files := files st; dirs := dirs st; logger_level := l;
     handlers := handlers st; root_handlers := root_handlers st;
     sns_style := sns_style st |}.

Definition set_handlers (hs : list Handler) (st : State) : State :=
  {| frames := frames st; axes := axes st; figures := figures st;
     files := files st; dirs := dirs st; logger_level := logger_level st;
     handlers := hs; root_handlers := root_handlers st;
     sns_style := sns_style st |}.

Definition set_sns_style (s : option string) (st : State) : State :=
  {| frames := frames st; axes := axes st; figures := figures st;
     files := files st; dirs := dirs st; logger_level := logger_level st;
     handlers := handlers st; root_handlers := root_handlers st;
     sns_style := s |}.

(** *** The monad of notebook code: state passing with exceptions.
    A raised exception keeps the mutations made before it. *)
Definition Py (A : Type) : Type := State -> State * result A.

Definition ret {A} (a : A) : Py A := fun st => (st, Ok a).

Definition raise {A} (e : exn) : Py A := fun st => (st, Raise e).

Definition bind {A B} (c : Py A) (k : A -> Py B) : Py B :=
  fun st =>
    match c st with
    | (st', Ok a) => k a st'
    | (st', Raise e) => (st', Raise e)
    end.

Definition lift {A} (r : result A) : Py A := fun st => (st, r).

Definition gets {A} (f : State -> A) : Py A := fun st => (st, Ok (f st)).

Definition modify (f : State -> State) : Py unit := fun st => (f st, Ok tt).

(** try: c  except e: handler *)
Definition try_except {A} (c : Py A) (catches : exn -> bool)
    (handler : Py A) : Py A :=
  fun st =>
    match c st with
    | (st', Raise e) => if catches e then handler st' else (st', Raise e)
    | r => r
    end.

End Objects.

Arguments column F : clear implicits.
Arguments DataFrame F : clear implicits.
Arguments artist F : clear implicits.
Arguments Axes F : clear implicits.
Arguments Figure F : clear implicits.
Arguments File F : clear implicits.
Arguments State F : clear implicits.
Arguments Py F A : clear implicits.

Notation "'let*' x ':=' c 'in' k" := (bind c (fun x => k))
  (at level 10, x pattern, c at level 100, k at level 200).

Notation "c ';;;' k" := (bind c (fun _ => k))
  (at level 100, k at level 200, right associativity).

(** ** pandas, seaborn and matplotlib operations on the heap *)

Section Library.

Context {F : Type} `{Float64 F}.

(** *** Frames as values *)

Fixpoint assoc (c : string) (cols : list (string * column F))
    : option (column F) :=
  match cols with
  | [] => None
  | (c', v) :: rest => if String.eqb c c' then Some v else assoc c rest
  end.

(** [d[c]]: KeyError when the frame has no such column *)
Definition get_column (d : DataFrame F) (c : string) : result (column F) :=
  match assoc c (columns d) with
  | Some v => Ok v
  | None => Raise (KeyError c)
  end.

(** [d[[c1, ..., cn]]]: a new frame with the listed columns *)
Fixpoint select (d : DataFrame F) (cs : list string)
    : result (list (string * column F)) :=
  match cs with
  | [] => Ok []
  | c :: cs' =>
      match get_column d c with
      | Raise e => Raise e
      | Ok v =>
          match select d cs' with
          | Raise e => Raise e
          | Ok rest => Ok ((c, v) :: rest)
          end
      end
  end.

(** [d[c] = v] on the columns: replace the column in place, or append it *)
Fixpoint assign (c : string) (v : column F) (cols : list (string * column F))
    : list (string * column F) :=
  match cols with
  | [] => [(c, v)]
  | (c', v') :: rest =>
      if String.eqb c c' then (c, v) :: rest else (c', v') :: assign c v rest
  end.

(** The values of a column as floats (an integral column is cast). *)
Definition as_float (v : column F) : Series :=
  match v with
  | FloatCol l => l
  | IntCol l => map of_int l
  end.

(** The values of a grouping column; only integral keys are modelled. *)
Definition as_keys (v : column F) : result (list Z) :=
  match v with
  | IntCol l => Ok l
  | FloatCol _ => Raise TypeError
  end.

(** Keep the positions where the boolean mask is True. *)
Fixpoint mask_select {A} (mask : list bool) (l : list A) : list A :=
  match mask, l with
  | b :: mask', x :: l' =>
      if b then x :: mask_select mask' l' else mask_select mask' l'
  | _, _ => []
  end.

Definition mask_column (mask : list bool) (v : column F) : column F :=
  match v with
  | IntCol l => IntCol (mask_select mask l)
  | FloatCol l => FloatCol (mask_select mask l)
  end.

(** [d[mask]] as a value *)
Definition mask_frame (mask : list bool) (d : DataFrame F) : DataFrame F :=
  {| index := mask_select mask (index d);
     columns := map (fun cv => (fst cv, mask_column mask (snd cv)))
                    (columns d) |}.

(** *** Frames as objects *)

Definition alloc_frame (d : DataFrame F) : Py F nat :=
  fun st => (set_frames (frames st ++ [d]) st, Ok (length (frames st))).

Definition read_frame (r : nat) : Py F (DataFrame F) :=
  fun st =>
    match frames st !! r with
    | Some d => (st, Ok d)
    | None => (st, Raise TypeError)
    end.

(** [data[[c1, ..., cn]]] builds a new frame object *)
Definition getitem_list (data : nat) (cs : list string) : Py F nat :=
  let* d := read_frame data in
  let* cols := lift (select d cs) in
  alloc_frame {| index := index d; columns := cols |}.

(** [df.copy(deep=True)] *)
Definition copy_deep (r : nat) : Py F nat :=
  let* d := read_frame r in
  alloc_frame d.

(** [df[c]] read as a Series *)
Definition getitem (r : nat) (c : string) : Py F (column F) :=
  let* d := read_frame r in
  lift (get_column d c).

(** [df[c] = v]: mutates the object [df] refers to *)
Definition setitem (r : nat) (c : string) (v : column F) : Py F unit :=
  let* d := read_frame r in
  modify (fun st =>
    set_frames
      (<[r := {| index := index d; columns := assign c v (columns d) |}]>
         (frames st)) st).

(** [df[mask]] builds a new frame object *)
Definition getitem_mask (r : nat) (mask : list bool) : Py F nat :=
  let* d := read_frame r in
  alloc_frame (mask_frame mask d).

(** [df.groupby(key)[c].transform(agg)] *)
Definition groupby_transform_of (r : nat) (key c : string)
    (agg : Series -> F) : Py F Series :=
  let* k := getitem r key in
  let* keys := lift (as_keys k) in
  let* v := getitem r c in
  ret (groupby_transform agg keys (as_float v)).

(** *** Axes and figures *)

Definition new_axes : Axes F :=
  {| artists := []; ax_title := ""; ax_xlabel := ""; ax_ylabel := "";
     ylim := None; labelbottom := true |}.

Definition read_axes (a : nat) : Py F (Axes F) :=
  fun st =>
    match axes st !! a with
    | Some x => (st, Ok x)
    | None => (st, Raise TypeError)
    end.

Definition update_axes (a : nat) (f : Axes F -> Axes F) : Py F unit :=
  let* x := read_axes a in
  modify (fun st => set_axes (<[a := f x]> (axes st)) st).

Definition sns_set (style : string) : Py F unit :=
  modify (set_sns_style (Some style)).

Definition draw (p : artist F) (x : Axes F) : Axes F :=
  {| artists := artists x ++ [p]; ax_title := ax_title x;
     ax_xlabel := ax_xlabel x; ax_ylabel := ax_ylabel x;
     ylim := ylim x; labelbottom := labelbottom x |}.

(** [sns.boxplot(ax=ax, data=df, x=x, y=y)]: draws on [ax], returns it *)
Definition sns_boxplot (ax df : nat) (x y : string) : Py F nat :=
  let* kx := getitem df x in
  let* keys := lift (as_keys kx) in
  let* vy := getitem df y in
  update_axes ax (draw (BoxPlot keys (as_float vy))) ;;;
  ret ax.

(** [sns.heatmap(data, vmin=, vmax=, ax=ax)]: draws on [ax], returns it *)
Definition sns_heatmap (ax : nat) (cols : list Z) (vals : list F)
    (vmin vmax : F) : Py F nat :=
  update_axes ax (draw (HeatMap cols vals vmin vmax)) ;;;
  ret ax.

Definition set_title (ax : nat) (t : string) : Py F unit :=
  update_axes ax (fun x =>
    {| artists := artists x; ax_title := t; ax_xlabel := ax_xlabel x;
       ax_ylabel := ax_ylabel x; ylim := ylim x;
       labelbottom := labelbottom x |}).

Definition set_xlabel (ax : nat) (t : string) : Py F unit :=
  update_axes ax (fun x =>
    {| artists := artists x; ax_title := ax_title x; ax_xlabel := t;
       ax_ylabel := ax_ylabel x; ylim := ylim x;
       labelbottom := labelbottom x |}).

Definition set_ylabel (ax : nat) (t : string) : Py F unit :=
  update_axes ax (fun x =>
    {| artists := artists x; ax_title := ax_title x;
       ax_xlabel := ax_xlabel x; ax_ylabel := t; ylim := ylim x;
       labelbottom := labelbottom x |}).

(** [ax.set_ylim(lo, hi)]: matplotlib refuses limits that are NaN or Inf *)
Definition set_ylim (ax : nat) (lo hi : F) : Py F unit :=
  if isfinite lo && isfinite hi then
    update_axes ax (fun x =>
      {| artists := artists x; ax_title := ax_title x;
         ax_xlabel := ax_xlabel x; ax_ylabel := ax_ylabel x;
         ylim := Some (lo, hi); labelbottom := labelbottom x |})
  else raise ValueError.

(** [ax.tick_params(axis='x', labelbottom=b)] *)
Definition tick_params (ax : nat) (b : bool) : Py F unit :=
  update_axes ax (fun x =>
    {| artists := artists x; ax_title := ax_title x;
       ax_xlabel := ax_xlabel x; ax_ylabel := ax_ylabel x;
       ylim := ylim x; labelbottom := b |}).

(** [plt.subplots(nrows=n, ncols=1, figsize=size)].  One row yields the
    Axes itself, two or more an array of Axes.  What matplotlib does when
    asked for zero rows is left open: [zero_rows] is the exception it
    raises, if any. *)
Definition plt_subplots (zero_rows : option exn) (n : nat) (size : Z * Z)
    : Py F (nat * AxesResult) :=
  match n, zero_rows with
  | 0, Some e => raise e
  | _, _ =>
      let* first := gets (fun st => length (axes st)) in
      let axs := seq first n in
      modify (fun st => set_axes (axes st ++ repeat new_axes n) st) ;;;
      let* fig := gets (fun st => length (figures st)) in
      modify (fun st =>
        set_figures (figures st ++
          [{| figsize := size; fig_axes := axs; fig_suptitle := None;
              adjust := None |}]) st) ;;;
      ret (fig, match axs with [a] => OneAxes a | _ => AxesArray axs end)
  end.

(** [axes[i]] *)
Definition subscript (a : AxesResult) (i : nat) : Py F nat :=
  match a with
  | OneAxes _ => raise TypeError
  | AxesArray axs =>
      match axs !! i with
      | Some ax => ret ax
      | None => raise TypeError
      end
  end.

Definition update_figure (g : nat) (f : Figure F -> Figure F)
    : Py F unit :=
  fun st =>
    match figures st !! g with
    | Some x => (set_figures (<[g := f x]> (figures st)) st, Ok tt)
    | None => (st, Raise TypeError)
    end.

Definition fig_set_suptitle (g : nat) (t : string) : Py F unit :=
  update_figure g (fun x =>
    {| figsize := figsize x; fig_axes := fig_axes x;
       fig_suptitle := Some t; adjust := adjust x |}).

Definition subplots_adjust (g : nat) (hspace top : F) : Py F unit :=
  update_figure g (fun x =>
    {| figsize := figsize x; fig_axes := fig_axes x;
       fig_suptitle := fig_suptitle x; adjust := Some (hspace, top) |}).

(** [a / b] on Python integers: true division, ZeroDivisionError on 0 *)
Definition int_truediv (a b : Z) : Py F F :=
  if Z.eqb b 0 then raise ZeroDivisionError
  else ret (fdiv (of_int a) (of_int b)).

(** [for i, x in enumerate(l): body i x] *)
Fixpoint for_enumerate {A} (start : nat) (l : list A)
    (body : nat -> A -> Py F unit) : Py F unit :=
  match l with
  | [] => ret tt
  | x :: l' => body start x ;;; for_enumerate (S start) l' body
  end.

(** *** Grouped aggregation *)

(** The distinct keys in ascending order: the index of a grouped result. *)
Fixpoint insert_key (k : Z) (l : list Z) : list Z :=
  match l with
  | [] => [k]
  | x :: l' =>
      if (k <? x)%Z then k :: l
      else if (k =? x)%Z then l
      else x :: insert_key k l'
  end.

Definition group_keys (keys : list Z) : list Z :=
  fold_right insert_key [] keys.

Definition sum_int (l : list Z) : Z := fold_right Z.add 0%Z l.

(** 'count' counts the values that are not NA; an integral column has
    none, so it is the size of the group. *)
Definition count_int (l : list Z) : Z := Z.of_nat (length l).

(** [df.groupby(key)[c].agg(['sum', 'count'])] on an integral column: a
    new frame indexed by the group keys. *)
Definition groupby_agg_sum_count (r : nat) (key c : string) : Py F nat :=
  let* k := getitem r key in
  let* keys := lift (as_keys k) in
  let* v := getitem r c in
  let* vals := lift (as_keys v) in
  let hs := group_keys keys in
  alloc_frame
    {| index := hs;
       columns :=
         [("sum"%string,
           IntCol (map (fun h => sum_int (group_values keys vals h)) hs));
          ("count"%string,
           IntCol (map (fun h => count_int (group_values keys vals h)) hs))]
    |}.

(** Element-wise [a / b]: true division, the result is float64. *)
Fixpoint series_truediv (a b : Series) : Series :=
  match a, b with
  | x :: a', y :: b' => fdiv x y :: series_truediv a' b'
  | _, _ => []
  end.

(** [grouped.pivot_table(columns=key, values=c)] of a frame indexed by
    [key] with one row per key: a single row holding, for each key, the
    mean of its one value, i.e. the value. *)
Definition pivot_table (r : nat) (c : string) : Py F (list Z * list F) :=
  let* d := read_frame r in
  let* v := lift (get_column d c) in
  ret (index d, as_float v).

End Library.

(** ** The notebook *)

Section Notebook.

Context {F : Type} `{Float64 F}.

Local Open Scope string_scope.

(** *** Important directories *)

(** [os.path.join(a, b)] for a relative [b] *)
Fixpoint ends_with_slash (a : string) : bool :=
  match a with
  | EmptyString => false
  | String c EmptyString => Ascii.eqb c "/"%char
  | String _ rest => ends_with_slash rest
  end.

Definition path_join (a b : string) : string :=
  match a with
  | EmptyString => b
  | _ => if ends_with_slash a then a +:+ b else a +:+ "/" +:+ b
  end.

(** [os.path.dirname(p)]: everything before the last slash, without
    trailing slashes unless it consists of slashes only. *)
Fixpoint head_of (p : string) : string :=
  match p with
  | EmptyString => EmptyString
  | String c rest =>
      match head_of rest with
      | EmptyString => if Ascii.eqb c "/"%char then "/" else EmptyString
      | h => String c h
      end
  end.

Fixpoint all_slashes (p : string) : bool :=
  match p with
  | EmptyString => true
  | String c rest => Ascii.eqb c "/"%char && all_slashes rest
  end.

Fixpoint rstrip_slashes (p : string) : string :=
  match p with
  | EmptyString => EmptyString
  | String c rest =>
      if all_slashes p then EmptyString else String c (rstrip_slashes rest)
  end.

Definition dirname (p : string) : string :=
  let head := head_of p in
  if all_slashes head then head else rstrip_slashes head.

Definition ROOT_DIR (cwd : string) : string := dirname cwd.
Definition DATA_DIR (cwd : string) : string := path_join (ROOT_DIR cwd) "data".
Definition LOG_DIR (cwd : string) : string := path_join (ROOT_DIR cwd) "logs".

(** *** Setup logging *)

(** [logger.hasHandlers()]: the logger or, since it propagates, one of its
    ancestors has a handler. *)
Definition hasHandlers : Py F bool :=
  gets (fun st =>
    match handlers st, root_handlers st with
    | [], [] => false
    | _, _ => true
    end).

(** [os.mkdir(d)] *)
Definition os_mkdir (d : string) : Py F unit :=
  fun st =>
    if decide (d ∈ dirs st) then (st, Raise FileExistsError)
    else (set_dirs ({[d]} ∪ dirs st) st, Ok tt).

(** [logging.FileHandler(path, mode='w')]: the file is opened right away,
    which creates it or truncates it. *)
Definition new_FileHandler_w (path : string) : Py F Handler :=
  modify (fun st => set_files (<[path := LogFile []]> (files st)) st) ;;;
  ret {| kind := FileHandler path; hlevel := 0; formatter := None |}.

Definition setLevel (l : nat) (h : Handler) : Handler :=
  {| kind := kind h; hlevel := l; formatter := formatter h |}.

Definition setFormatter (f : string) (h : Handler) : Handler :=
  {| kind := kind h; hlevel := hlevel h; formatter := Some f |}.

Definition addHandler (h : Handler) : Py F unit :=
  modify (fun st => set_handlers (handlers st ++ [h]) st).

Definition is_FileExistsError (e : exn) : bool :=
  match e with FileExistsError => true | _ => false end.

Definition newline : string := String "010"%char EmptyString.
Definition tab : string := String "009"%char EmptyString.

(** '%(asctime)s - %(name)s - %(levelname)s:\n\t\t%(message)s' *)
Definition log_format : string :=
  "%(asctime)s - %(name)s - %(levelname)s:" +:+ newline +:+ tab +:+ tab +:+
  "%(message)s".

Definition log_file (cwd : string) : string :=
  path_join (LOG_DIR cwd) "data-exploration.log".

(** The cell "Setup logging", up to the definition of [loadData]. *)
Definition setup_logging (cwd : string) : Py F unit :=
  modify (set_logger_level (Some DEBUG)) ;;;
  let* has := hasHandlers in
  (if has then
     (* for handler in logger.handlers[:]: logger.removeHandler(handler) *)
     modify (set_handlers [])
   else ret tt) ;;;
  let* has := hasHandlers in
  if negb has then
    try_except (os_mkdir (LOG_DIR cwd)) is_FileExistsError (ret tt) ;;;
    let* fh := new_FileHandler_w (log_file cwd) in
    let fh := setLevel DEBUG fh in
    let ch := {| kind := StreamHandler; hlevel := 0; formatter := None |} in
    let ch := setLevel CRITICAL ch in
    let fh := setFormatter log_format fh in
    let ch := setFormatter log_format ch in
    addHandler fh ;;;
    addHandler ch
  else ret tt.

(** *** Function to load the datasets *)

(** [pd.read_parquet(path)] *)
Definition read_parquet (path : string) : Py F nat :=
  let* fs := gets files in
  match fs !! path with
  | Some (Parquet df) => alloc_frame df
  | Some (LogFile _) => raise OSError
  | None => raise (FileNotFoundError path)
  end.

Definition featuresPath (cwd s : string) : string :=
  path_join (DATA_DIR cwd) ("set-" +:+ s +:+ ".parquet.gzip").

Definition labelsPath (cwd s : string) : string :=
  path_join (DATA_DIR cwd) ("set-" +:+ s +:+ "-outcomes.parquet.gzip").

Definition names : list string := ["a"; "b"; "c"].

(** The loop of [loadData]: [dataSets] is the list built so far. *)
Fixpoint load_loop (cwd : string) (todo : list string)
    (dataSets : list (nat * nat)) : Py F (list (nat * nat)) :=
  match todo with
  | [] => ret dataSets
  | s :: rest =>
      let* dfFeatures := read_parquet (featuresPath cwd s) in
      let* dfLabels := read_parquet (labelsPath cwd s) in
      load_loop cwd rest (dataSets ++ [(dfFeatures, dfLabels)])
  end.

Definition loadData (cwd : string) : Py F (list (nat * nat)) :=
  load_loop cwd names [].

(** *** Preparations *)

Definition LIST_VARIABLE_TS : list string := [
  "ALP"; "ALT"; "AST"; "Albumin"; "BUN"; "Bilirubin";
  "Cholesterol"; "Creatinine"; "DiasABP"; "FiO2"; "GCS"; "Glucose";
  "HCO3"; "HCT"; "HR"; "ICUType"; "K"; "Lactate"; "MAP"; "MechVent";
  "Mg"; "NIDiasABP"; "NIMAP"; "NISysABP"; "Na"; "PaCO2"; "PaO2"; "Platelets";
  "RespRate"; "SaO2"; "SysABP"; "Temp"; "TroponinI"; "TroponinT"; "Urine";
  "WBC"; "pH"
].

(** *** Boxplots *)

(** [title if title else default]: None and the empty string are falsy *)
Definition title_or (title : option string) (default : string) : string :=
  match title with
  | Some EmptyString | None => default
  | Some t => t
  end.

(** One row of the mask
    [pd.isna(v) | (v >= quantile_low) & (v <= quantile_high)] *)
Definition keep_row (v lo hi : F) : bool :=
  isna v || (fge v lo && fle v hi).

Fixpoint keep_mask (v lo hi : Series) : list bool :=
  match v, lo, hi with
  | x :: v', l :: lo', h :: hi' => keep_row x l h :: keep_mask v' lo' hi'
  | _, _, _ => []
  end.

(** [np.max((np.abs(s).max(), 0.05))] *)
Definition y_abs_max (s : Series) : F :=
  np_max2 (series_max (map fabs s)) (lit 5 100).

Definition boxplotTimeSeries (ax data : nat) (variable : string)
    (title : option string) : Py F nat :=
  sns_set "whitegrid" ;;;
  let* sel := getitem_list data ["Hour"; variable] in
  let* df := copy_deep sel in
  (* We normalize the hourly data around its median for better display *)
  let* medians := groupby_transform_of df "Hour" variable median in
  let* v := getitem df variable in
  setitem df variable (FloatCol (series_sub (as_float v) medians)) ;;;
  let* qlo := groupby_transform_of df "Hour" variable
                (quantile (lit 25 1000)) in
  setitem df "quantile_low" (FloatCol qlo) ;;;
  let* qhi := groupby_transform_of df "Hour" variable
                (quantile (lit 975 1000)) in
  setitem df "quantile_high" (FloatCol qhi) ;;;
  (* We drop everything outside the 95% quantile range *)
  let* v := getitem df variable in
  let* lo := getitem df "quantile_low" in
  let* hi := getitem df "quantile_high" in
  let* df := getitem_mask df
               (keep_mask (as_float v) (as_float lo) (as_float hi)) in
  let* plt := sns_boxplot ax df "Hour" variable in
  set_title plt (title_or title
    ("Distribution of " +:+ variable +:+ " around its median")) ;;;
  set_xlabel plt "" ;;;
  set_ylabel plt "" ;;;
  (* we symmetrically set the y-axis limits *)
  let* v := getitem df variable in
  let y_abs_max := y_abs_max (as_float v) in
  set_ylim plt (fneg y_abs_max) y_abs_max ;;;
  ret plt.

(** The columns [boxplotTimeSeries] computes from the Hour column and the
    column of the variable, named after the source's own columns. *)

(** [df[variable]] after [df[variable] = df[variable] - medians] *)
Definition centered (hours : list Z) (v : Series) : Series :=
  series_sub v (groupby_transform median hours v).

(** [df['quantile_low']] and [df['quantile_high']] *)
Definition quantile_low (hours : list Z) (v : Series) : Series :=
  groupby_transform (quantile (lit 25 1000)) hours (centered hours v).

Definition quantile_high (hours : list Z) (v : Series) : Series :=
  groupby_transform (quantile (lit 975 1000)) hours (centered hours v).

(** the mask of the rows that survive the trim *)
Definition trim_mask (hours : list Z) (v : Series) : list bool :=
  keep_mask (centered hours v) (quantile_low hours v)
    (quantile_high hours v).

(** [df[variable]] after the trim: the values handed to seaborn *)
Definition trimmed (hours : list Z) (v : Series) : Series :=
  mask_select (trim_mask hours v) (centered hours v).

Definition boxPlotTimeSeriesMultiple (zero_rows : option exn) (data : nat)
    (variables : list string) (title : option string) : Py F unit :=
  let n := length variables in
  let* (fig, axes) :=
    plt_subplots zero_rows n (12, 3 * Z.of_nat n)%Z in
  for_enumerate 0 variables (fun i variable =>
    let* ax := subscript axes i in
    let* plot := boxplotTimeSeries ax data variable (Some variable) in
    let* ax := subscript axes i in
    tick_params ax false) ;;;
  fig_set_suptitle fig (title_or title
    ("Boxplots of Time Series Variables" +:+ "around the hourly median")) ;;;
  let* q := int_truediv 1 (Z.of_nat n) in
  subplots_adjust fig (lit 2 10) (fsub (of_int 1) q).

(** *** Missingness *)

(** [s.isna().astype(int)] *)
Definition isna_int (v : column F) : column F :=
  match v with
  | FloatCol l => IntCol (map (fun x => if isna x then 1%Z else 0%Z) l)
  | IntCol l => IntCol (map (fun _ => 0%Z) l)
  end.

Definition missingHeatMap (ax data : nat) (variable : string)
    (title : option string) : Py F nat :=
  sns_set "whitegrid" ;;;
  let* sel := getitem_list data ["Hour"; variable] in
  let* df := copy_deep sel in
  let* v := getitem df variable in
  setitem df "missing" (isna_int v) ;;;
  let* grouped := groupby_agg_sum_count df "Hour" "missing" in
  let* s := getitem grouped "sum" in
  let* c := getitem grouped "count" in
  setitem grouped "pct_missing"
    (FloatCol (series_truediv (as_float s) (as_float c))) ;;;
  let* heatmap_data := pivot_table grouped "pct_missing" in
  let* plt := sns_heatmap ax (fst heatmap_data) (snd heatmap_data)
                (of_int 0) (of_int 1) in
  set_title plt (title_or title
    ("Distribution of " +:+ variable +:+ " around its median")) ;;;
  set_xlabel plt "" ;;;
  set_ylabel plt "" ;;;
  ret plt.

(** The columns [missingHeatMap] computes from the Hour column and the
    column of the variable. *)

(** [df['missing']] *)
Definition missing_flags (v : Series) : list Z :=
  map (fun x => if isna x then 1%Z else 0%Z) v.

(** [grouped['sum']], [grouped['count']] and [grouped['pct_missing']],
    one entry per hour of [group_keys hours] *)
Definition missing_sum (hours : list Z) (v : Series) : list Z :=
  map (fun h => sum_int (group_values hours (missing_flags v) h))
      (group_keys hours).

Definition missing_count (hours : list Z) (v : Series) : list Z :=
  map (fun h => count_int (group_values hours (missing_flags v) h))
      (group_keys hours).

Definition pct_missing (hours : list Z) (v : Series) : Series :=
  series_truediv (map of_int (missing_sum hours v))
                 (map of_int (missing_count hours v)).

Definition missingHeatMapMultiple (zero_rows : option exn) (data : nat)
    (variables : list string) (title : option string) : Py F unit :=
  let n := length variables in
  let* (fig, axes) :=
    plt_subplots zero_rows n (12, 2 * Z.of_nat n)%Z in
  for_enumerate 0 variables (fun i variable =>
    let* ax := subscript axes i in
    let* plot := missingHeatMap ax data variable (Some variable) in
    let* ax := subscript axes i in
    tick_params ax false) ;;;
  fig_set_suptitle fig (title_or title
    "Heatmaps of Missingness of Time Series Variables") ;;;
  let* q := int_truediv 1 (Z.of_nat n) in
  subplots_adjust fig (lit 2 10) (fsub (of_int 1) q).

End Notebook.

(** ** Vocabulary of the frame property *)

Section FrameDef.

Context {F : Type} `{Float64 F}.

(** [keeps old c post]: running [c] leaves the frame objects [old] that
    existed beforehand as they were (the heap of frames only grows, and
    only new frames are written to), and a value it returns satisfies
    [post]. *)
Definition keeps {A} (old : list (DataFrame F)) (c : Py F A)
    (post : A -> Prop) : Prop :=
  forall st, old `prefix_of` frames st ->
    old `prefix_of` frames (fst (c st)) /\
    forall a, snd (c st) = Ok a -> post a.
End FrameDef.

(** What the stacked entry points raise on a list of fewer than two
    variables. *)
Definition stacked_error (zero_rows : option exn) (variables : list string)
    : exn :=
  match variables, zero_rows with
  | [], Some e => e
  | [], None => ZeroDivisionError
  | _, _ => TypeError
  end.

(** ** Concrete tables and states *)

Module Examples.

Import Binary64 Exact.

Local Open Scope string_scope.

Definition rational (z : Z) : cell := Some (inject_Z z).

(** X = 10, 12, 100 at hour 0 (two ordinary values and an outlier) and
    20, missing at hour 1. *)
Definition scenario_hours : list Z := [0; 0; 0; 1; 1]%Z.

Definition scenario_X : list cell :=
  [rational 10; rational 12; rational 100; rational 20; None].

(** Two temperatures, 36.6 and 36.7, taken in the same hour. *)
Definition temp_hours : list Z := [0; 0]%Z.

Definition temp_values : list float := [lit 366 10; lit 367 10].

(** Two neighbouring floats, 1 and 1 + 2^-52, taken in the same hour. *)
Definition neighbour_values : list float :=
  [b64 1 0; b64 4503599627370497 (-52)].

(** A variable that is missing throughout. *)
Definition missing_hours : list Z := [0; 1]%Z.

Definition missing_values : list float := [S754_nan; S754_nan].

Definition missing_table : DataFrame float :=
  {| index := [0; 1]%Z;
     columns := [("Hour", IntCol missing_hours);
                 ("X", FloatCol missing_values)] |}.

Definition scenario_table : DataFrame cell :=
  {| index := [0; 1; 2; 3; 4]%Z;
     columns := [("Hour", IntCol scenario_hours);
                 ("X", FloatCol scenario_X)] |}.

Definition empty_state {F : Type} : State F :=
  {| frames := []; axes := []; figures := []; files := ∅; dirs := ∅;
     logger_level := None; handlers := []; root_handlers := [];
     sns_style := None |}.

(** One table on the heap and one Axes to draw on. *)
Definition state_with {F : Type} `{Float64 F} (d : DataFrame F) : State F :=
  set_axes [new_axes] (set_frames [d] empty_state).

Definition cwd : string := "/home/user/project/notebooks".

Definition outcomes : DataFrame cell :=
  {| index := [0]%Z; columns := [("RecordID", IntCol [132539]%Z);
                                 ("In-hospital_death", IntCol [0]%Z)] |}.

(** A project directory with the six data files and a log file left by an
    earlier run. *)
Definition full_disk : State cell :=
  set_files
    (<[featuresPath cwd "a" := Parquet scenario_table]>
     (<[labelsPath cwd "a" := Parquet outcomes]>
     (<[featuresPath cwd "b" := Parquet scenario_table]>
     (<[labelsPath cwd "b" := Parquet outcomes]>
     (<[featuresPath cwd "c" := Parquet scenario_table]>
     (<[labelsPath cwd "c" := Parquet outcomes]>
     (<[log_file cwd :=
          LogFile [{| levelno := DEBUG; message := "earlier run" |}]]>
      ∅)))))))
    empty_state.

(** The same without the label file of partition b. *)
Definition disk_without_b_outcomes : State cell :=
  set_files (delete (labelsPath cwd "b") (files full_disk)) full_disk.

End Examples.

(** ** Vocabulary of the stacked figures *)

Section Panels.

Context {F : Type} `{Float64 F}.

Local Open Scope string_scope.

(** The Axes of a stacked figure after [boxplotTimeSeries] and
    [tick_params] have worked on it, for a variable whose bound is finite. *)
Definition box_panel (hours : list Z) (v : Series) (variable : string)
    : Axes F :=
  {| artists := [BoxPlot (mask_select (trim_mask hours v) hours)
                         (trimmed hours v)];
     ax_title := title_or (Some variable)
                   ("Distribution of " +:+ variable +:+ " around its median");
     ax_xlabel := ""; ax_ylabel := "";
     ylim := Some (fneg (y_abs_max (trimmed hours v)),
                   y_abs_max (trimmed hours v));
     labelbottom := false |}.

(** The Axes of a stacked figure after [missingHeatMap] and [tick_params]
    have worked on it. *)
Definition heat_panel (hours : list Z) (v : Series) (variable : string)
    : Axes F :=
  {| artists := [HeatMap (group_keys hours) (pct_missing hours v)
                         (of_int 0) (of_int 1)];
     ax_title := title_or (Some variable)
                   ("Distribution of " +:+ variable +:+ " around its median");
     ax_xlabel := ""; ax_ylabel := "";
     ylim := None;
     labelbottom := false |}.

(** The figure of a stack of [n] Axes, the first of which is [first]. *)
Definition stacked_figure (height : Z) (first n : nat) (suptitle : string)
    : Figure F :=
  {| figsize := (12, height * Z.of_nat n)%Z;
     fig_axes := seq first n;
     fig_suptitle := Some suptitle;
     adjust := Some (lit 2 10,
                     fsub (of_int 1)
                          (fdiv (of_int 1) (of_int (Z.of_nat n)))) |}.

(** The bound of the variable is finite, so that [set_ylim] accepts it. *)
Definition finite_bound (hours : list Z) (v : Series) : bool :=
  isfinite (fneg (y_abs_max (trimmed hours v))) &&
  isfinite (y_abs_max (trimmed hours v)).

End Panels.

(** ** Vocabulary of what a call leaves alone *)

Section Outside.

Context {F : Type} `{Float64 F}.

(** The part of the state outside the interpreter's plotting objects: the
    files, the directories and the logger with its handlers. *)
Definition outside (st : State F)
    : gmap string (File F) * gset string * option nat *
      list Handler * list Handler :=
  (files st, dirs st, logger_level st, handlers st, root_handlers st).

(** [quiet c]: whatever [c] does, it leaves the files, the directories and
    the logger as they were. *)
Definition quiet {A} (c : Py F A) : Prop :=
  forall st, outside (fst (c st)) = outside st.

End Outside.

(** ** Vocabulary of the loader's reads *)

Section Reads.

Context {F : Type} `{Float64 F}.

(** The paths of a list of partitions in the order in which the loop of
    [loadData] reads them: features first, then labels. *)
Definition paths_of (cwd : string) (todo : list string) : list string :=
  flat_map (fun s => [featuresPath cwd s; labelsPath cwd s]) todo.

(** The six paths [loadData] reads, in order. *)
Definition read_order (cwd : string) : list string := paths_of cwd names.

(** The file at the path is a table. *)
Definition is_table (fs : gmap string (File F)) (p : string) : Prop :=
  exists t, fs !! p = Some (Parquet t).

(** The tables held by the files at the given paths, in order. *)
Definition tables_at (fs : gmap string (File F)) (ps : list string)
    : list (DataFrame F) :=
  flat_map (fun p => match fs !! p with
                     | Some (Parquet t) => [t]
                     | _ => []
                     end) ps.

End Reads.

(** ** Vocabulary of paths *)

(** The name holds no slash: it is a single path component. *)
Fixpoint slash_free (s : string) : bool :=
  match s with
  | EmptyString => true
  | String c rest => negb (Ascii.eqb c "/"%char) && slash_free rest
  end.

(** A directory name as [dirname] yields it: nothing but slashes (the root,
    or empty), or free of a trailing slash. *)
Definition tidy (r : string) : bool :=
  all_slashes r || negb (ends_with_slash r).

(** ** Further tables and states *)

Module Cases.

Import Binary64 Exact Examples.

Local Open Scope string_scope.

(** A second variable beside X: four values and a missing one. *)
Definition scenario_Y : list cell :=
  [rational 1; rational 2; rational 3; rational 4; None].

Definition two_variable_table : DataFrame cell :=
  {| index := [0; 1; 2; 3; 4]%Z;
     columns := [("Hour", IntCol scenario_hours);
                 ("X", FloatCol scenario_X);
                 ("Y", FloatCol scenario_Y)] |}.

Definition two_variable_column (variable : string) : list cell :=
  if String.eqb variable "X" then scenario_X else scenario_Y.

(** A variable with values beside one that is missing throughout. *)
Definition present_values : list float := [of_int 1; of_int 2].

Definition half_missing_table : DataFrame float :=
  {| index := [0; 1]%Z;
     columns := [("Hour", IntCol missing_hours);
                 ("X", FloatCol present_values);
                 ("Y", FloatCol missing_values)] |}.

Definition half_missing_column (variable : string) : list float :=
  if String.eqb variable "X" then present_values else missing_values.

(** A process whose root logger has a handler already. *)
Definition configured_state : State cell :=
  {| frames := []; axes := []; figures := []; files := ∅; dirs := ∅;
     logger_level := None;
     handlers := [{| kind := StreamHandler; hlevel := 0;
                     formatter := None |}];
     root_handlers := [{| kind := StreamHandler; hlevel := 0;
                          formatter := None |}];
     sns_style := None |}.

(** Two different observations in one hour, and a third in another. *)
Definition pair_hours : list Z := [7; 7; 8]%Z.

Definition pair_values : list cell := [rational 1; rational 2; rational 5].

(** Three different observations in one hour. *)
Definition triple_hours : list Z := [7; 7; 7]%Z.

Definition triple_values : list cell := [rational 1; rational 2; rational 3].

(** A feature table with a column for each time series variable. *)
Definition ward_table : DataFrame cell :=
  {| index := [0; 1; 2; 3; 4]%Z;
     columns := ("Hour", IntCol scenario_hours) ::
                map (fun variable => (variable, FloatCol scenario_X))
                    LIST_VARIABLE_TS |}.

Definition ward_disk : State cell :=
  set_files (<[featuresPath cwd "a" := Parquet ward_table]>
               (files full_disk)) full_disk.

End Cases.

(** * Properties *)

(** ** The two implementations of float64 cells obey the laws *)

Lemma SFcompare_finite_pos (m1 m2 : positive) (e1 e2 : Z) :
  SFcompare (S754_finite false m1 e1) (S754_finite false m2 e2) =
  Some (match (e1 ?= e2)%Z with
        | Lt => Lt | Gt => Gt | Eq => (m1 ?= m2)%positive end).
Proof. reflexivity. Qed.

Lemma SFcompare_finite_neg (m1 m2 : positive) (e1 e2 : Z) :
  SFcompare (S754_finite true m1 e1) (S754_finite true m2 e2) =
  Some (match (e1 ?= e2)%Z with
        | Lt => Gt | Gt => Lt | Eq => CompOpp (m1 ?= m2)%positive end).
Proof. reflexivity. Qed.

Lemma SFleb_trans (x y z : spec_float) :
  SFleb x y = true -> SFleb y z = true -> SFleb x z = true.
Proof.
  unfold SFleb.
  destruct x as [sx|sx| |sx mx ex], y as [sy|sy| |sy my ey],
    z as [sz|sz| |sz mz ez];
    try (destruct sx); try (destruct sy); try (destruct sz);
    try (cbn; congruence);
    rewrite ?SFcompare_finite_pos, ?SFcompare_finite_neg;
    destruct (Z.compare_spec ex ey), (Z.compare_spec ey ez),
      (Z.compare_spec ex ez);
    destruct (Pos.compare_spec mx my), (Pos.compare_spec my mz),
      (Pos.compare_spec mx mz);
    cbn; try congruence; lia.
Qed.

Lemma SFleb_total (x y : spec_float) :
  Binary64.is_nan x = false -> Binary64.is_nan y = false ->
  SFleb x y = true \/ SFleb y x = true.
Proof.
  unfold SFleb.
  destruct x as [sx|sx| |sx mx ex], y as [sy|sy| |sy my ey];
    try (destruct sx); try (destruct sy); cbn; try tauto; try congruence;
    intros _ _;
    change (Pos.compare_cont Eq mx my) with (mx ?= my)%positive;
    change (Pos.compare_cont Eq my mx) with (my ?= mx)%positive;
    destruct (Z.compare_spec ex ey), (Z.compare_spec ey ex);
    destruct (Pos.compare_spec mx my), (Pos.compare_spec my mx);
    cbn; try tauto; lia.
Qed.

(** The decimal literals of the notebook, as binary64 values: 0.025 is
    0x1.999999999999ap-6, 0.975 is 0x1.f333333333333p-1 and 0.05 is
    0x1.999999999999ap-5. *)
Lemma binary64_literals :
  (lit 25 1000 : Binary64.float) = S754_finite false 7205759403792794 (-58) /\
  (lit 975 1000 : Binary64.float) = S754_finite false 8782019273372467 (-53) /\
  (lit 5 100 : Binary64.float) = S754_finite false 7205759403792794 (-57).
Proof. repeat split; vm_compute; reflexivity. Qed.

#[global] Instance binary64_laws : Float64Laws Binary64.float.
Proof.
  split.
  - reflexivity.
  - intros [ | | | ] y; cbn; try discriminate. reflexivity.
  - intros [ | | | ]; reflexivity.
  - intros x y; unfold fle; cbn; unfold SFleb.
    destruct x, y; cbn; try discriminate; auto.
  - intros [s|s| |s m e]; cbn; try discriminate; intros _; unfold SFleb.
    + reflexivity.
    + destruct s; reflexivity.
    + destruct s; rewrite ?SFcompare_finite_pos, ?SFcompare_finite_neg;
        rewrite Z.compare_refl, Pos.compare_refl; reflexivity.
  - exact SFleb_trans.
  - exact SFleb_total.
  - vm_compute. reflexivity.
Qed.

#[global] Instance exact_laws : Float64Laws Exact.cell.
Proof.
  split.
  - reflexivity.
  - intros [x|] y; cbn; [discriminate | reflexivity].
  - intros [x|]; reflexivity.
  - intros [x|] [y|]; cbn; try discriminate; auto.
  - intros [x|]; cbn; [|discriminate]. intros _. apply Qle_bool_iff. lra.
  - intros [x|] [y|] [z|]; cbn; try discriminate.
    rewrite !Qle_bool_iff. lra.
  - intros [x|] [y|]; cbn; try discriminate. intros _ _.
    rewrite !Qle_bool_iff. lra.
  - reflexivity.
Qed.

(** ** Row-wise reading of the column operations *)

Section Rows.

Context {F : Type} `{Float64 F}.

Lemma lookup_map {A B} (f : A -> B) (l : list A) (i : nat) :
  map f l !! i = option_map f (l !! i).
Proof.
  revert i; induction l as [|a l IH]; intros [|i]; cbn; auto.
Qed.

Lemma length_series_sub (s1 s2 : Series) :
  length (series_sub s1 s2) = Nat.min (length s1) (length s2).
Proof.
  revert s2; induction s1 as [|x s1 IH]; intros [|y s2]; cbn; auto.
Qed.

Lemma lookup_series_sub (s1 s2 : Series) (i : nat) (x y : F) :
  s1 !! i = Some x -> s2 !! i = Some y ->
  series_sub s1 s2 !! i = Some (fsub x y).
Proof.
  revert s2 i; induction s1 as [|a s1 IH]; intros [|b s2] [|i]; cbn;
    try discriminate; [congruence | apply IH].
Qed.

Lemma length_groupby_transform (agg : Series -> F) (keys : list Z)
    (s : Series) :
  length keys = length s -> length (groupby_transform agg keys s) = length s.
Proof.
  intros E. unfold groupby_transform.
  rewrite length_map, length_firstn. lia.
Qed.

Lemma lookup_groupby_transform (agg : Series -> F) (keys : list Z)
    (s : Series) (i : nat) (h : Z) :
  length keys = length s -> keys !! i = Some h ->
  groupby_transform agg keys s !! i = Some (agg (group_values keys s h)).
Proof.
  intros E K. unfold groupby_transform.
  rewrite lookup_map, <- E, firstn_all, K. reflexivity.
Qed.

Lemma length_keep_mask (v lo hi : Series) :
  length lo = length v -> length hi = length v ->
  length (keep_mask v lo hi) = length v.
Proof.
  revert lo hi; induction v as [|x v IH]; intros [|l lo] [|h hi]; cbn;
    try discriminate; auto.
Qed.

Lemma lookup_keep_mask (v lo hi : Series) (i : nat) (x l h : F) :
  v !! i = Some x -> lo !! i = Some l -> hi !! i = Some h ->
  keep_mask v lo hi !! i = Some (keep_row x l h).
Proof.
  revert lo hi i; induction v as [|a v IH]; intros [|b lo] [|c hi] [|i];
    cbn; try discriminate; [congruence | apply IH].
Qed.

Lemma length_centered (hours : list Z) (v : Series) :
  length hours = length v -> length (centered hours v) = length v.
Proof.
  intros E. unfold centered.
  rewrite length_series_sub, length_groupby_transform by exact E. lia.
Qed.

Lemma lookup_centered (hours : list Z) (v : Series) (i : nat) (h : Z)
    (x : F) :
  length hours = length v -> hours !! i = Some h -> v !! i = Some x ->
  centered hours v !! i = Some (fsub x (median (group_values hours v h))).
Proof.
  intros E K V. unfold centered.
  apply lookup_series_sub; [exact V|].
  apply lookup_groupby_transform; assumption.
Qed.

Lemma lookup_trim_mask (hours : list Z) (v : Series) (i : nat) (h : Z)
    (x : F) :
  length hours = length v -> hours !! i = Some h -> v !! i = Some x ->
  trim_mask hours v !! i =
  Some (keep_row
          (fsub x (median (group_values hours v h)))
          (quantile (lit 25 1000) (group_values hours (centered hours v) h))
          (quantile (lit 975 1000) (group_values hours (centered hours v) h))).
Proof.
  intros E K V.
  assert (Ec : length hours = length (centered hours v))
    by (rewrite length_centered; auto).
  apply lookup_keep_mask.
  - apply lookup_centered; assumption.
  - apply lookup_groupby_transform; assumption.
  - apply lookup_groupby_transform; assumption.
Qed.

End Rows.

(** ** The trim of the boxplot renderer *)

Section Trim.

Context {F : Type} `{Float64Laws F}.


End Trim.

(** ** The symmetric y-axis bound *)

Section AxisBound.

Context {F : Type} `{Float64Laws F}.

Lemma fmax_cases (a b : F) : fmax a b = a \/ fmax a b = b.
Proof. unfold fmax. destruct (fle a b); auto. Qed.

Lemma fmax_upper (a b : F) :
  isna a = false -> isna b = false ->
  fle a (fmax a b) = true /\ fle b (fmax a b) = true.
Proof.
  intros Na Nb. unfold fmax. destruct (fle a b) eqn:E.
  - split; [exact E | apply fle_refl; exact Nb].
  - split; [apply fle_refl; exact Na|].
    destruct (fle_total a b Na Nb) as [E'|E']; congruence.
Qed.

Lemma isna_fmax (a b : F) :
  isna a = false -> isna b = false -> isna (fmax a b) = false.
Proof. intros Na Nb. destruct (fmax_cases a b) as [-> | ->]; auto. Qed.

(** The running maximum of a list without NaN: one of the values, above
    all of them. *)
Lemma fold_fmax_spec (l : list F) (x : F) :
  isna x = false -> Forall (fun y => isna y = false) l ->
  let M := fold_left fmax l x in
  isna M = false /\ In M (x :: l) /\
  Forall (fun y => fle y M = true) (x :: l).
Proof.
  revert x; induction l as [|y l IH]; intros x Nx Nl; cbn.
  - split; [exact Nx|]. split; [left; reflexivity|].
    repeat constructor. apply fle_refl; exact Nx.
  - inversion Nl as [|? ? Ny Nl']; subst.
    destruct (IH (fmax x y) (isna_fmax x y Nx Ny) Nl') as (NM & IM & UM).
    cbn in IM, UM. split; [exact NM|].
    inversion UM as [|? ? U1 U2]; subst.
    destruct (fmax_upper x y Nx Ny) as [Ux Uy].
    split.
    + destruct IM as [IM|IM]; [|right; right; exact IM].
      rewrite <- IM. destruct (fmax_cases x y) as [-> | ->]; cbn; auto.
    + constructor; [eapply fle_trans; eassumption|].
      constructor; [eapply fle_trans; eassumption | exact U2].
Qed.

Lemma Forall_dropna (s : Series) : Forall (fun y => isna y = false) (dropna s).
Proof.
  unfold dropna. induction s as [|x s IH]; cbn; [constructor|].
  destruct (isna x) eqn:E; cbn; [exact IH | constructor; assumption].
Qed.

Lemma In_dropna (s : Series) (x : F) :
  In x (dropna s) <-> In x s /\ isna x = false.
Proof.
  unfold dropna. rewrite filter_In, negb_true_iff. reflexivity.
Qed.

(** [Series.max()] of a Series with a value that is not missing *)
Lemma series_max_spec (s : Series) (x : F) :
  In x s -> isna x = false ->
  let M := series_max s in
  isna M = false /\ In M s /\
  (forall y, In y s -> isna y = false -> fle y M = true).
Proof.
  intros I N. unfold series_max.
  assert (I' : In x (dropna s)) by (apply In_dropna; auto).
  pose proof (Forall_dropna s) as D.
  destruct (dropna s) as [|a l] eqn:E; [destruct I'|].
  inversion D as [|? ? Na Nl]; subst.
  destruct (fold_fmax_spec l a Na Nl) as (NM & IM & UM).
  split; [exact NM|]. split.
  - assert (IM' : In (fold_left fmax l a) (dropna s)) by (rewrite E; exact IM).
    apply In_dropna in IM'. tauto.
  - intros y Iy Ny. rewrite List.Forall_forall in UM. apply UM.
    rewrite <- E. apply In_dropna. auto.
Qed.

(** [Series.max()] of a Series whose values are all missing is NaN, and
    [np.max] hands the NaN on. *)
Lemma y_abs_max_all_missing (s : Series) :
  (forall x, In x s -> isna x = true) -> isna (y_abs_max s) = true.
Proof.
  intros A. unfold y_abs_max, np_max2, series_max.
  assert (E : dropna (map fabs s) = []).
  { unfold dropna. induction s as [|x s IH]; cbn; [reflexivity|].
    rewrite isna_fabs, (A x) by (left; reflexivity). cbn.
    apply IH. intros y Iy. apply A. right. exact Iy. }
  rewrite E, isna_nan. cbn. apply isna_nan.
Qed.

(** X20.  The general case of the bound.  When at least one retained
    value is not missing, the bound is the larger of 0.05 and the largest
    retained absolute centred deviation [M]: [M] is the absolute value of a
    retained value, no retained absolute value exceeds it, and the bound is
    one of [M] and 0.05 and is below neither. *)
Theorem y_abs_max_is_floored_maximum (s : Series) (x : F) :
  In x s -> isna x = false ->
  let M := series_max (map fabs s) in
  isna M = false /\
  (exists z, In z s /\ isna z = false /\ M = fabs z) /\
  (forall z, In z s -> isna z = false -> fle (fabs z) M = true) /\
  y_abs_max s = fmax M (lit 5 100) /\
  (y_abs_max s = M \/ y_abs_max s = lit 5 100) /\
  fle M (y_abs_max s) = true /\
  fle (lit 5 100) (y_abs_max s) = true.
Proof.
  intros I N M.
  assert (I' : In (fabs x) (map fabs s)) by (apply in_map; exact I).
  assert (N' : isna (fabs x) = false) by (rewrite isna_fabs; exact N).
  destruct (series_max_spec (map fabs s) (fabs x) I' N') as (NM & IM & UM).
  fold M in NM, IM, UM.
  assert (Y : y_abs_max s = fmax M (lit 5 100)).
  { unfold y_abs_max, np_max2. fold M. rewrite NM, isna_floor. reflexivity. }
  split; [exact NM|]. split.
  { apply in_map_iff in IM. destruct IM as (z & Ez & Iz).
    exists z. split; [exact Iz|]. split; [|symmetry; exact Ez].
    rewrite <- (isna_fabs z), Ez. exact NM. }
  split.
  { intros z Iz Nz. apply UM; [apply in_map; exact Iz|].
    rewrite isna_fabs; exact Nz. }
  split; [exact Y|]. rewrite Y.
  split; [apply fmax_cases|].
  apply fmax_upper; [exact NM | apply isna_floor].
Qed.

End AxisBound.

(** ** Ranking the values of a group *)

Section Ranking.

Context {F : Type} `{Float64Laws F}.

Local Notation notna := (fun y : F => isna y = false).
Local Notation below := (fun x y : F => fle x y = true).

Lemma length_insert_sorted (x : F) (l : list F) :
  length (insert_sorted x l) = S (length l).
Proof.
  induction l as [|y l IH]; cbn; [reflexivity|].
  destruct (fle x y); cbn; [reflexivity | rewrite IH; reflexivity].
Qed.

Lemma length_sort_values (l : list F) :
  length (sort_values l) = length l.
Proof.
  induction l as [|x l IH]; cbn; [reflexivity|].
  rewrite length_insert_sorted, IH. reflexivity.
Qed.

Lemma insert_sorted_perm (x : F) (l : list F) :
  Permutation (insert_sorted x l) (x :: l).
Proof.
  induction l as [|y l IH]; cbn; [reflexivity|].
  destruct (fle x y); [reflexivity|].
  rewrite IH. apply perm_swap.
Qed.

(** The ranked values are the values of the group, each as often. *)
Lemma sort_values_perm (l : list F) : Permutation (sort_values l) l.
Proof.
  induction l as [|x l IH]; cbn; [reflexivity|].
  rewrite insert_sorted_perm, IH. reflexivity.
Qed.

Lemma Forall_sort_values (P : F -> Prop) (l : list F) :
  Forall P l -> Forall P (sort_values l).
Proof.
  intros A. eapply Permutation_Forall; [|exact A].
  symmetry. apply sort_values_perm.
Qed.

Lemma insert_sorted_sorted (x : F) (l : list F) :
  isna x = false -> Forall notna l ->
  StronglySorted below l -> StronglySorted below (insert_sorted x l).
Proof.
  intros Nx. induction l as [|y l IH]; intros Nl S; cbn.
  - repeat constructor.
  - inversion Nl as [|? ? Ny Nl']; subst.
    inversion S as [|? ? S' B]; subst.
    destruct (fle x y) eqn:E.
    + constructor; [exact S|]. constructor; [exact E|].
      eapply List.Forall_impl; [|exact B]. cbn. intros z Z.
      eapply fle_trans; eassumption.
    + constructor; [apply IH; assumption|].
      eapply Permutation_Forall;
        [symmetry; apply insert_sorted_perm|].
      constructor; [|exact B].
      destruct (fle_total x y Nx Ny) as [E'|E']; congruence.
Qed.

(** ... in ascending order *)
Lemma sort_values_sorted (l : list F) :
  Forall notna l -> StronglySorted below (sort_values l).
Proof.
  induction l as [|x l IH]; intros A; cbn; [constructor|].
  inversion A; subst.
  apply insert_sorted_sorted; auto using Forall_sort_values.
Qed.

Lemma sorted_nth (l : list F) (d : F) (i j : nat) :
  StronglySorted below l -> Forall notna l ->
  i <= j -> j < length l -> fle (nth i l d) (nth j l d) = true.
Proof.
  intros S; revert i j; induction S as [|x l S IH B]; intros i j A Le Lt.
  - cbn in Lt. lia.
  - inversion A as [|? ? Nx Nl]; subst. cbn in Lt.
    destruct i as [|i], j as [|j]; cbn; try lia.
    + apply fle_refl; exact Nx.
    + rewrite List.Forall_forall in B. apply B. apply nth_In. lia.
    + apply IH; [exact Nl | lia | lia].
Qed.

Lemma notna_nth (l : list F) (d : F) (i : nat) :
  Forall notna l -> i < length l -> isna (nth i l d) = false.
Proof.
  intros A L. rewrite List.Forall_forall in A. apply A. apply nth_In. exact L.
Qed.

(** Ranking commutes with a map that respects the order. *)
Lemma insert_sorted_map (f : F -> F) (x : F) (l : list F) :
  (forall a b, fle (f a) (f b) = fle a b) ->
  insert_sorted (f x) (map f l) = map f (insert_sorted x l).
Proof.
  intros M. induction l as [|y l IH]; cbn; [reflexivity|].
  rewrite M. destruct (fle x y); cbn; [reflexivity|].
  rewrite IH. reflexivity.
Qed.

Lemma sort_values_map (f : F -> F) (l : list F) :
  (forall a b, fle (f a) (f b) = fle a b) ->
  sort_values (map f l) = map f (sort_values l).
Proof.
  intros M. induction l as [|x l IH]; cbn; [reflexivity|].
  rewrite IH. apply insert_sorted_map. exact M.
Qed.

Lemma dropna_map (f : F -> F) (l : list F) :
  (forall a, isna (f a) = isna a) ->
  dropna (map f l) = map f (dropna l).
Proof.
  intros M. unfold dropna. induction l as [|x l IH]; cbn; [reflexivity|].
  rewrite M. destruct (isna x); cbn; rewrite IH; reflexivity.
Qed.

(** The centred values of an hour group are the values of the group, each
    minus the median of the group. *)
Lemma group_values_series_sub (t : Z -> F) (keys : list Z) (v : Series)
    (h : Z) :
  length keys = length v ->
  group_values keys (series_sub v (map t keys)) h =
  map (fun x => fsub x (t h)) (group_values keys v h).
Proof.
  unfold group_values.
  revert v; induction keys as [|k keys IH]; intros [|x v] E; cbn in *;
    try discriminate; [reflexivity|].
  injection E as E. specialize (IH v E).
  destruct (Z.eqb_spec k h) as [->|Ne]; cbn; rewrite IH; reflexivity.
Qed.

Lemma group_values_centered (hours : list Z) (v : Series) (h : Z) :
  length hours = length v ->
  group_values hours (centered hours v) h =
  map (fun x => fsub x (median (group_values hours v h)))
      (group_values hours v h).
Proof.
  intros E. unfold centered, groupby_transform.
  rewrite <- E, firstn_all.
  apply (group_values_series_sub
           (fun h => median (group_values hours v h))). exact E.
Qed.

End Ranking.

(** ** Exact arithmetic: the centred values of an hour group *)

Section ExactRanks.

Import Exact.

Local Notation notna := (fun y : cell => isna y = false).
Local Notation below := (fun x y : cell => fle x y = true).

Lemma exact_notna_Some (x : cell) : isna x = false -> exists q, x = Some q.
Proof. destruct x as [q|]; cbn; [eauto | discriminate]. Qed.

Lemma exact_fsub_isna (mu : Q) (x : cell) :
  isna (fsub x (Some mu)) = isna x.
Proof. destruct x; reflexivity. Qed.

Lemma exact_fsub_fle (mu : Q) (x y : cell) :
  fle (fsub x (Some mu)) (fsub y (Some mu)) = fle x y.
Proof.
  destruct x as [x|], y as [y|]; cbn; try reflexivity.
  apply eq_true_iff_eq. rewrite !Qle_bool_iff. split; intros; lra.
Qed.

Lemma odd_half (n : nat) : Nat.odd n = true -> n = 2 * (n / 2) + 1.
Proof.
  intros O. apply Nat.odd_spec in O. destruct O as [k ->].
  rewrite (Nat.mul_comm 2 k), Nat.div_add_l by lia. cbn. lia.
Qed.

Lemma even_half (n : nat) : Nat.odd n = false -> n = 2 * (n / 2).
Proof.
  intros O. rewrite <- Nat.negb_even in O. apply negb_false_iff in O.
  apply Nat.even_spec in O. destruct O as [k ->].
  rewrite (Nat.mul_comm 2 k), Nat.div_mul by lia. lia.
Qed.

(** The median of a group with a value that is not missing, read off the
    ranked values. *)
Lemma median_exact_cases (g : list cell) :
  let sa := sort_values (dropna g) in
  let n := length (dropna g) in
  1 <= n ->
  (Nat.odd n = true /\
   exists mu, median g = Some mu /\ nth (n / 2) sa None = Some mu) \/
  (Nat.odd n = false /\
   exists p q, nth (n / 2) sa None = Some p /\
               nth (n / 2 - 1) sa None = Some q /\
               median g = Some ((p + q) / inject_Z 2)%Q).
Proof.
  intros sa n N.
  assert (L : length sa = n) by apply length_sort_values.
  assert (A : Forall notna sa) by (apply Forall_sort_values, Forall_dropna).
  unfold median. fold n. unfold kth_smallest. fold sa.
  change (@nan cell _) with (@None Q).
  destruct (Nat.eqb_spec n 0) as [Z|_]; [lia|].
  destruct (Nat.odd n) eqn:O.
  - left. split; [reflexivity|].
    pose proof (odd_half n O).
    destruct (exact_notna_Some (nth (n / 2) sa None)) as [mu E].
    { apply notna_nth; [exact A | lia]. }
    exists mu. rewrite E. split; reflexivity.
  - right. split; [reflexivity|].
    pose proof (even_half n O).
    destruct (exact_notna_Some (nth (n / 2) sa None)) as [p Ep].
    { apply notna_nth; [exact A | lia]. }
    destruct (exact_notna_Some (nth (n / 2 - 1) sa None)) as [q Eq].
    { apply notna_nth; [exact A | lia]. }
    exists p, q. rewrite Ep, Eq. repeat split; reflexivity.
Qed.

(** The ranked centred values of a group: as many as the group has values,
    in ascending order, with the middle one (or the sum of the two middle
    ones) equal to zero. *)
Lemma centered_ranks (g : list cell) :
  let cs := sort_values (dropna (map (fun x => fsub x (median g)) g)) in
  let n := length (dropna g) in
  1 <= n ->
  length (dropna (map (fun x => fsub x (median g)) g)) = n /\
  length cs = n /\ Forall notna cs /\ StronglySorted below cs /\
  (Nat.odd n = true ->
   exists c, nth (n / 2) cs None = Some c /\ (c == 0)%Q) /\
  (Nat.odd n = false ->
   exists c1 c2, nth (n / 2) cs None = Some c1 /\
                 nth (n / 2 - 1) cs None = Some c2 /\ (c1 + c2 == 0)%Q).
Proof.
  intros cs n N.
  assert (M : exists mu, median g = Some mu).
  { destruct (median_exact_cases g N) as [(_ & mu & E & _)|(_ & p & q & _ & _ & E)];
      eauto. }
  destruct M as [mu M].
  assert (D : dropna (map (fun x => fsub x (median g)) g) =
              map (fun x => fsub x (Some mu)) (dropna g)).
  { rewrite M. apply dropna_map. apply exact_fsub_isna. }
  assert (C : cs = map (fun x => fsub x (Some mu)) (sort_values (dropna g))).
  { unfold cs. rewrite D. apply sort_values_map. apply exact_fsub_fle. }
  assert (NTH : forall k, nth k cs None =
                          fsub (nth k (sort_values (dropna g)) None) (Some mu)).
  { intros k. rewrite C.
    exact (map_nth (fun x : cell => fsub x (Some mu)) _ None k). }
  split; [rewrite D, length_map; reflexivity|].
  split; [unfold cs; rewrite length_sort_values, D, length_map; reflexivity|].
  split; [apply Forall_sort_values, Forall_dropna|].
  split; [apply sort_values_sorted, Forall_dropna|].
  destruct (median_exact_cases g N)
    as [(O & mu' & E & K)|(O & p & q & Kp & Kq & E)]; fold n in O, K || fold n in O, Kp, Kq;
    rewrite M in E; injection E as E; split; intros O'; try congruence.
  - exists (mu' - mu)%Q. rewrite NTH. fold n. rewrite K. split; [reflexivity|].
    rewrite E. lra.
  - exists (p - mu)%Q, (q - mu)%Q. rewrite !NTH. fold n. rewrite Kp, Kq.
    split; [reflexivity|]. split; [reflexivity|].
    rewrite E. field.
Qed.

(** In exact arithmetic, centring a group with a value that is not missing
    leaves it with median zero. *)
Lemma median_centered_group (g : list cell) :
  1 <= length (dropna g) ->
  exists z, median (map (fun x => fsub x (median g)) g) = Some z /\ (z == 0)%Q.
Proof.
  intros N.
  destruct (centered_ranks g N) as (L' & L & A & S & Odd & Even).
  unfold median at 1. rewrite L'. unfold kth_smallest.
  change (@nan cell _) with (@None Q).
  destruct (Nat.eqb_spec (length (dropna g)) 0) as [Z|_]; [lia|].
  destruct (Nat.odd (length (dropna g))) eqn:O.
  - destruct (Odd eq_refl) as (c & E & Z). exists c. rewrite E. auto.
  - destruct (Even eq_refl) as (c1 & c2 & E1 & E2 & Z).
    exists ((c1 + c2) / inject_Z 2)%Q. rewrite E1, E2. split; [reflexivity|].
    rewrite Z. reflexivity.
Qed.

Lemma exact_fle_Some (x y : Q) : fle (Some x) (Some y) = true <-> (x <= y)%Q.
Proof. cbn. apply Qle_bool_iff. Qed.

(** The two middle ranks of the centred values: [jl] and [ju] are the ranks
    of the lower and the upper median. *)
Lemma centered_middle (g : list cell) :
  let cs := sort_values (dropna (map (fun x => fsub x (median g)) g)) in
  let n := length (dropna g) in
  1 <= n ->
  exists jl ju cl cu,
    jl + ju = n - 1 /\ jl <= ju /\ ju <= jl + 1 /\
    nth jl cs None = Some cl /\ nth ju cs None = Some cu /\
    (cl <= 0)%Q /\ (0 <= cu)%Q /\ (cl + cu == 0)%Q.
Proof.
  intros cs n N.
  destruct (centered_ranks g N) as (_ & L & A & S & Odd & Even).
  fold cs in L, A, S, Odd, Even. fold n in L, Odd, Even.
  destruct (Nat.odd n) eqn:O.
  - destruct (Odd eq_refl) as (c & E & Z).
    pose proof (odd_half n O).
    exists (n / 2), (n / 2), c, c.
    repeat split; try lia; try exact E; rewrite Z; lra.
  - destruct (Even eq_refl) as (c1 & c2 & E1 & E2 & Z).
    pose proof (even_half n O).
    assert (B : fle (nth (n / 2 - 1) cs None) (nth (n / 2) cs None) = true).
    { apply sorted_nth; [exact S | exact A | lia | lia]. }
    rewrite E1, E2 in B. apply exact_fle_Some in B.
    exists (n / 2 - 1), (n / 2), c2, c1.
    repeat split; try lia; try assumption; lra.
Qed.

Lemma exact_position (a tz : Z) :
  (inject_Z a / inject_Z 1000 * inject_Z tz == (a * tz) # 1000)%Q.
Proof. unfold Qeq, Qdiv, Qmult, Qinv, inject_Z. cbn [Qnum Qden]. lia. Qed.

(** In exact arithmetic the quantile [a/1000] of a group with [n >= 1]
    values splits the position [a * (n - 1) / 1000] into the rank [idx] and
    the fraction [fr], and is the value [x] of rank [idx] when the fraction
    is zero and [x + (y - x) * fr] otherwise, [y] being the next value. *)
Lemma quantile_exact (a : Z) (g : list cell) :
  let cs := sort_values (dropna g) in
  let n := length (dropna g) in
  let tz := Z.of_nat (n - 1) in
  (0 <= a <= 1000)%Z -> 1 <= n ->
  exists (idx : nat) (fr x : Q),
    Z.of_nat idx = (a * tz / 1000)%Z /\
    (fr == ((a * tz) # 1000) - inject_Z (a * tz / 1000))%Q /\
    nth idx cs None = Some x /\
    ((fr == 0)%Q /\ quantile (lit a 1000) g = Some x \/
     ~ (fr == 0)%Q /\ idx + 1 < n /\
     exists y, nth (idx + 1) cs None = Some y /\
               quantile (lit a 1000) g = Some (x + (y - x) * fr)%Q).
Proof.
  intros cs n tz Ra N.
  assert (L : length cs = n) by apply length_sort_values.
  assert (A : Forall notna cs) by apply Forall_sort_values, Forall_dropna.
  assert (Tz : (0 <= tz)%Z) by (unfold tz; lia).
  set (pos := (inject_Z a / inject_Z 1000 * inject_Z tz)%Q).
  assert (P : (pos == (a * tz) # 1000)%Q) by apply exact_position.
  assert (Fl : Qfloor pos = (a * tz / 1000)%Z).
  { rewrite (Qfloor_comp _ _ P). reflexivity. }
  assert (P0 : Qle_bool 0 pos = true).
  { apply Qle_bool_iff. rewrite P. unfold Qle. cbn. nia. }
  assert (I : Z.to_nat (Qfloor pos) < n).
  { rewrite Fl. unfold tz in *. Z.div_mod_to_equations. nia. }
  destruct (exact_notna_Some (nth (Z.to_nat (Qfloor pos)) cs None)) as [x X].
  { apply notna_nth; [exact A | lia]. }
  exists (Z.to_nat (Qfloor pos)), (pos - inject_Z (Qfloor pos))%Q, x.
  split. { rewrite Fl. Z.div_mod_to_equations. nia. }
  split. { rewrite Fl, P. reflexivity. }
  split; [exact X|].
  assert (Q0 : quantile (lit a 1000) g =
    if Qeq_bool (pos - inject_Z (Qfloor pos)) 0 then nth (Z.to_nat (Qfloor pos)) cs None
    else fadd (nth (Z.to_nat (Qfloor pos)) cs None)
           (fmul (fsub (nth (Z.to_nat (Qfloor pos) + 1) cs None)
                       (nth (Z.to_nat (Qfloor pos)) cs None))
                 (Some (pos - inject_Z (Qfloor pos))%Q))).
  { unfold quantile. fold n. unfold kth_smallest. fold cs.
    destruct (Nat.eqb_spec n 0) as [Z|_]; [lia|].
    change (fmul (lit a 1000) (of_int (Z.of_nat (n - 1)))) with (Some pos).
    change (to_int (Some pos)) with
      (if Qle_bool 0 pos then Qfloor pos else Qceiling pos).
    rewrite P0. reflexivity. }
  rewrite Q0.
  destruct (Qeq_bool (pos - inject_Z (Qfloor pos)) 0) eqn:Fr.
  - left. apply Qeq_bool_iff in Fr. split; [exact Fr | exact X].
  - right. apply Qeq_bool_neq in Fr. split; [exact Fr|].
    assert (I' : Z.to_nat (Qfloor pos) + 1 < n).
    { assert (Ne : (a * tz <> 1000 * (a * tz / 1000))%Z).
      { intros E. apply Fr. rewrite Fl, P. unfold Qeq, Qminus, Qplus, Qopp, inject_Z.
        cbn [Qnum Qden]. lia. }
      rewrite Fl. unfold tz in *. Z.div_mod_to_equations. nia. }
    split; [exact I'|].
    destruct (exact_notna_Some (nth (Z.to_nat (Qfloor pos) + 1) cs None)) as [y Y].
    { apply notna_nth; [exact A | lia]. }
    exists y. rewrite X, Y. split; reflexivity.
Qed.

Lemma frac_bounds (z : Z) :
  (0 <= (z # 1000) - inject_Z (z / 1000) /\
   (z # 1000) - inject_Z (z / 1000) < 1)%Q.
Proof.
  unfold Qle, Qlt, Qminus, Qplus, Qopp, inject_Z. cbn [Qnum Qden].
  Z.div_mod_to_equations. lia.
Qed.

Lemma frac_zero (z : Z) :
  ((z # 1000) - inject_Z (z / 1000) == 0)%Q -> z = (1000 * (z / 1000))%Z.
Proof.
  unfold Qeq, Qminus, Qplus, Qopp, inject_Z. cbn [Qnum Qden]. lia.
Qed.

Lemma ranked_le (cs : list cell) (i j : nat) (x y : Q) :
  Forall notna cs -> StronglySorted below cs ->
  i <= j -> j < length cs ->
  nth i cs None = Some x -> nth j cs None = Some y -> (x <= y)%Q.
Proof.
  intros A S Le Lt X Y. apply exact_fle_Some. rewrite <- X, <- Y.
  apply sorted_nth; assumption.
Qed.

(** In exact arithmetic the 2.5th percentile of the centred values of a
    group is at most zero and the 97.5th percentile at least zero. *)
Lemma band_contains_zero (g : list cell) :
  1 <= length (dropna g) ->
  exists lo hi,
    quantile (lit 25 1000) (map (fun x => fsub x (median g)) g) = Some lo /\
    quantile (lit 975 1000) (map (fun x => fsub x (median g)) g) = Some hi /\
    (lo <= 0)%Q /\ (0 <= hi)%Q.
Proof.
  intros N.
  destruct (centered_ranks g N) as (L' & L & A & S & _).
  destruct (centered_middle g N)
    as (jl & ju & cl & cu & J1 & J2 & J3 & Cl & Cu & Bl & Bu & Z).
  set (g' := map (fun x => fsub x (median g)) g) in *.
  set (cs := sort_values (dropna g')) in *.
  set (n := length (dropna g)) in *.
  assert (N' : 1 <= length (dropna g')) by lia.
  assert (lo_ok : exists lo,
    quantile (lit 25 1000) g' = Some lo /\ (lo <= 0)%Q).
  { destruct (quantile_exact 25 g' ltac:(lia) N')
      as (idx & fr & x & Ei & Efr & X & [[F0 Q]|(Fn & I1 & y & Y & Q)]);
      fold cs in X, Y || fold cs in X; rewrite L' in *; rewrite Q.
    - exists x. split; [reflexivity|].
      assert (x <= cl)%Q; [|lra].
      apply (ranked_le cs idx jl); try assumption; [|lia].
      Z.div_mod_to_equations. lia.
    - pose proof (frac_bounds (25 * Z.of_nat (n - 1))) as [F1 F2].
      rewrite <- Efr in F1, F2.
      exists (x + (y - x) * fr)%Q. split; [reflexivity|].
      assert (x <= y)%Q by (apply (ranked_le cs idx (idx + 1)); auto; lia).
      destruct (Nat.eq_dec n 2) as [E2|E2].
      + assert (idx = 0) by (rewrite E2 in Ei; cbn in Ei; lia). subst idx.
        assert (jl = 0) by lia. assert (ju = 1) by lia. subst jl ju.
        assert (Efr' : (fr == 25 # 1000)%Q)
          by (rewrite Efr, E2; vm_compute; reflexivity).
        assert (x = cl) by congruence. assert (y = cu) by (cbn in Y; congruence).
        subst x y. rewrite Efr'. lra.
      + assert (y <= cl)%Q; [|nra].
        apply (ranked_le cs (idx + 1) jl); try assumption; [|lia].
        Z.div_mod_to_equations. lia. }
  assert (hi_ok : exists hi,
    quantile (lit 975 1000) g' = Some hi /\ (0 <= hi)%Q).
  { destruct (quantile_exact 975 g' ltac:(lia) N')
      as (idx & fr & x & Ei & Efr & X & [[F0 Q]|(Fn & I1 & y & Y & Q)]);
      fold cs in X, Y || fold cs in X; rewrite L' in *; rewrite Q.
    - exists x. split; [reflexivity|].
      assert (cu <= x)%Q; [|lra].
      rewrite Efr in F0. apply frac_zero in F0.
      apply (ranked_le cs ju idx); try assumption.
      + Z.div_mod_to_equations. lia.
      + rewrite L. Z.div_mod_to_equations. lia.
    - pose proof (frac_bounds (975 * Z.of_nat (n - 1))) as [F1 F2].
      rewrite <- Efr in F1, F2.
      exists (x + (y - x) * fr)%Q. split; [reflexivity|].
      assert (x <= y)%Q by (apply (ranked_le cs idx (idx + 1)); auto; lia).
      destruct (Nat.eq_dec n 2) as [E2|E2].
      + assert (idx = 0) by (rewrite E2 in Ei; cbn in Ei; lia). subst idx.
        assert (jl = 0) by lia. assert (ju = 1) by lia. subst jl ju.
        assert (Efr' : (fr == 975 # 1000)%Q)
          by (rewrite Efr, E2; vm_compute; reflexivity).
        assert (x = cl) by congruence. assert (y = cu) by (cbn in Y; congruence).
        subst x y. rewrite Efr'. lra.
      + assert (cu <= x)%Q; [|nra].
        apply (ranked_le cs ju idx); try assumption; [|lia].
        Z.div_mod_to_equations. lia. }
  destruct lo_ok as (lo & Qlo & Blo), hi_ok as (hi & Qhi & Bhi).
  exists lo, hi. auto.
Qed.

Lemma group_has_value (g : list cell) :
  (exists x, In x g /\ isna x = false) -> 1 <= length (dropna g).
Proof.
  intros (x & I & N).
  assert (I' : In x (dropna g)) by (apply In_dropna; auto).
  destruct (dropna g); [destruct I' | cbn; lia].
Qed.



End ExactRanks.
(** ** The missing fraction of the heatmap renderer *)

Section Missingness.

Context {F : Type} `{Float64 F}.

Lemma insert_key_In (k h : Z) (l : list Z) :
  In h (insert_key k l) <-> h = k \/ In h l.
Proof.
  induction l as [|x l IH]; cbn; [intuition congruence|].
  destruct (Z.ltb_spec k x); cbn; [intuition congruence|].
  destruct (Z.eqb_spec k x) as [->|Ne]; cbn; [intuition congruence|].
  rewrite IH. intuition congruence.
Qed.

(** The hours of the grouped result are the hours of the table. *)
Lemma group_keys_In (keys : list Z) (h : Z) :
  In h (group_keys keys) <-> In h keys.
Proof.
  unfold group_keys. induction keys as [|k keys IH]; cbn; [tauto|].
  rewrite insert_key_In, IH. intuition congruence.
Qed.

Lemma group_values_nonempty {A} (keys : list Z) (s : list A) (h : Z) :
  length keys = length s -> In h keys -> 1 <= length (group_values keys s h).
Proof.
  unfold group_values.
  revert s; induction keys as [|k keys IH]; intros [|x s] E I; cbn in *;
    try discriminate; [destruct I|].
  injection E as E.
  destruct (Z.eqb_spec k h) as [->|Ne]; cbn; [lia|].
  destruct I as [->|I]; [congruence|]. apply IH; assumption.
Qed.

Lemma group_values_In {A} (keys : list Z) (s : list A) (h : Z) (x : A) :
  In x (group_values keys s h) -> In x s.
Proof.
  unfold group_values. rewrite in_map_iff. intros ([k y] & <- & I).
  apply filter_In in I. destruct I as [I _].
  apply in_combine_r in I. exact I.
Qed.

(** A sum of 0/1 flags lies between 0 and their number, and is their
    number when every flag is 1. *)
Lemma sum_int_flags (l : list Z) :
  (forall z, In z l -> z = 0%Z \/ z = 1%Z) ->
  (0 <= sum_int l <= count_int l)%Z.
Proof.
  unfold count_int. induction l as [|z l IH]; intros B; cbn [sum_int fold_right length]; [lia|].
  fold (sum_int l).
  destruct (B z (or_introl eq_refl)); subst;
    specialize (IH (fun z I => B z (or_intror I))); lia.
Qed.

Lemma sum_int_ones (l : list Z) :
  (forall z, In z l -> z = 1%Z) -> sum_int l = count_int l.
Proof.
  unfold count_int. induction l as [|z l IH]; intros B; cbn [sum_int fold_right length]; [lia|].
  fold (sum_int l).
  rewrite (B z (or_introl eq_refl)), (IH (fun z I => B z (or_intror I))). lia.
Qed.

Lemma missing_flags_In (v : Series) (z : Z) :
  In z (missing_flags v) ->
  exists x, In x v /\ z = if isna x then 1%Z else 0%Z.
Proof.
  unfold missing_flags. rewrite in_map_iff. intros (x & <- & I). eauto.
Qed.

Lemma lookup_series_truediv (a b : Series) (i : nat) (x y : F) :
  a !! i = Some x -> b !! i = Some y ->
  series_truediv a b !! i = Some (fdiv x y).
Proof.
  revert b i; induction a as [|a0 a IH]; intros [|b0 b] [|i]; cbn;
    try discriminate; [congruence | apply IH].
Qed.

(** Per hour of the table: the group is not empty, the number of missing
    observations lies between 0 and the size of the group, and the fraction
    is their quotient. *)
Lemma missing_counts (hours : list Z) (v : Series) (i : nat) (h : Z) :
  length hours = length v -> group_keys hours !! i = Some h ->
  exists s c,
    missing_sum hours v !! i = Some s /\
    missing_count hours v !! i = Some c /\
    (1 <= c)%Z /\ (0 <= s <= c)%Z /\
    ((forall x, In x v -> isna x = true) -> s = c) /\
    pct_missing hours v !! i = Some (fdiv (of_int s) (of_int c)).
Proof.
  intros E K.
  assert (Ef : length hours = length (missing_flags v))
    by (unfold missing_flags; rewrite length_map; exact E).
  assert (I : In h hours).
  { apply group_keys_In. apply list_elem_of_In. eapply list_elem_of_lookup_2. exact K. }
  set (fl := group_values hours (missing_flags v) h).
  exists (sum_int fl), (count_int fl).
  assert (S : missing_sum hours v !! i = Some (sum_int fl))
    by (unfold missing_sum; rewrite lookup_map, K; reflexivity).
  assert (C : missing_count hours v !! i = Some (count_int fl))
    by (unfold missing_count; rewrite lookup_map, K; reflexivity).
  split; [exact S|]. split; [exact C|].
  split.
  { pose proof (group_values_nonempty hours (missing_flags v) h Ef I).
    unfold count_int. fold fl in H0. lia. }
  split.
  { apply sum_int_flags. intros z Iz. apply group_values_In in Iz.
    apply missing_flags_In in Iz. destruct Iz as (x & _ & ->).
    destruct (isna x); auto. }
  split.
  { intros A. apply sum_int_ones. intros z Iz. apply group_values_In in Iz.
    apply missing_flags_In in Iz. destruct Iz as (x & Ix & ->).
    rewrite (A x Ix). reflexivity. }
  unfold pct_missing. apply lookup_series_truediv; rewrite lookup_map.
  - rewrite S. reflexivity.
  - rewrite C. reflexivity.
Qed.

End Missingness.


(** ** The renderers leave the tables they are given alone *)

Section Frame.

Context {F : Type} `{Float64 F}.

Implicit Types old : list (DataFrame F).

Lemma keeps_ret {A} old (a : A) (post : A -> Prop) :
  post a -> keeps old (ret a) post.
Proof. intros P st Pre. cbn. split; [exact Pre|]. intros a' [= <-]. exact P. Qed.

Lemma keeps_raise {A} old (e : exn) (post : A -> Prop) :
  keeps old (raise e) post.
Proof. intros st Pre. cbn. split; [exact Pre | discriminate]. Qed.

Lemma keeps_lift {A} old (r : result A) :
  keeps old (lift r) (fun _ => True).
Proof. intros st Pre. cbn. auto. Qed.

Lemma keeps_gets {A} old (f : State F -> A) :
  keeps old (gets f) (fun _ => True).
Proof. intros st Pre. cbn. auto. Qed.

Lemma keeps_modify old (f : State F -> State F) :
  (forall st, frames (f st) = frames st) ->
  keeps old (modify f) (fun _ => True).
Proof. intros E st Pre. cbn. rewrite E. auto. Qed.

Lemma keeps_bind {A B} old (c : Py F A) (k : A -> Py F B)
    (p : A -> Prop) (q : B -> Prop) :
  keeps old c p -> (forall a, p a -> keeps old (k a) q) ->
  keeps old (bind c k) q.
Proof.
  intros C K st Pre. unfold bind.
  destruct (C st Pre) as [Pre' P].
  destruct (c st) as [st' [a|e]]; cbn in *.
  - apply K; auto.
  - split; [exact Pre' | discriminate].
Qed.

Lemma keeps_weaken {A} old (c : Py F A) (p q : A -> Prop) :
  keeps old c p -> (forall a, p a -> q a) -> keeps old c q.
Proof.
  intros C W st Pre. destruct (C st Pre) as [Pre' P]. split; auto.
Qed.

Lemma keeps_alloc_frame old (d : DataFrame F) :
  keeps old (alloc_frame d) (fun r => length old <= r).
Proof.
  intros st Pre. cbn. split.
  - etransitivity; [exact Pre|]. apply prefix_app_r. reflexivity.
  - intros a [= <-]. apply prefix_length. exact Pre.
Qed.

Lemma keeps_read_frame old (r : nat) :
  keeps old (read_frame r) (fun _ => True).
Proof.
  intros st Pre. unfold read_frame. destruct (frames st !! r); cbn; auto.
Qed.

Lemma prefix_insert old (fs : list (DataFrame F)) (r : nat) (d : DataFrame F) :
  old `prefix_of` fs -> length old <= r -> old `prefix_of` <[r := d]> fs.
Proof.
  intros [more ->] L. exists (<[r - length old := d]> more).
  apply insert_app_r_alt. exact L.
Qed.

Lemma keeps_setitem old (r : nat) (c : string) (v : column F) :
  length old <= r -> keeps old (setitem r c v) (fun _ => True).
Proof.
  intros L st Pre. unfold setitem, bind, read_frame, modify.
  destruct (frames st !! r); cbn; [|auto].
  split; [|auto]. apply prefix_insert; assumption.
Qed.

Lemma keeps_getitem old (r : nat) (c : string) :
  keeps old (getitem r c) (fun _ => True).
Proof.
  unfold getitem. eapply keeps_bind; [apply keeps_read_frame|].
  intros d _. apply keeps_lift.
Qed.

Lemma keeps_getitem_list old (r : nat) (cs : list string) :
  keeps old (getitem_list r cs) (fun r' => length old <= r').
Proof.
  unfold getitem_list. eapply keeps_bind; [apply keeps_read_frame|].
  intros d _. eapply keeps_bind; [apply keeps_lift|].
  intros cols _. apply keeps_alloc_frame.
Qed.

Lemma keeps_copy_deep old (r : nat) :
  keeps old (copy_deep r) (fun r' => length old <= r').
Proof.
  unfold copy_deep. eapply keeps_bind; [apply keeps_read_frame|].
  intros d _. apply keeps_alloc_frame.
Qed.

Lemma keeps_getitem_mask old (r : nat) (mask : list bool) :
  keeps old (getitem_mask r mask) (fun r' => length old <= r').
Proof.
  unfold getitem_mask. eapply keeps_bind; [apply keeps_read_frame|].
  intros d _. apply keeps_alloc_frame.
Qed.

Lemma keeps_groupby_transform_of old (r : nat) (key c : string)
    (agg : Series -> F) :
  keeps old (groupby_transform_of r key c agg) (fun _ => True).
Proof.
  unfold groupby_transform_of.
  eapply keeps_bind; [apply keeps_getitem|]. intros k _.
  eapply keeps_bind; [apply keeps_lift|]. intros keys _.
  eapply keeps_bind; [apply keeps_getitem|]. intros v _.
  apply keeps_ret. exact I.
Qed.

Lemma keeps_groupby_agg_sum_count old (r : nat) (key c : string) :
  keeps old (groupby_agg_sum_count r key c) (fun r' => length old <= r').
Proof.
  unfold groupby_agg_sum_count.
  eapply keeps_bind; [apply keeps_getitem|]. intros k _.
  eapply keeps_bind; [apply keeps_lift|]. intros keys _.
  eapply keeps_bind; [apply keeps_getitem|]. intros v _.
  eapply keeps_bind; [apply keeps_lift|]. intros vals _.
  apply keeps_alloc_frame.
Qed.

Lemma keeps_pivot_table old (r : nat) (c : string) :
  keeps old (pivot_table r c) (fun _ => True).
Proof.
  unfold pivot_table. eapply keeps_bind; [apply keeps_read_frame|].
  intros d _. eapply keeps_bind; [apply keeps_lift|].
  intros v _. apply keeps_ret. exact I.
Qed.

Lemma keeps_update_axes old (a : nat) (f : Axes F -> Axes F) :
  keeps old (update_axes a f) (fun _ => True).
Proof.
  intros st Pre. unfold update_axes, bind, read_axes, modify.
  destruct (axes st !! a); cbn; auto.
Qed.

Lemma keeps_sns_boxplot old (ax df : nat) (x y : string) :
  keeps old (sns_boxplot ax df x y) (fun _ => True).
Proof.
  unfold sns_boxplot.
  eapply keeps_bind; [apply keeps_getitem|]. intros kx _.
  eapply keeps_bind; [apply keeps_lift|]. intros keys _.
  eapply keeps_bind; [apply keeps_getitem|]. intros vy _.
  eapply keeps_bind; [apply keeps_update_axes|]. intros _ _.
  apply keeps_ret. exact I.
Qed.

Lemma keeps_sns_heatmap old (ax : nat) (cols : list Z) (vals : list F)
    (vmin vmax : F) :
  keeps old (sns_heatmap ax cols vals vmin vmax) (fun _ => True).
Proof.
  unfold sns_heatmap.
  eapply keeps_bind; [apply keeps_update_axes|]. intros _ _.
  apply keeps_ret. exact I.
Qed.

Lemma keeps_set_ylim old (ax : nat) (lo hi : F) :
  keeps old (set_ylim ax lo hi) (fun _ => True).
Proof.
  unfold set_ylim. destruct (isfinite lo && isfinite hi);
    [apply keeps_update_axes | apply keeps_raise].
Qed.

Lemma keeps_boxplotTimeSeries old (ax data : nat) (variable : string)
    (title : option string) :
  keeps old (boxplotTimeSeries ax data variable title) (fun _ => True).
Proof.
  unfold boxplotTimeSeries, sns_set, set_title, set_xlabel, set_ylabel.
  eapply keeps_bind; [apply keeps_modify; reflexivity|]. intros _ _.
  eapply keeps_bind; [apply keeps_getitem_list|]. intros sel _.
  eapply keeps_bind; [apply keeps_copy_deep|]. intros df Ldf.
  eapply keeps_bind; [apply keeps_groupby_transform_of|]. intros medians _.
  eapply keeps_bind; [apply keeps_getitem|]. intros v _.
  eapply keeps_bind; [apply keeps_setitem; exact Ldf|]. intros _ _.
  eapply keeps_bind; [apply keeps_groupby_transform_of|]. intros qlo _.
  eapply keeps_bind; [apply keeps_setitem; exact Ldf|]. intros _ _.
  eapply keeps_bind; [apply keeps_groupby_transform_of|]. intros qhi _.
  eapply keeps_bind; [apply keeps_setitem; exact Ldf|]. intros _ _.
  eapply keeps_bind; [apply keeps_getitem|]. intros v' _.
  eapply keeps_bind; [apply keeps_getitem|]. intros lo _.
  eapply keeps_bind; [apply keeps_getitem|]. intros hi _.
  eapply keeps_bind; [apply keeps_getitem_mask|]. intros df' _.
  eapply keeps_bind; [apply keeps_sns_boxplot|]. intros plt _.
  eapply keeps_bind; [apply keeps_update_axes|]. intros _ _.
  eapply keeps_bind; [apply keeps_update_axes|]. intros _ _.
  eapply keeps_bind; [apply keeps_update_axes|]. intros _ _.
  eapply keeps_bind; [apply keeps_getitem|]. intros v'' _.
  eapply keeps_bind; [apply keeps_set_ylim|]. intros _ _.
  apply keeps_ret. exact I.
Qed.

Lemma keeps_missingHeatMap old (ax data : nat) (variable : string)
    (title : option string) :
  keeps old (missingHeatMap ax data variable title) (fun _ => True).
Proof.
  unfold missingHeatMap, sns_set, set_title, set_xlabel, set_ylabel.
  eapply keeps_bind; [apply keeps_modify; reflexivity|]. intros _ _.
  eapply keeps_bind; [apply keeps_getitem_list|]. intros sel _.
  eapply keeps_bind; [apply keeps_copy_deep|]. intros df Ldf.
  eapply keeps_bind; [apply keeps_getitem|]. intros v _.
  eapply keeps_bind; [apply keeps_setitem; exact Ldf|]. intros _ _.
  eapply keeps_bind; [apply keeps_groupby_agg_sum_count|]. intros grouped Lg.
  eapply keeps_bind; [apply keeps_getitem|]. intros s _.
  eapply keeps_bind; [apply keeps_getitem|]. intros c _.
  eapply keeps_bind; [apply keeps_setitem; exact Lg|]. intros _ _.
  eapply keeps_bind; [apply keeps_pivot_table|]. intros heatmap_data _.
  eapply keeps_bind; [apply keeps_sns_heatmap|]. intros plt _.
  eapply keeps_bind; [apply keeps_update_axes|]. intros _ _.
  eapply keeps_bind; [apply keeps_update_axes|]. intros _ _.
  eapply keeps_bind; [apply keeps_update_axes|]. intros _ _.
  apply keeps_ret. exact I.
Qed.

(** C7.  A call of the boxplot renderer or of the heatmap renderer, whether
    it returns or raises, leaves every table that existed before the call
    unchanged, the table it is given among them: what the renderers assign
    to goes to the copy they make. *)
Theorem renderers_leave_tables_unchanged (st : State F) (ax data : nat)
    (variable : string) (title : option string) (r : nat) (d : DataFrame F) :
  frames st !! r = Some d ->
  frames (fst (boxplotTimeSeries ax data variable title st)) !! r = Some d /\
  frames (fst (missingHeatMap ax data variable title st)) !! r = Some d.
Proof.
  intros L. split.
  - destruct (keeps_boxplotTimeSeries (frames st) ax data variable title st)
      as [P _]; [reflexivity|].
    eapply prefix_lookup_Some; eassumption.
  - destruct (keeps_missingHeatMap (frames st) ax data variable title st)
      as [P _]; [reflexivity|].
    eapply prefix_lookup_Some; eassumption.
Qed.

End Frame.

(** ** The dataset loader and the logging set-up *)

Section Loader.

Context {F : Type} `{Float64 F}.

Local Open Scope string_scope.

Lemma read_parquet_run (p : string) (st : State F) :
  read_parquet p st =
  match files st !! p with
  | Some (Parquet df) =>
      (set_frames (frames st ++ [df])%list st, Ok (length (frames st)))
  | Some (LogFile _) => (st, Raise OSError)
  | None => (st, Raise (FileNotFoundError p))
  end.
Proof.
  unfold read_parquet, bind, gets.
  destruct (files st !! p) as [[df|recs]|]; reflexivity.
Qed.

(** One round of the loop, when both files of the partition are tables. *)
Lemma load_loop_step (cwd s : string) (rest : list string)
    (acc : list (nat * nat)) (st : State F) (f l : DataFrame F) :
  files st !! featuresPath cwd s = Some (Parquet f) ->
  files st !! labelsPath cwd s = Some (Parquet l) ->
  load_loop cwd (s :: rest) acc st =
  load_loop cwd rest
    (acc ++ [(length (frames st), S (length (frames st)))])%list
    (set_frames (frames st ++ [f; l])%list st).
Proof.
  intros Ef El. cbn [load_loop]. unfold bind at 1.
  rewrite read_parquet_run, Ef. unfold bind at 1.
  rewrite read_parquet_run. cbn [files set_frames]. rewrite El.
  cbn [frames set_frames]. rewrite length_app, <- app_assoc. cbn.
  rewrite Nat.add_1_r. reflexivity.
Qed.

(** The loader only reads: whatever it returns, the files, the directories
    and the logger are as before, and the frames that existed are kept. *)
Lemma load_loop_effects (cwd : string) (todo : list string) :
  forall (acc : list (nat * nat)) (st st' : State F)
         (r : result (list (nat * nat))),
    load_loop cwd todo acc st = (st', r) ->
    files st' = files st /\ dirs st' = dirs st /\
    handlers st' = handlers st /\ root_handlers st' = root_handlers st /\
    logger_level st' = logger_level st /\
    axes st' = axes st /\ figures st' = figures st /\
    sns_style st' = sns_style st /\
    frames st `prefix_of` frames st'.
Proof.
  induction todo as [|s rest IH]; intros acc st st' r E; cbn [load_loop] in E.
  - injection E as <- _. repeat split; reflexivity.
  - unfold bind at 1 in E. rewrite read_parquet_run in E.
    destruct (files st !! featuresPath cwd s) as [[f|recs]|];
      [|injection E as <- _; repeat split; reflexivity..].
    unfold bind at 1 in E. rewrite read_parquet_run in E.
    cbn [files set_frames] in E.
    destruct (files st !! labelsPath cwd s) as [[l|recs]|];
      [|injection E as <- _; cbn; repeat split; try reflexivity;
        apply prefix_app_r; reflexivity..].
    apply IH in E. cbn in E.
    destruct E as (I1 & I2 & I3 & I4 & I5 & I6 & I7 & I8 & I9).
    repeat (split; [assumption|]).
    etransitivity; [|exact I9].
    rewrite <- app_assoc. apply prefix_app_r. reflexivity.
Qed.

Lemma load_loop_aborts (cwd : string) (todo : list string) :
  forall (acc : list (nat * nat)) (st : State F),
    (exists s, In s todo /\
       (files st !! featuresPath cwd s = None \/
        files st !! labelsPath cwd s = None)) ->
    exists e,
      snd (load_loop cwd todo acc st) = Raise e /\
      ((forall s recs, In s todo ->
          files st !! featuresPath cwd s <> Some (LogFile recs) /\
          files st !! labelsPath cwd s <> Some (LogFile recs)) ->
       exists p, e = FileNotFoundError p /\ files st !! p = None).
Proof.
  induction todo as [|s rest IH]; intros acc st (s0 & I & M);
    [destruct I|].
  cbn [load_loop]. unfold bind at 1. rewrite read_parquet_run.
  destruct (files st !! featuresPath cwd s) as [[f|recs]|] eqn:Ef.
  - unfold bind at 1. rewrite read_parquet_run. cbn [files set_frames].
    destruct (files st !! labelsPath cwd s) as [[l|recs]|] eqn:El.
    + assert (I' : In s0 rest).
      { destruct I as [->|I]; [|exact I]. destruct M; congruence. }
      match goal with |- context [load_loop cwd rest ?a ?s] =>
        destruct (IH a s) as (e & R & W) end.
      { exists s0. split; [exact I' | exact M]. }
      exists e. split; [exact R|].
      intros A. apply W. intros s1 recs I1. apply A. right. exact I1.
    + exists OSError. split; [reflexivity|].
      intros A. destruct (A s recs (or_introl eq_refl)) as [_ A2].
      congruence.
    + exists (FileNotFoundError (labelsPath cwd s)). split; [reflexivity|].
      intros _. eauto.
  - exists OSError. split; [reflexivity|].
    intros A. destruct (A s recs (or_introl eq_refl)) as [A1 _]. congruence.
  - exists (FileNotFoundError (featuresPath cwd s)). split; [reflexivity|].
    intros _. eauto.
Qed.


(** C6.  With the six files in place, the loader returns exactly three
    pairs, in the order a, b, c of the partition names; the i-th pair
    refers to two new frames that hold the feature table and the label
    table read from the files of the i-th partition. *)
Theorem loadData_returns_three_pairs (cwd : string) (st : State F)
    (fa la fb lb fc lc : DataFrame F) :
  files st !! featuresPath cwd "a" = Some (Parquet fa) ->
  files st !! labelsPath cwd "a" = Some (Parquet la) ->
  files st !! featuresPath cwd "b" = Some (Parquet fb) ->
  files st !! labelsPath cwd "b" = Some (Parquet lb) ->
  files st !! featuresPath cwd "c" = Some (Parquet fc) ->
  files st !! labelsPath cwd "c" = Some (Parquet lc) ->
  let n := length (frames st) in
  let st' := fst (loadData cwd st) in
  names = ["a"; "b"; "c"] /\
  snd (loadData cwd st) = Ok [(n, n + 1); (n + 2, n + 3); (n + 4, n + 5)] /\
  frames st' = (frames st ++ [fa; la; fb; lb; fc; lc])%list /\
  frames st' !! n = Some fa /\ frames st' !! (n + 1) = Some la /\
  frames st' !! (n + 2) = Some fb /\ frames st' !! (n + 3) = Some lb /\
  frames st' !! (n + 4) = Some fc /\ frames st' !! (n + 5) = Some lc.
Proof.
  intros Fa La Fb Lb Fc Lc n st'.
  assert (R : loadData cwd st =
    (set_frames (frames st ++ [fa; la; fb; lb; fc; lc])%list st,
     Ok [(n, n + 1); (n + 2, n + 3); (n + 4, n + 5)])).
  { unfold loadData, names.
    rewrite (load_loop_step cwd "a" _ _ st fa la Fa La).
    rewrite (load_loop_step cwd "b" _ _ (set_frames _ st) fb lb Fb Lb).
    rewrite (load_loop_step cwd "c" _ _ (set_frames _ (set_frames _ st))
               fc lc Fc Lc).
    cbn [load_loop ret frames set_frames app]. fold n.
    rewrite !length_app. cbn [length]. fold n.
    rewrite <- !app_assoc. cbn [app].
    unfold ret, set_frames. cbn.
    replace (n + 1) with (S n) by lia.
    replace (n + 3) with (S (n + 2)) by lia.
    replace (n + 5) with (S (n + 2 + 2)) by lia.
    replace (n + 4) with (n + 2 + 2) by lia.
    reflexivity. }
  unfold st'. rewrite R. cbn [fst snd frames set_frames].
  split; [reflexivity|]. split; [reflexivity|]. split; [reflexivity|].
  assert (K : forall i x,
            [fa; la; fb; lb; fc; lc] !! i = Some x ->
            (frames st ++ [fa; la; fb; lb; fc; lc])%list !! (n + i) = Some x).
  { intros i x E. rewrite lookup_app_r by (unfold n; lia).
    replace (n + i - length (frames st)) with i by (unfold n; lia).
    exact E. }
  rewrite <- (Nat.add_0_r n) at 1.
  repeat split; apply K; reflexivity.
Qed.

End Loader.

Section Logging.

Context {F : Type} `{Float64 F}.

Local Open Scope string_scope.

(** The loader, run from any state, touches neither the file system nor
    the logger: it writes no log record. *)
Lemma loadData_effects (cwd : string) (st : State F) :
  let st' := fst (loadData cwd st) in
  files st' = files st /\ dirs st' = dirs st /\
  handlers st' = handlers st /\ root_handlers st' = root_handlers st /\
  logger_level st' = logger_level st /\
  axes st' = axes st /\ figures st' = figures st /\
  sns_style st' = sns_style st /\
  frames st `prefix_of` frames st'.
Proof.
  unfold loadData.
  destruct (load_loop cwd names [] st) as [st' r] eqn:E.
  exact (load_loop_effects cwd names [] st st' r E).
Qed.

Lemma setup_logging_run (cwd : string) (st : State F) :
  root_handlers st = [] ->
  snd (setup_logging cwd st) = Ok tt /\
  files (fst (setup_logging cwd st)) =
    <[log_file cwd := LogFile []]> (files st) /\
  handlers (fst (setup_logging cwd st)) =
    [ {| kind := FileHandler (log_file cwd); hlevel := DEBUG;
         formatter := Some log_format |};
      {| kind := StreamHandler; hlevel := CRITICAL;
         formatter := Some log_format |} ] /\
  logger_level (fst (setup_logging cwd st)) = Some DEBUG /\
  frames (fst (setup_logging cwd st)) = frames st.
Proof.
  intros R.
  unfold setup_logging, hasHandlers, bind, gets, modify, try_except,
    os_mkdir, new_FileHandler_w, addHandler, ret.
  cbn [handlers root_handlers set_logger_level set_handlers].
  rewrite R.
  destruct (handlers st) as [|h0 hs] eqn:Hh; cbn; rewrite ?R, ?Hh; cbn;
    destruct (decide (LOG_DIR cwd ∈ dirs st)); cbn; rewrite ?Hh; auto.
Qed.

(** C8, as amended.  In a process whose root logger has no handler, every
    run of the logging set-up recreates the log file in the log directory:
    whatever it held, it is empty afterwards, and a file handler at level
    DEBUG is attached to it.  The dataset loader itself emits no log record
    and has no effect on files, directories or the logger: after the load
    the log file is still empty, and the tables that existed are kept. *)
Theorem log_file_recreated_and_load_silent (cwd : string) (st : State F) :
  root_handlers st = [] ->
  let st1 := fst (setup_logging cwd st) in
  let st2 := fst (loadData cwd st1) in
  snd (setup_logging cwd st) = Ok tt /\
  files st1 = <[log_file cwd := LogFile []]> (files st) /\
  files st1 !! log_file cwd = Some (LogFile []) /\
  In {| kind := FileHandler (log_file cwd); hlevel := DEBUG;
        formatter := Some log_format |} (handlers st1) /\
  logger_level st1 = Some DEBUG /\
  files st2 = files st1 /\
  files st2 !! log_file cwd = Some (LogFile []) /\
  dirs st2 = dirs st1 /\ handlers st2 = handlers st1 /\
  frames st1 `prefix_of` frames st2.
Proof.
  intros R st1 st2.
  destruct (setup_logging_run cwd st R) as (S1 & S2 & S3 & S4 & S5).
  destruct (loadData_effects cwd st1) as (L1 & L2 & L3 & _ & _ & _ & _ & _ & L9).
  fold st1 in S2, S3, S4. fold st2 in L1, L2, L3, L9.
  split; [exact S1|]. split; [exact S2|].
  split; [rewrite S2; apply lookup_insert_eq|].
  split; [rewrite S3; left; reflexivity|].
  split; [exact S4|]. split; [exact L1|].
  split; [rewrite L1, S2; apply lookup_insert_eq|].
  auto.
Qed.

End Logging.

(** ** The stacked entry points *)

Section Stacked.

Context {F : Type} `{Float64 F}.

Lemma for_enumerate_first_raises {A} (i : nat) (x : A) (l : list A)
    (body : nat -> A -> Py F unit) (st : State F) (e : exn) :
  snd (body i x st) = Raise e ->
  snd (for_enumerate i (x :: l) body st) = Raise e.
Proof.
  intros R. cbn [for_enumerate]. unfold bind.
  destruct (body i x st) as [st' [u|e']]; cbn in *; congruence.
Qed.

Lemma bind_raises {A B} (c : Py F A) (k : A -> Py F B) (st : State F)
    (e : exn) :
  snd (c st) = Raise e -> snd (bind c k st) = Raise e.
Proof.
  intros R. unfold bind.
  destruct (c st) as [st' [a|e']]; cbn in *; congruence.
Qed.

(** [plt.subplots] for one row and for no row *)
Lemma plt_subplots_one (zero_rows : option exn) (size : Z * Z)
    (st : State F) :
  plt_subplots zero_rows 1 size st =
  (set_figures (figures st ++
     [{| figsize := size; fig_axes := [length (axes st)];
         fig_suptitle := None; adjust := None |}])
     (set_axes (axes st ++ [new_axes]) st),
   Ok (length (figures st), OneAxes (length (axes st)))).
Proof. reflexivity. Qed.

Lemma plt_subplots_none (size : Z * Z) (st : State F) :
  plt_subplots None 0 size st =
  (set_figures (figures st ++
     [{| figsize := size; fig_axes := [];
         fig_suptitle := None; adjust := None |}])
     (set_axes (axes st ++ []) st),
   Ok (length (figures st), AxesArray [])).
Proof. reflexivity. Qed.

Lemma fig_set_suptitle_new (t : string) (st : State F) (g : Figure F)
    (a : list (Axes F)) :
  snd (fig_set_suptitle (length (figures st)) t
         (set_figures (figures st ++ [g]) (set_axes a st))) = Ok tt.
Proof.
  unfold fig_set_suptitle, update_figure. cbn [figures set_figures set_axes].
  rewrite list_lookup_middle by reflexivity. reflexivity.
Qed.

(** C9.  Given a list of fewer than two variables, both stacked entry
    points raise.  With one variable, [plt.subplots] hands back the Axes
    itself and the first [axes[i]] raises TypeError.  With no variable,
    the loop body never runs and, unless [plt.subplots] already raised for
    the zero rows, [1 / n] raises ZeroDivisionError. *)
Theorem stacked_entry_points_fail (zero_rows : option exn) (st : State F)
    (data : nat) (variables : list string) (title : option string) :
  length variables < 2 ->
  snd (boxPlotTimeSeriesMultiple zero_rows data variables title st) =
    Raise (stacked_error zero_rows variables) /\
  snd (missingHeatMapMultiple zero_rows data variables title st) =
    Raise (stacked_error zero_rows variables).
Proof.
  intros L. destruct variables as [|x [|y l]]; [| |cbn in L; lia].
  - destruct zero_rows as [e|]; [split; reflexivity|].
    unfold boxPlotTimeSeriesMultiple, missingHeatMapMultiple,
      fig_set_suptitle, update_figure, bind.
    rewrite !plt_subplots_none. cbn [length for_enumerate ret].
    cbn [figures set_figures set_axes].
    rewrite !list_lookup_middle by reflexivity.
    split; reflexivity.
  - unfold boxPlotTimeSeriesMultiple, missingHeatMapMultiple.
    cbn [length]. split.
    + unfold bind at 1. rewrite plt_subplots_one.
      apply bind_raises, for_enumerate_first_raises; reflexivity.
    + unfold bind at 1. rewrite plt_subplots_one.
      apply bind_raises, for_enumerate_first_raises; reflexivity.
Qed.

End Stacked.

(** ** The renderers compute the columns above *)

Section Runs.

Context {F : Type} `{Float64 F}.

Local Open Scope string_scope.

Lemma bind_ok {A B} (c : Py F A) (k : A -> Py F B) (st st' : State F)
    (a : A) :
  c st = (st', Ok a) -> bind c k st = k a st'.
Proof. intros E. unfold bind. rewrite E. reflexivity. Qed.

Lemma read_frame_ok (r : nat) (st : State F) (d : DataFrame F) :
  frames st !! r = Some d -> read_frame r st = (st, Ok d).
Proof. intros E. unfold read_frame. rewrite E. reflexivity. Qed.

Lemma getitem_ok (r : nat) (c : string) (st : State F) (d : DataFrame F)
    (v : column F) :
  frames st !! r = Some d -> get_column d c = Ok v ->
  getitem r c st = (st, Ok v).
Proof.
  intros E G. unfold getitem.
  rewrite (bind_ok _ _ _ _ _ (read_frame_ok r st d E)).
  unfold lift. rewrite G. reflexivity.
Qed.

Lemma setitem_ok (r : nat) (c : string) (v : column F) (st : State F)
    (d : DataFrame F) :
  frames st !! r = Some d ->
  setitem r c v st =
  (set_frames
     (<[r := {| index := index d; columns := assign c v (columns d) |}]>
        (frames st)) st, Ok tt).
Proof.
  intros E. unfold setitem.
  rewrite (bind_ok _ _ _ _ _ (read_frame_ok r st d E)). reflexivity.
Qed.

Lemma groupby_transform_of_ok (r : nat) (key c : string)
    (agg : Series -> F) (st : State F) (d : DataFrame F) (keys : list Z)
    (v : column F) :
  frames st !! r = Some d ->
  get_column d key = Ok (IntCol keys) -> get_column d c = Ok v ->
  groupby_transform_of r key c agg st =
  (st, Ok (groupby_transform agg keys (as_float v))).
Proof.
  intros E K V. unfold groupby_transform_of.
  rewrite (bind_ok _ _ _ _ _ (getitem_ok r key st d _ E K)).
  unfold lift at 1, as_keys. unfold bind at 1.
  rewrite (bind_ok _ _ _ _ _ (getitem_ok r c st d _ E V)).
  reflexivity.
Qed.

Lemma update_axes_ok (a : nat) (f : Axes F -> Axes F) (st : State F)
    (x : Axes F) :
  axes st !! a = Some x ->
  update_axes a f st = (set_axes (<[a := f x]> (axes st)) st, Ok tt).
Proof.
  intros E. unfold update_axes, read_axes, bind, modify. rewrite E.
  reflexivity.
Qed.

Lemma lookup_new (l : list (DataFrame F)) (d : DataFrame F) :
  (l ++ [d])%list !! length l = Some d.
Proof. apply list_lookup_middle. reflexivity. Qed.

Lemma lookup_updated {A} (l : list A) (i : nat) (x y : A) :
  l !! i = Some x -> <[i := y]> l !! i = Some y.
Proof.
  intros E. apply list_lookup_insert_eq. eapply lookup_lt_Some. exact E.
Qed.

Lemma alloc_frame_ok (d : DataFrame F) (st : State F) :
  alloc_frame d st =
  (set_frames (frames st ++ [d])%list st, Ok (length (frames st))).
Proof. reflexivity. Qed.

Lemma getitem_list_ok (r : nat) (cs : list string) (st : State F)
    (d : DataFrame F) (cols : list (string * column F)) :
  frames st !! r = Some d -> select d cs = Ok cols ->
  getitem_list r cs st =
  (set_frames (frames st ++ [{| index := index d; columns := cols |}])%list st,
   Ok (length (frames st))).
Proof.
  intros E S. unfold getitem_list.
  rewrite (bind_ok _ _ _ _ _ (read_frame_ok r st d E)).
  unfold lift at 1, bind at 1. rewrite S. reflexivity.
Qed.

Lemma copy_deep_ok (r : nat) (st : State F) (d : DataFrame F) :
  frames st !! r = Some d ->
  copy_deep r st =
  (set_frames (frames st ++ [d])%list st, Ok (length (frames st))).
Proof.
  intros E. unfold copy_deep.
  rewrite (bind_ok _ _ _ _ _ (read_frame_ok r st d E)). reflexivity.
Qed.

Lemma getitem_mask_ok (r : nat) (mask : list bool) (st : State F)
    (d : DataFrame F) :
  frames st !! r = Some d ->
  getitem_mask r mask st =
  (set_frames (frames st ++ [mask_frame mask d])%list st,
   Ok (length (frames st))).
Proof.
  intros E. unfold getitem_mask.
  rewrite (bind_ok _ _ _ _ _ (read_frame_ok r st d E)). reflexivity.
Qed.

Lemma sns_boxplot_ok (ax df : nat) (x y : string) (st : State F)
    (d : DataFrame F) (keys : list Z) (vy : column F) (a : Axes F) :
  frames st !! df = Some d -> axes st !! ax = Some a ->
  get_column d x = Ok (IntCol keys) -> get_column d y = Ok vy ->
  sns_boxplot ax df x y st =
  (set_axes (<[ax := draw (BoxPlot keys (as_float vy)) a]> (axes st)) st,
   Ok ax).
Proof.
  intros E A X Y. unfold sns_boxplot.
  rewrite (bind_ok _ _ _ _ _ (getitem_ok df x st d _ E X)).
  unfold lift at 1, as_keys, bind at 1.
  rewrite (bind_ok _ _ _ _ _ (getitem_ok df y st d _ E Y)).
  rewrite (bind_ok _ _ _ _ _ (update_axes_ok ax _ st a A)).
  reflexivity.
Qed.

Lemma set_ylim_run (ax : nat) (lo hi : F) (st : State F) (a : Axes F) :
  axes st !! ax = Some a ->
  set_ylim ax lo hi st =
  if isfinite lo && isfinite hi then
    (set_axes
       (<[ax := {| artists := artists a; ax_title := ax_title a;
                   ax_xlabel := ax_xlabel a; ax_ylabel := ax_ylabel a;
                   ylim := Some (lo, hi); labelbottom := labelbottom a |}]>
          (axes st)) st, Ok tt)
  else (st, Raise ValueError).
Proof.
  intros A. unfold set_ylim. destruct (isfinite lo && isfinite hi);
    [exact (update_axes_ok ax _ st a A) | reflexivity].
Qed.

Lemma eqb_false (a b : string) : a <> b -> String.eqb a b = false.
Proof. apply String.eqb_neq. Qed.

(** What a call of the boxplot renderer does to the Axes it is given, for
    a table with an integral Hour column and a float column for the
    variable: it draws the trimmed, centred values against their hours and
    sets the limits to plus and minus [y_abs_max], or raises ValueError
    when that bound is not finite. *)
Lemma boxplotTimeSeries_run (st : State F) (ax data : nat)
    (variable : string) (title : option string) (d : DataFrame F)
    (a0 : Axes F) (hours : list Z) (v : Series) :
  frames st !! data = Some d -> axes st !! ax = Some a0 ->
  get_column d "Hour" = Ok (IntCol hours) ->
  get_column d variable = Ok (FloatCol v) ->
  variable <> "Hour" -> variable <> "quantile_low" ->
  variable <> "quantile_high" ->
  let y := y_abs_max (trimmed hours v) in
  let ok := isfinite (fneg y) && isfinite y in
  let st' := fst (boxplotTimeSeries ax data variable title st) in
  snd (boxplotTimeSeries ax data variable title st) =
    (if ok then Ok ax else Raise ValueError) /\
  exists a',
    axes st' !! ax = Some a' /\
    artists a' =
      (artists a0 ++
       [BoxPlot (mask_select (trim_mask hours v) hours) (trimmed hours v)])%list /\
    ylim a' = if ok then Some (fneg y, y) else ylim a0.
Proof.
  intros Ed Ea Eh Ev N1 N2 N3 y ok st'.
  pose proof (eqb_false _ _ N1) as B1.
  pose proof (eqb_false _ _ N2) as B2.
  pose proof (eqb_false _ _ N3) as B3.
  assert (B2' : String.eqb "quantile_low" variable = false)
    by (rewrite String.eqb_sym; exact B2).
  assert (B3' : String.eqb "quantile_high" variable = false)
    by (rewrite String.eqb_sym; exact B3).
  set (n := length (frames st)).
  set (sel := {| index := index d;
                 columns := [("Hour", IntCol hours); (variable, FloatCol v)] |}).
  assert (R : exists s a',
    boxplotTimeSeries ax data variable title st =
      (s, if ok then Ok ax else Raise ValueError) /\
    axes s !! ax = Some a' /\
    artists a' =
      (artists a0 ++
       [BoxPlot (mask_select (trim_mask hours v) hours) (trimmed hours v)])%list /\
    ylim a' = if ok then Some (fneg y, y) else ylim a0).
  { unfold boxplotTimeSeries, sns_set.
    unfold bind at 1. cbn [modify].
    set (s0 := set_sns_style (Some "whitegrid") st).
    assert (Ed0 : frames s0 !! data = Some d) by exact Ed.
    (* sel = data[['Hour', variable]] *)
    assert (Sel : select d ["Hour"; variable] = Ok (columns sel))
      by (unfold select; rewrite Eh, Ev; reflexivity).
    rewrite (bind_ok _ _ _ _ _ (getitem_list_ok data _ s0 d _ Ed0 Sel)).
    cbv beta.
    set (s1 := set_frames _ s0).
    assert (F1 : frames s1 !! n = Some sel) by apply lookup_new.
    (* df = sel.copy(deep=True) *)
    rewrite (bind_ok _ _ _ _ _ (copy_deep_ok n s1 sel F1)). cbv beta.
    set (df := length (frames s1)).
    set (s2 := set_frames _ s1).
    assert (F2 : frames s2 !! df = Some sel) by apply lookup_new.
    assert (Gh : get_column sel "Hour" = Ok (IntCol hours)) by reflexivity.
    assert (Gv : get_column sel variable = Ok (FloatCol v))
      by (unfold get_column; cbn -[String.eqb]; rewrite B1, String.eqb_refl;
          reflexivity).
    (* medians, and df[variable] = df[variable] - medians *)
    rewrite (bind_ok _ _ _ _ _
               (groupby_transform_of_ok df _ _ median s2 sel hours _ F2 Gh Gv)).
    cbv beta.
    rewrite (bind_ok _ _ _ _ _ (getitem_ok df variable s2 sel _ F2 Gv)).
    cbv beta. cbn [as_float]. fold (centered hours v).
    rewrite (bind_ok _ _ _ _ _ (setitem_ok df variable _ s2 sel F2)).
    cbv beta.
    set (s3 := set_frames _ s2).
    set (d3 := {| index := index d;
                  columns := [("Hour", IntCol hours);
                              (variable, FloatCol (centered hours v))] |}).
    assert (F3 : frames s3 !! df = Some d3).
    { unfold s3. cbn [frames set_frames].
      rewrite (lookup_updated _ _ _ _ F2). unfold d3, sel. cbn -[String.eqb].
      rewrite B1, String.eqb_refl. reflexivity. }
    assert (Gh3 : get_column d3 "Hour" = Ok (IntCol hours)) by reflexivity.
    assert (Gv3 : get_column d3 variable = Ok (FloatCol (centered hours v)))
      by (unfold get_column; cbn -[String.eqb]; rewrite B1, String.eqb_refl;
          reflexivity).
    (* df['quantile_low'] *)
    rewrite (bind_ok _ _ _ _ _
               (groupby_transform_of_ok df _ _ _ s3 d3 hours _ F3 Gh3 Gv3)).
    cbv beta. cbn [as_float]. fold (quantile_low hours v).
    rewrite (bind_ok _ _ _ _ _ (setitem_ok df "quantile_low" _ s3 d3 F3)).
    cbv beta.
    set (s4 := set_frames _ s3).
    set (d4 := {| index := index d;
                  columns := [("Hour", IntCol hours);
                              (variable, FloatCol (centered hours v));
                              ("quantile_low", FloatCol (quantile_low hours v))] |}).
    assert (F4 : frames s4 !! df = Some d4).
    { unfold s4. cbn [frames set_frames].
      rewrite (lookup_updated _ _ _ _ F3). unfold d4, d3. cbn -[String.eqb].
      rewrite B2'. reflexivity. }
    assert (Gh4 : get_column d4 "Hour" = Ok (IntCol hours)) by reflexivity.
    assert (Gv4 : get_column d4 variable = Ok (FloatCol (centered hours v)))
      by (unfold get_column; cbn -[String.eqb]; rewrite B1, String.eqb_refl;
          reflexivity).
    (* df['quantile_high'] *)
    rewrite (bind_ok _ _ _ _ _
               (groupby_transform_of_ok df _ _ _ s4 d4 hours _ F4 Gh4 Gv4)).
    cbv beta. cbn [as_float]. fold (quantile_high hours v).
    rewrite (bind_ok _ _ _ _ _ (setitem_ok df "quantile_high" _ s4 d4 F4)).
    cbv beta.
    set (s5 := set_frames _ s4).
    set (d5 := {| index := index d;
                  columns := [("Hour", IntCol hours);
                              (variable, FloatCol (centered hours v));
                              ("quantile_low", FloatCol (quantile_low hours v));
                              ("quantile_high", FloatCol (quantile_high hours v))] |}).
    assert (F5 : frames s5 !! df = Some d5).
    { unfold s5. cbn [frames set_frames].
      rewrite (lookup_updated _ _ _ _ F4). unfold d5, d4. cbn -[String.eqb].
      rewrite B3'. reflexivity. }
    assert (Gh5 : get_column d5 "Hour" = Ok (IntCol hours)) by reflexivity.
    assert (Gv5 : get_column d5 variable = Ok (FloatCol (centered hours v)))
      by (unfold get_column; cbn -[String.eqb]; rewrite B1, String.eqb_refl;
          reflexivity).
    assert (Gl5 : get_column d5 "quantile_low" =
                  Ok (FloatCol (quantile_low hours v)))
      by (unfold get_column; cbn -[String.eqb]; rewrite B2'; reflexivity).
    assert (Gu5 : get_column d5 "quantile_high" =
                  Ok (FloatCol (quantile_high hours v)))
      by (unfold get_column; cbn -[String.eqb]; rewrite B3'; reflexivity).
    (* the trim *)
    rewrite (bind_ok _ _ _ _ _ (getitem_ok df _ s5 d5 _ F5 Gv5)). cbv beta.
    rewrite (bind_ok _ _ _ _ _ (getitem_ok df _ s5 d5 _ F5 Gl5)). cbv beta.
    rewrite (bind_ok _ _ _ _ _ (getitem_ok df _ s5 d5 _ F5 Gu5)). cbv beta.
    cbn [as_float]. fold (trim_mask hours v).
    rewrite (bind_ok _ _ _ _ _ (getitem_mask_ok df _ s5 d5 F5)). cbv beta.
    set (df' := length (frames s5)).
    set (s6 := set_frames _ s5).
    set (d6 := mask_frame (trim_mask hours v) d5).
    assert (F6 : frames s6 !! df' = Some d6) by apply lookup_new.
    assert (A6 : axes s6 !! ax = Some a0) by exact Ea.
    assert (Gh6 : get_column d6 "Hour" =
                  Ok (IntCol (mask_select (trim_mask hours v) hours)))
      by reflexivity.
    assert (Gv6 : get_column d6 variable = Ok (FloatCol (trimmed hours v)))
      by (unfold get_column; cbn -[String.eqb]; rewrite B1, String.eqb_refl;
          reflexivity).
    (* the plot *)
    rewrite (bind_ok _ _ _ _ _
               (sns_boxplot_ok ax df' _ _ s6 d6 _ _ a0 F6 A6 Gh6 Gv6)).
    cbv beta. cbn [as_float].
    set (s7 := set_axes _ s6).
    set (a7 := draw (BoxPlot (mask_select (trim_mask hours v) hours)
                       (trimmed hours v)) a0).
    assert (A7 : axes s7 !! ax = Some a7)
      by (apply (lookup_updated _ _ _ _ A6)).
    unfold set_title, set_xlabel, set_ylabel.
    rewrite (bind_ok _ _ _ _ _ (update_axes_ok ax _ s7 a7 A7)). cbv beta.
    set (s8 := set_axes _ s7).
    assert (A8 : axes s8 !! ax = Some _)
      by (apply (lookup_updated _ _ _ _ A7)).
    rewrite (bind_ok _ _ _ _ _ (update_axes_ok ax _ s8 _ A8)). cbv beta.
    set (s9 := set_axes _ s8).
    assert (A9 : axes s9 !! ax = Some _)
      by (apply (lookup_updated _ _ _ _ A8)).
    rewrite (bind_ok _ _ _ _ _ (update_axes_ok ax _ s9 _ A9)). cbv beta.
    set (s10 := set_axes _ s9).
    assert (A10 : axes s10 !! ax = Some _)
      by (apply (lookup_updated _ _ _ _ A9)).
    assert (F10 : frames s10 !! df' = Some d6) by exact F6.
    rewrite (bind_ok _ _ _ _ _ (getitem_ok df' _ s10 d6 _ F10 Gv6)). cbv beta.
    cbn [as_float]. fold y.
    unfold bind. rewrite (set_ylim_run ax _ _ s10 _ A10). fold ok.
    destruct ok.
    - eexists _, _. split; [reflexivity|]. cbn [axes set_axes].
      split; [apply (lookup_updated _ _ _ _ A10)|].
      split; reflexivity.
    - eexists _, _. split; [reflexivity|].
      split; [exact A10|]. split; reflexivity. }
  destruct R as (s & a' & R & A1 & A2 & A3).
  unfold st'. rewrite R. cbn [fst snd]. split; [reflexivity|].
  exists a'. auto.
Qed.

Lemma groupby_agg_sum_count_ok (r : nat) (key c : string) (st : State F)
    (d : DataFrame F) (keys vals : list Z) :
  frames st !! r = Some d ->
  get_column d key = Ok (IntCol keys) -> get_column d c = Ok (IntCol vals) ->
  groupby_agg_sum_count r key c st =
  (set_frames
     (frames st ++
      [{| index := group_keys keys;
          columns :=
            [("sum",
              IntCol (map (fun h => sum_int (group_values keys vals h))
                          (group_keys keys)));
             ("count",
              IntCol (map (fun h => count_int (group_values keys vals h))
                          (group_keys keys)))] |}])%list st,
   Ok (length (frames st))).
Proof.
  intros E K V. unfold groupby_agg_sum_count.
  rewrite (bind_ok _ _ _ _ _ (getitem_ok r key st d _ E K)).
  unfold lift at 1, as_keys at 1, bind at 1.
  rewrite (bind_ok _ _ _ _ _ (getitem_ok r c st d _ E V)).
  reflexivity.
Qed.

Lemma pivot_table_ok (r : nat) (c : string) (st : State F)
    (d : DataFrame F) (v : column F) :
  frames st !! r = Some d -> get_column d c = Ok v ->
  pivot_table r c st = (st, Ok (index d, as_float v)).
Proof.
  intros E V. unfold pivot_table.
  rewrite (bind_ok _ _ _ _ _ (read_frame_ok r st d E)).
  unfold lift, bind. rewrite V. reflexivity.
Qed.

(** What a call of the heatmap renderer does to the Axes it is given, for
    a table with an integral Hour column and a float column for the
    variable: it draws one strip with the missing fraction of every hour
    of the table, on the scale from 0 to 1. *)
Lemma missingHeatMap_run (st : State F) (ax data : nat)
    (variable : string) (title : option string) (d : DataFrame F)
    (a0 : Axes F) (hours : list Z) (v : Series) :
  frames st !! data = Some d -> axes st !! ax = Some a0 ->
  get_column d "Hour" = Ok (IntCol hours) ->
  get_column d variable = Ok (FloatCol v) ->
  variable <> "Hour" -> variable <> "missing" ->
  let st' := fst (missingHeatMap ax data variable title st) in
  snd (missingHeatMap ax data variable title st) = Ok ax /\
  exists a',
    axes st' !! ax = Some a' /\
    artists a' =
      (artists a0 ++
       [HeatMap (group_keys hours) (pct_missing hours v)
                (of_int 0) (of_int 1)])%list.
Proof.
  intros Ed Ea Eh Ev N1 N2 st'.
  pose proof (eqb_false _ _ N1) as B1.
  assert (B2 : String.eqb "missing" variable = false)
    by (rewrite String.eqb_sym; apply eqb_false; exact N2).
  set (sel := {| index := index d;
                 columns := [("Hour", IntCol hours); (variable, FloatCol v)] |}).
  assert (R : exists s a',
    missingHeatMap ax data variable title st = (s, Ok ax) /\
    axes s !! ax = Some a' /\
    artists a' =
      (artists a0 ++
       [HeatMap (group_keys hours) (pct_missing hours v)
                (of_int 0) (of_int 1)])%list).
  { unfold missingHeatMap, sns_set.
    unfold bind at 1. cbn [modify].
    set (s0 := set_sns_style (Some "whitegrid") st).
    assert (Ed0 : frames s0 !! data = Some d) by exact Ed.
    assert (Sel : select d ["Hour"; variable] = Ok (columns sel))
      by (unfold select; rewrite Eh, Ev; reflexivity).
    rewrite (bind_ok _ _ _ _ _ (getitem_list_ok data _ s0 d _ Ed0 Sel)).
    cbv beta.
    set (s1 := set_frames _ s0).
    assert (F1 : frames s1 !! length (frames s0) = Some sel)
      by apply lookup_new.
    rewrite (bind_ok _ _ _ _ _ (copy_deep_ok _ s1 sel F1)). cbv beta.
    set (df := length (frames s1)).
    set (s2 := set_frames _ s1).
    assert (F2 : frames s2 !! df = Some sel) by apply lookup_new.
    assert (Gv : get_column sel variable = Ok (FloatCol v))
      by (unfold get_column; cbn -[String.eqb]; rewrite B1, String.eqb_refl;
          reflexivity).
    (* df['missing'] *)
    rewrite (bind_ok _ _ _ _ _ (getitem_ok df variable s2 sel _ F2 Gv)).
    cbv beta. cbn [isna_int]. fold (missing_flags v).
    rewrite (bind_ok _ _ _ _ _ (setitem_ok df "missing" _ s2 sel F2)).
    cbv beta.
    set (s3 := set_frames _ s2).
    set (d3 := {| index := index d;
                  columns := [("Hour", IntCol hours); (variable, FloatCol v);
                              ("missing", IntCol (missing_flags v))] |}).
    assert (F3 : frames s3 !! df = Some d3).
    { unfold s3. cbn [frames set_frames].
      rewrite (lookup_updated _ _ _ _ F2). unfold d3, sel.
      cbn -[String.eqb]. rewrite B2. reflexivity. }
    assert (Gh3 : get_column d3 "Hour" = Ok (IntCol hours)) by reflexivity.
    assert (Gm3 : get_column d3 "missing" = Ok (IntCol (missing_flags v)))
      by (unfold get_column; cbn -[String.eqb]; rewrite B2; reflexivity).
    (* grouped *)
    rewrite (bind_ok _ _ _ _ _
               (groupby_agg_sum_count_ok df _ _ s3 d3 _ _ F3 Gh3 Gm3)).
    cbv beta. fold (missing_sum hours v). fold (missing_count hours v).
    set (g := length (frames s3)).
    set (s4 := set_frames _ s3).
    set (d4 := ({| index := group_keys hours;
                   columns := [("sum", IntCol (missing_sum hours v));
                               ("count", IntCol (missing_count hours v))] |}
                : DataFrame F)).
    assert (F4 : frames s4 !! g = Some d4) by apply lookup_new.
    rewrite (bind_ok _ _ _ _ _ (getitem_ok g "sum" s4 d4 _ F4 eq_refl)).
    cbv beta.
    rewrite (bind_ok _ _ _ _ _ (getitem_ok g "count" s4 d4 _ F4 eq_refl)).
    cbv beta. cbn [as_float]. fold (pct_missing hours v).
    rewrite (bind_ok _ _ _ _ _ (setitem_ok g "pct_missing" _ s4 d4 F4)).
    cbv beta.
    set (s5 := set_frames _ s4).
    set (d5 := {| index := group_keys hours;
                  columns := [("sum", IntCol (missing_sum hours v));
                              ("count", IntCol (missing_count hours v));
                              ("pct_missing", FloatCol (pct_missing hours v))] |}).
    assert (F5 : frames s5 !! g = Some d5)
      by (unfold s5; cbn [frames set_frames];
          rewrite (lookup_updated _ _ _ _ F4); reflexivity).
    (* heatmap_data and the plot *)
    rewrite (bind_ok _ _ _ _ _
               (pivot_table_ok g "pct_missing" s5 d5 _ F5 eq_refl)).
    cbv beta. cbn [fst snd index as_float d5].
    unfold sns_heatmap.
    assert (A5 : axes s5 !! ax = Some a0) by exact Ea.
    unfold bind at 1.
    rewrite (bind_ok _ _ _ _ _ (update_axes_ok ax _ s5 a0 A5)). cbn [ret].
    set (s6 := set_axes _ s5).
    set (a6 := draw (HeatMap (group_keys hours) (pct_missing hours v)
                       (of_int 0) (of_int 1)) a0).
    assert (A6 : axes s6 !! ax = Some a6)
      by (apply (lookup_updated _ _ _ _ A5)).
    unfold set_title, set_xlabel, set_ylabel.
    rewrite (bind_ok _ _ _ _ _ (update_axes_ok ax _ s6 a6 A6)). cbv beta.
    set (s7 := set_axes _ s6).
    assert (A7 : axes s7 !! ax = Some _)
      by (apply (lookup_updated _ _ _ _ A6)).
    rewrite (bind_ok _ _ _ _ _ (update_axes_ok ax _ s7 _ A7)). cbv beta.
    set (s8 := set_axes _ s7).
    assert (A8 : axes s8 !! ax = Some _)
      by (apply (lookup_updated _ _ _ _ A7)).
    rewrite (bind_ok _ _ _ _ _ (update_axes_ok ax _ s8 _ A8)). cbv beta.
    eexists _, _. split; [reflexivity|]. cbn [axes set_axes].
    split; [apply (lookup_updated _ _ _ _ A8)|]. reflexivity. }
  destruct R as (s & a' & R & A1 & A2).
  unfold st'. rewrite R. cbn [fst snd]. split; [reflexivity|].
  exists a'. auto.
Qed.

End Runs.

(** ** The properties at concrete inputs *)

Section Instances.

Import Binary64 Exact Examples.

Local Open Scope string_scope.


(** C2.  For a variable that is missing throughout, the trimmed values are
    all missing, [Series.max()] is NaN and [np.max] hands the NaN on: the
    bound is NaN where the floor 0.05 was meant to apply, [set_ylim]
    refuses it, and the render raises ValueError. *)
Lemma y_abs_max_of_all_missing_is_nan :
  trimmed missing_hours missing_values = [S754_nan; S754_nan] /\
  y_abs_max (trimmed missing_hours missing_values) = S754_nan /\
  y_abs_max (trimmed missing_hours missing_values) <> lit 5 100 /\
  feq (y_abs_max (trimmed missing_hours missing_values)) (lit 5 100) = false /\
  snd (boxplotTimeSeries 0 0 "X" None (state_with missing_table)) =
    Raise ValueError.
Proof.
  split; [vm_compute; reflexivity|]. split; [vm_compute; reflexivity|].
  split; [vm_compute; discriminate|]. split; vm_compute; reflexivity.
Qed.

Lemma y_abs_max_is_floored_maximum_witness :
  In (rational 0) (trimmed scenario_hours scenario_X) /\
  isna (rational 0) = false /\
  y_abs_max (trimmed scenario_hours scenario_X) =
    fmax (series_max (map fabs (trimmed scenario_hours scenario_X)))
         (lit 5 100).
Proof.
  assert (I : In (rational 0) (trimmed scenario_hours scenario_X))
    by (vm_compute; left; reflexivity).
  split; [exact I|]. split; [reflexivity|].
  assert (N : isna (rational 0) = false) by reflexivity.
  apply (y_abs_max_is_floored_maximum
           (trimmed scenario_hours scenario_X) (rational 0) I N).
Defined.






Lemma renderers_leave_tables_unchanged_witness :
  frames (state_with scenario_table) !! 0 = Some scenario_table /\
  frames (fst (boxplotTimeSeries 0 0 "X" None (state_with scenario_table)))
    !! 0 = Some scenario_table.
Proof.
  split; [reflexivity|].
  destruct (renderers_leave_tables_unchanged (state_with scenario_table)
              0 0 "X" None 0 scenario_table eq_refl) as [B _].
  exact B.
Defined.


Lemma loadData_returns_three_pairs_witness :
  files full_disk !! featuresPath cwd "a" = Some (Parquet scenario_table) /\
  files full_disk !! labelsPath cwd "a" = Some (Parquet outcomes) /\
  files full_disk !! featuresPath cwd "b" = Some (Parquet scenario_table) /\
  files full_disk !! labelsPath cwd "b" = Some (Parquet outcomes) /\
  files full_disk !! featuresPath cwd "c" = Some (Parquet scenario_table) /\
  files full_disk !! labelsPath cwd "c" = Some (Parquet outcomes) /\
  snd (loadData cwd full_disk) = Ok [(0, 1); (2, 3); (4, 5)].
Proof.
  assert (Fa : files full_disk !! featuresPath cwd "a" =
               Some (Parquet scenario_table)) by (vm_compute; reflexivity).
  assert (La : files full_disk !! labelsPath cwd "a" =
               Some (Parquet outcomes)) by (vm_compute; reflexivity).
  assert (Fb : files full_disk !! featuresPath cwd "b" =
               Some (Parquet scenario_table)) by (vm_compute; reflexivity).
  assert (Lb : files full_disk !! labelsPath cwd "b" =
               Some (Parquet outcomes)) by (vm_compute; reflexivity).
  assert (Fc : files full_disk !! featuresPath cwd "c" =
               Some (Parquet scenario_table)) by (vm_compute; reflexivity).
  assert (Lc : files full_disk !! labelsPath cwd "c" =
               Some (Parquet outcomes)) by (vm_compute; reflexivity).
  repeat (split; [assumption|]).
  destruct (loadData_returns_three_pairs cwd full_disk _ _ _ _ _ _
              Fa La Fb Lb Fc Lc) as (_ & R & _).
  exact R.
Defined.

(** C8 fails on the loader: after the logging set-up and a successful load
    of the three partitions the log file holds no record at all. *)
Lemma loader_emits_no_log_record :
  let st1 := fst (setup_logging cwd full_disk) in
  snd (loadData cwd st1) = Ok [(0, 1); (2, 3); (4, 5)] /\
  files st1 !! log_file cwd = Some (LogFile []) /\
  files (fst (loadData cwd st1)) !! log_file cwd = Some (LogFile []) /\
  ~ exists (records : list LogRecord) (r : LogRecord),
      files (fst (loadData cwd st1)) !! log_file cwd =
        Some (LogFile records) /\
      In r records /\ levelno r = DEBUG.
Proof.
  assert (E : files (fst (loadData cwd (fst (setup_logging cwd full_disk))))
                !! log_file cwd = Some (LogFile []))
    by (vm_compute; reflexivity).
  cbv zeta. split; [vm_compute; reflexivity|].
  split; [vm_compute; reflexivity|]. split; [exact E|].
  intros (records & r & L & I & _). rewrite E in L.
  injection L as <-. destruct I.
Qed.

Lemma log_file_recreated_and_load_silent_witness :
  root_handlers full_disk = [] /\
  files (fst (loadData cwd (fst (setup_logging cwd full_disk))))
    !! log_file cwd = Some (LogFile []).
Proof.
  split; [reflexivity|].
  destruct (log_file_recreated_and_load_silent cwd full_disk eq_refl)
    as (_ & _ & _ & _ & _ & _ & E & _).
  exact E.
Defined.

Lemma stacked_entry_points_fail_witness :
  length ["HR"] < 2 /\
  snd (boxPlotTimeSeriesMultiple None 0 ["HR"] None
         (state_with scenario_table)) = Raise TypeError.
Proof.
  assert (L : length ["HR"] < 2) by (cbn; lia).
  split; [exact L|].
  destruct (stacked_entry_points_fail None (state_with scenario_table) 0
              ["HR"] None L) as [B _].
  exact B.
Defined.

End Instances.

(** * Further properties of the notebook's functions *)

(** ** What a render call leaves on the Axes *)

Section Effects.

Context {F : Type} `{Float64 F}.

Local Open Scope string_scope.

Lemma boxplotTimeSeries_state (st : State F) (ax data : nat)
    (variable : string) (title : option string) (d : DataFrame F)
    (a0 : Axes F) (hours : list Z) (v : Series) :
  frames st !! data = Some d -> axes st !! ax = Some a0 ->
  get_column d "Hour" = Ok (IntCol hours) ->
  get_column d variable = Ok (FloatCol v) ->
  variable <> "Hour" -> variable <> "quantile_low" ->
  variable <> "quantile_high" ->
  let y := y_abs_max (trimmed hours v) in
  let ok := isfinite (fneg y) && isfinite y in
  exists s,
    boxplotTimeSeries ax data variable title st =
      (s, if ok then Ok ax else Raise ValueError) /\
    axes s =
      <[ax := {| artists :=
                   (artists a0 ++
                    [BoxPlot (mask_select (trim_mask hours v) hours)
                             (trimmed hours v)])%list;
                 ax_title :=
                   title_or title
                     ("Distribution of " +:+ variable +:+ " around its median");
                 ax_xlabel := ""; ax_ylabel := "";
                 ylim := if ok then Some (fneg y, y) else ylim a0;
                 labelbottom := labelbottom a0 |}]> (axes st) /\
    figures s = figures st.
Proof.
  intros Ed Ea Eh Ev N1 N2 N3 y ok.
  pose proof (eqb_false _ _ N1) as B1.
  pose proof (eqb_false _ _ N2) as B2.
  pose proof (eqb_false _ _ N3) as B3.
  assert (B2' : String.eqb "quantile_low" variable = false)
    by (rewrite String.eqb_sym; exact B2).
  assert (B3' : String.eqb "quantile_high" variable = false)
    by (rewrite String.eqb_sym; exact B3).
  set (n := length (frames st)).
  set (sel := {| index := index d;
                 columns := [("Hour", IntCol hours); (variable, FloatCol v)] |}).
unfold boxplotTimeSeries, sns_set.
  unfold bind at 1. cbn [modify].
  set (s0 := set_sns_style (Some "whitegrid") st).
  assert (Ed0 : frames s0 !! data = Some d) by exact Ed.
  (* sel = data[['Hour', variable]] *)
  assert (Sel : select d ["Hour"; variable] = Ok (columns sel))
    by (unfold select; rewrite Eh, Ev; reflexivity).
  rewrite (bind_ok _ _ _ _ _ (getitem_list_ok data _ s0 d _ Ed0 Sel)).
  cbv beta.
  set (s1 := set_frames _ s0).
  assert (F1 : frames s1 !! n = Some sel) by apply lookup_new.
  (* df = sel.copy(deep=True) *)
  rewrite (bind_ok _ _ _ _ _ (copy_deep_ok n s1 sel F1)). cbv beta.
  set (df := length (frames s1)).
  set (s2 := set_frames _ s1).
  assert (F2 : frames s2 !! df = Some sel) by apply lookup_new.
  assert (Gh : get_column sel "Hour" = Ok (IntCol hours)) by reflexivity.
  assert (Gv : get_column sel variable = Ok (FloatCol v))
    by (unfold get_column; cbn -[String.eqb]; rewrite B1, String.eqb_refl;
        reflexivity).
  (* medians, and df[variable] = df[variable] - medians *)
  rewrite (bind_ok _ _ _ _ _
             (groupby_transform_of_ok df _ _ median s2 sel hours _ F2 Gh Gv)).
  cbv beta.
  rewrite (bind_ok _ _ _ _ _ (getitem_ok df variable s2 sel _ F2 Gv)).
  cbv beta. cbn [as_float]. fold (centered hours v).
  rewrite (bind_ok _ _ _ _ _ (setitem_ok df variable _ s2 sel F2)).
  cbv beta.
  set (s3 := set_frames _ s2).
  set (d3 := {| index := index d;
                columns := [("Hour", IntCol hours);
                            (variable, FloatCol (centered hours v))] |}).
  assert (F3 : frames s3 !! df = Some d3).
  { unfold s3. cbn [frames set_frames].
    rewrite (lookup_updated _ _ _ _ F2). unfold d3, sel. cbn -[String.eqb].
    rewrite B1, String.eqb_refl. reflexivity. }
  assert (Gh3 : get_column d3 "Hour" = Ok (IntCol hours)) by reflexivity.
  assert (Gv3 : get_column d3 variable = Ok (FloatCol (centered hours v)))
    by (unfold get_column; cbn -[String.eqb]; rewrite B1, String.eqb_refl;
        reflexivity).
  (* df['quantile_low'] *)
  rewrite (bind_ok _ _ _ _ _
             (groupby_transform_of_ok df _ _ _ s3 d3 hours _ F3 Gh3 Gv3)).
  cbv beta. cbn [as_float]. fold (quantile_low hours v).
  rewrite (bind_ok _ _ _ _ _ (setitem_ok df "quantile_low" _ s3 d3 F3)).
  cbv beta.
  set (s4 := set_frames _ s3).
  set (d4 := {| index := index d;
                columns := [("Hour", IntCol hours);
                            (variable, FloatCol (centered hours v));
                            ("quantile_low", FloatCol (quantile_low hours v))] |}).
  assert (F4 : frames s4 !! df = Some d4).
  { unfold s4. cbn [frames set_frames].
    rewrite (lookup_updated _ _ _ _ F3). unfold d4, d3. cbn -[String.eqb].
    rewrite B2'. reflexivity. }
  assert (Gh4 : get_column d4 "Hour" = Ok (IntCol hours)) by reflexivity.
  assert (Gv4 : get_column d4 variable = Ok (FloatCol (centered hours v)))
    by (unfold get_column; cbn -[String.eqb]; rewrite B1, String.eqb_refl;
        reflexivity).
  (* df['quantile_high'] *)
  rewrite (bind_ok _ _ _ _ _
             (groupby_transform_of_ok df _ _ _ s4 d4 hours _ F4 Gh4 Gv4)).
  cbv beta. cbn [as_float]. fold (quantile_high hours v).
  rewrite (bind_ok _ _ _ _ _ (setitem_ok df "quantile_high" _ s4 d4 F4)).
  cbv beta.
  set (s5 := set_frames _ s4).
  set (d5 := {| index := index d;
                columns := [("Hour", IntCol hours);
                            (variable, FloatCol (centered hours v));
                            ("quantile_low", FloatCol (quantile_low hours v));
                            ("quantile_high", FloatCol (quantile_high hours v))] |}).
  assert (F5 : frames s5 !! df = Some d5).
  { unfold s5. cbn [frames set_frames].
    rewrite (lookup_updated _ _ _ _ F4). unfold d5, d4. cbn -[String.eqb].
    rewrite B3'. reflexivity. }
  assert (Gh5 : get_column d5 "Hour" = Ok (IntCol hours)) by reflexivity.
  assert (Gv5 : get_column d5 variable = Ok (FloatCol (centered hours v)))
    by (unfold get_column; cbn -[String.eqb]; rewrite B1, String.eqb_refl;
        reflexivity).
  assert (Gl5 : get_column d5 "quantile_low" =
                Ok (FloatCol (quantile_low hours v)))
    by (unfold get_column; cbn -[String.eqb]; rewrite B2'; reflexivity).
  assert (Gu5 : get_column d5 "quantile_high" =
                Ok (FloatCol (quantile_high hours v)))
    by (unfold get_column; cbn -[String.eqb]; rewrite B3'; reflexivity).
  (* the trim *)
  rewrite (bind_ok _ _ _ _ _ (getitem_ok df _ s5 d5 _ F5 Gv5)). cbv beta.
  rewrite (bind_ok _ _ _ _ _ (getitem_ok df _ s5 d5 _ F5 Gl5)). cbv beta.
  rewrite (bind_ok _ _ _ _ _ (getitem_ok df _ s5 d5 _ F5 Gu5)). cbv beta.
  cbn [as_float]. fold (trim_mask hours v).
  rewrite (bind_ok _ _ _ _ _ (getitem_mask_ok df _ s5 d5 F5)). cbv beta.
  set (df' := length (frames s5)).
  set (s6 := set_frames _ s5).
  set (d6 := mask_frame (trim_mask hours v) d5).
  assert (F6 : frames s6 !! df' = Some d6) by apply lookup_new.
  assert (A6 : axes s6 !! ax = Some a0) by exact Ea.
  assert (Gh6 : get_column d6 "Hour" =
                Ok (IntCol (mask_select (trim_mask hours v) hours)))
    by reflexivity.
  assert (Gv6 : get_column d6 variable = Ok (FloatCol (trimmed hours v)))
    by (unfold get_column; cbn -[String.eqb]; rewrite B1, String.eqb_refl;
        reflexivity).
  (* the plot *)
  rewrite (bind_ok _ _ _ _ _
             (sns_boxplot_ok ax df' _ _ s6 d6 _ _ a0 F6 A6 Gh6 Gv6)).
  cbv beta. cbn [as_float].
  set (s7 := set_axes _ s6).
  set (a7 := draw (BoxPlot (mask_select (trim_mask hours v) hours)
                     (trimmed hours v)) a0).
  assert (A7 : axes s7 !! ax = Some a7)
    by (apply (lookup_updated _ _ _ _ A6)).
  unfold set_title, set_xlabel, set_ylabel.
  rewrite (bind_ok _ _ _ _ _ (update_axes_ok ax _ s7 a7 A7)). cbv beta.
  set (s8 := set_axes _ s7).
  assert (A8 : axes s8 !! ax = Some _)
    by (apply (lookup_updated _ _ _ _ A7)).
  rewrite (bind_ok _ _ _ _ _ (update_axes_ok ax _ s8 _ A8)). cbv beta.
  set (s9 := set_axes _ s8).
  assert (A9 : axes s9 !! ax = Some _)
    by (apply (lookup_updated _ _ _ _ A8)).
  rewrite (bind_ok _ _ _ _ _ (update_axes_ok ax _ s9 _ A9)). cbv beta.
  set (s10 := set_axes _ s9).
  assert (A10 : axes s10 !! ax = Some _)
    by (apply (lookup_updated _ _ _ _ A9)).
  assert (F10 : frames s10 !! df' = Some d6) by exact F6.
  rewrite (bind_ok _ _ _ _ _ (getitem_ok df' _ s10 d6 _ F10 Gv6)). cbv beta.
  cbn [as_float]. fold y.
  unfold bind. rewrite (set_ylim_run ax _ _ s10 _ A10). fold ok.
  destruct ok.
  - eexists. split; [reflexivity|].
    unfold s10, s9, s8, s7, s6, s5, s4, s3, s2, s1, s0, a7.
    cbn [axes figures set_axes set_frames set_sns_style draw
         artists ax_title ax_xlabel ax_ylabel ylim labelbottom].
    rewrite !list_insert_insert_eq. split; reflexivity.
  - eexists. split; [reflexivity|].
    unfold s10, s9, s8, s7, s6, s5, s4, s3, s2, s1, s0, a7.
    cbn [axes figures set_axes set_frames set_sns_style draw
         artists ax_title ax_xlabel ax_ylabel ylim labelbottom].
    rewrite !list_insert_insert_eq. split; reflexivity.
Qed.

Lemma missingHeatMap_state (st : State F) (ax data : nat)
    (variable : string) (title : option string) (d : DataFrame F)
    (a0 : Axes F) (hours : list Z) (v : Series) :
  frames st !! data = Some d -> axes st !! ax = Some a0 ->
  get_column d "Hour" = Ok (IntCol hours) ->
  get_column d variable = Ok (FloatCol v) ->
  variable <> "Hour" -> variable <> "missing" ->
  exists s,
    missingHeatMap ax data variable title st = (s, Ok ax) /\
    axes s =
      <[ax := {| artists :=
                   (artists a0 ++
                    [HeatMap (group_keys hours) (pct_missing hours v)
                             (of_int 0) (of_int 1)])%list;
                 ax_title :=
                   title_or title
                     ("Distribution of " +:+ variable +:+ " around its median");
                 ax_xlabel := ""; ax_ylabel := "";
                 ylim := ylim a0;
                 labelbottom := labelbottom a0 |}]> (axes st) /\
    figures s = figures st.
Proof.
  intros Ed Ea Eh Ev N1 N2.
  pose proof (eqb_false _ _ N1) as B1.
  assert (B2 : String.eqb "missing" variable = false)
    by (rewrite String.eqb_sym; apply eqb_false; exact N2).
  set (sel := {| index := index d;
                 columns := [("Hour", IntCol hours); (variable, FloatCol v)] |}).
unfold missingHeatMap, sns_set.
  unfold bind at 1. cbn [modify].
  set (s0 := set_sns_style (Some "whitegrid") st).
  assert (Ed0 : frames s0 !! data = Some d) by exact Ed.
  assert (Sel : select d ["Hour"; variable] = Ok (columns sel))
    by (unfold select; rewrite Eh, Ev; reflexivity).
  rewrite (bind_ok _ _ _ _ _ (getitem_list_ok data _ s0 d _ Ed0 Sel)).
  cbv beta.
  set (s1 := set_frames _ s0).
  assert (F1 : frames s1 !! length (frames s0) = Some sel)
    by apply lookup_new.
  rewrite (bind_ok _ _ _ _ _ (copy_deep_ok _ s1 sel F1)). cbv beta.
  set (df := length (frames s1)).
  set (s2 := set_frames _ s1).
  assert (F2 : frames s2 !! df = Some sel) by apply lookup_new.
  assert (Gv : get_column sel variable = Ok (FloatCol v))
    by (unfold get_column; cbn -[String.eqb]; rewrite B1, String.eqb_refl;
        reflexivity).
  (* df['missing'] *)
  rewrite (bind_ok _ _ _ _ _ (getitem_ok df variable s2 sel _ F2 Gv)).
  cbv beta. cbn [isna_int]. fold (missing_flags v).
  rewrite (bind_ok _ _ _ _ _ (setitem_ok df "missing" _ s2 sel F2)).
  cbv beta.
  set (s3 := set_frames _ s2).
  set (d3 := {| index := index d;
                columns := [("Hour", IntCol hours); (variable, FloatCol v);
                            ("missing", IntCol (missing_flags v))] |}).
  assert (F3 : frames s3 !! df = Some d3).
  { unfold s3. cbn [frames set_frames].
    rewrite (lookup_updated _ _ _ _ F2). unfold d3, sel.
    cbn -[String.eqb]. rewrite B2. reflexivity. }
  assert (Gh3 : get_column d3 "Hour" = Ok (IntCol hours)) by reflexivity.
  assert (Gm3 : get_column d3 "missing" = Ok (IntCol (missing_flags v)))
    by (unfold get_column; cbn -[String.eqb]; rewrite B2; reflexivity).
  (* grouped *)
  rewrite (bind_ok _ _ _ _ _
             (groupby_agg_sum_count_ok df _ _ s3 d3 _ _ F3 Gh3 Gm3)).
  cbv beta. fold (missing_sum hours v). fold (missing_count hours v).
  set (g := length (frames s3)).
  set (s4 := set_frames _ s3).
  set (d4 := ({| index := group_keys hours;
                 columns := [("sum", IntCol (missing_sum hours v));
                             ("count", IntCol (missing_count hours v))] |}
              : DataFrame F)).
  assert (F4 : frames s4 !! g = Some d4) by apply lookup_new.
  rewrite (bind_ok _ _ _ _ _ (getitem_ok g "sum" s4 d4 _ F4 eq_refl)).
  cbv beta.
  rewrite (bind_ok _ _ _ _ _ (getitem_ok g "count" s4 d4 _ F4 eq_refl)).
  cbv beta. cbn [as_float]. fold (pct_missing hours v).
  rewrite (bind_ok _ _ _ _ _ (setitem_ok g "pct_missing" _ s4 d4 F4)).
  cbv beta.
  set (s5 := set_frames _ s4).
  set (d5 := {| index := group_keys hours;
                columns := [("sum", IntCol (missing_sum hours v));
                            ("count", IntCol (missing_count hours v));
                            ("pct_missing", FloatCol (pct_missing hours v))] |}).
  assert (F5 : frames s5 !! g = Some d5)
    by (unfold s5; cbn [frames set_frames];
        rewrite (lookup_updated _ _ _ _ F4); reflexivity).
  (* heatmap_data and the plot *)
  rewrite (bind_ok _ _ _ _ _
             (pivot_table_ok g "pct_missing" s5 d5 _ F5 eq_refl)).
  cbv beta. cbn [fst snd index as_float d5].
  unfold sns_heatmap.
  assert (A5 : axes s5 !! ax = Some a0) by exact Ea.
  unfold bind at 1.
  rewrite (bind_ok _ _ _ _ _ (update_axes_ok ax _ s5 a0 A5)). cbn [ret].
  set (s6 := set_axes _ s5).
  set (a6 := draw (HeatMap (group_keys hours) (pct_missing hours v)
                     (of_int 0) (of_int 1)) a0).
  assert (A6 : axes s6 !! ax = Some a6)
    by (apply (lookup_updated _ _ _ _ A5)).
  unfold set_title, set_xlabel, set_ylabel.
  rewrite (bind_ok _ _ _ _ _ (update_axes_ok ax _ s6 a6 A6)). cbv beta.
  set (s7 := set_axes _ s6).
  assert (A7 : axes s7 !! ax = Some _)
    by (apply (lookup_updated _ _ _ _ A6)).
  rewrite (bind_ok _ _ _ _ _ (update_axes_ok ax _ s7 _ A7)). cbv beta.
  set (s8 := set_axes _ s7).
  assert (A8 : axes s8 !! ax = Some _)
    by (apply (lookup_updated _ _ _ _ A7)).
  rewrite (bind_ok _ _ _ _ _ (update_axes_ok ax _ s8 _ A8)). cbv beta.
  eexists. split; [reflexivity|].
  unfold s8, s7, s6, s5, s4, s3, s2, s1, s0, a6.
  cbn [axes figures set_axes set_frames set_sns_style draw
       artists ax_title ax_xlabel ax_ylabel ylim labelbottom].
  rewrite !list_insert_insert_eq. split; reflexivity.
Qed.

End Effects.

(** ** The stacked entry points on two or more variables *)

Section StackedRuns.

Context {F : Type} `{Float64 F}.

Local Open Scope string_scope.

Lemma plt_subplots_many (zero_rows : option exn) (n : nat) (size : Z * Z)
    (st : State F) :
  2 <= n ->
  plt_subplots zero_rows n size st =
  (set_figures (figures st ++
     [{| figsize := size; fig_axes := seq (length (axes st)) n;
         fig_suptitle := None; adjust := None |}])%list
     (set_axes (axes st ++ repeat new_axes n)%list st),
   Ok (length (figures st), AxesArray (seq (length (axes st)) n))).
Proof.
  intros L. destruct n as [|[|n]]; [lia | lia | reflexivity].
Qed.

Lemma tick_params_ok (ax : nat) (b : bool) (st : State F) (a : Axes F) :
  axes st !! ax = Some a ->
  tick_params ax b st =
  (set_axes
     (<[ax := {| artists := artists a; ax_title := ax_title a;
                 ax_xlabel := ax_xlabel a; ax_ylabel := ax_ylabel a;
                 ylim := ylim a; labelbottom := b |}]> (axes st)) st,
   Ok tt).
Proof. intros A. exact (update_axes_ok ax _ st a A). Qed.

Lemma insert_next_panel (base done : list (Axes F)) (k : nat) (a : Axes F) :
  <[length base + length done := a]>
    (base ++ done ++ repeat new_axes (S k))%list =
  (base ++ (done ++ [a]) ++ repeat new_axes k)%list.
Proof.
  rewrite insert_app_r_alt by lia.
  replace (length base + length done - length base) with (length done) by lia.
  rewrite insert_app_r_alt by lia. rewrite Nat.sub_diag. cbn.
  rewrite <- !app_assoc. reflexivity.
Qed.

Lemma lookup_next_panel (base done : list (Axes F)) (k : nat) :
  (base ++ done ++ repeat new_axes (S k))%list
    !! (length base + length done) = Some new_axes.
Proof.
  rewrite lookup_app_r by lia.
  replace (length base + length done - length base) with (length done) by lia.
  rewrite lookup_app_r by lia. rewrite Nat.sub_diag. reflexivity.
Qed.

(** The loop of a stacked entry point: [render] works on the Axes of each
    variable in turn and leaves [panel variable] there once the tick
    labels are switched off.  [done] are the variables already drawn, [now]
    the ones the loop draws, [later] the ones whose Axes stay empty. *)
Lemma stacked_loop (render : nat -> nat -> string -> option string -> Py F nat)
    (data : nat) (d : DataFrame F) (good : string -> Prop)
    (panel : string -> Axes F) (base : list (Axes F)) (n : nat)
    (later : list string) :
  (forall s ax variable,
     frames s !! data = Some d -> axes s !! ax = Some new_axes ->
     good variable ->
     exists s' a,
       render ax data variable (Some variable) s = (s', Ok ax) /\
       axes s' = <[ax := a]> (axes s) /\
       panel variable =
         {| artists := artists a; ax_title := ax_title a;
            ax_xlabel := ax_xlabel a; ax_ylabel := ax_ylabel a;
            ylim := ylim a; labelbottom := false |} /\
       figures s' = figures s /\ frames s `prefix_of` frames s') ->
  forall (now done : list string) (s : State F),
    length done + length now + length later = n ->
    Forall good now ->
    frames s !! data = Some d ->
    axes s = (base ++ map panel done ++
              repeat new_axes (length now + length later))%list ->
    exists s',
      for_enumerate (length done) now
        (fun i variable =>
           let* ax := subscript (AxesArray (seq (length base) n)) i in
           let* plot := render ax data variable (Some variable) in
           let* ax := subscript (AxesArray (seq (length base) n)) i in
           tick_params ax false) s = (s', Ok tt) /\
      axes s' = (base ++ map panel (done ++ now) ++
                 repeat new_axes (length later))%list /\
      figures s' = figures s /\ frames s `prefix_of` frames s'.
Proof.
  intros R. induction now as [|x now IH]; intros done s L G D A.
  - exists s. cbn [for_enumerate ret]. rewrite app_nil_r.
    cbn in A. auto.
  - apply Forall_cons in G as [Gx Gnow]. cbn [length] in L, A.
    set (ax := length base + length done).
    assert (Sb : forall st0 : State F,
              subscript (AxesArray (seq (length base) n))
                (length done) st0 = (st0, Ok ax)).
    { intros st0. unfold subscript.
      rewrite (lookup_seq_lt _ _ _) by lia. reflexivity. }
    assert (Ax : axes s !! ax = Some new_axes).
    { rewrite A. unfold ax. rewrite <- (length_map panel done).
      apply lookup_next_panel. }
    destruct (R s ax x D Ax Gx) as (s1 & a & R1 & A1 & P1 & F1 & Fr1).
    assert (Ax1 : axes s1 !! ax = Some a).
    { rewrite A1. apply (lookup_updated _ _ _ _ Ax). }
    pose proof (tick_params_ok ax false s1 a Ax1) as T.
    rewrite <- P1 in T.
    set (s2 := set_axes (<[ax := panel x]> (axes s1)) s1) in T.
    destruct (IH (done ++ [x])%list s2) as (s' & L' & A' & F' & Fr').
    { rewrite length_app. cbn. lia. }
    { exact Gnow. }
    { eapply prefix_lookup_Some; [exact D | exact Fr1]. }
    { unfold s2. cbn [axes set_axes]. rewrite A1, list_insert_insert_eq, A.
      unfold ax. rewrite <- (length_map panel done).
      cbn [Nat.add]. rewrite insert_next_panel.
      rewrite map_app. reflexivity. }
    exists s'. split; [|split; [|split]].
    + cbn [for_enumerate].
      erewrite bind_ok; cycle 1.
      { erewrite bind_ok; [|apply Sb].
        erewrite bind_ok; [|exact R1].
        erewrite bind_ok; [|apply Sb]. exact T. }
      rewrite length_app, Nat.add_1_r in L'. exact L'.
    + rewrite A', <- app_assoc. reflexivity.
    + rewrite F'. unfold s2. cbn [figures set_axes]. exact F1.
    + etransitivity; [exact Fr1|]. exact Fr'.
Qed.

Lemma for_enumerate_app {A} (l1 l2 : list A) (body : nat -> A -> Py F unit) :
  forall (start : nat) (s s' : State F),
    for_enumerate start l1 body s = (s', Ok tt) ->
    for_enumerate start (l1 ++ l2) body s =
    for_enumerate (start + length l1) l2 body s'.
Proof.
  induction l1 as [|x l1 IH]; intros start s s' E.
  - cbn in E. injection E as <-. rewrite Nat.add_0_r. reflexivity.
  - cbn [for_enumerate app length] in *. unfold bind in *.
    destruct (body start x s) as [s1 [[]|e]]; [|discriminate].
    rewrite (IH _ _ _ E), Nat.add_succ_r. reflexivity.
Qed.

End StackedRuns.

Section StackedFigures.

Context {F : Type} `{Float64 F}.

Local Open Scope string_scope.

Lemma stacked_finish (g n : nat) (t : string) (figs : list (Figure F))
    (size : Z * Z) (axs : list nat) (s : State F) :
  1 <= n -> length figs = g ->
  figures s = (figs ++ [{| figsize := size; fig_axes := axs;
                           fig_suptitle := None; adjust := None |}])%list ->
  (fig_set_suptitle g t ;;;
   let* q := int_truediv 1 (Z.of_nat n) in
   subplots_adjust g (lit 2 10) (fsub (of_int 1) q)) s =
  (set_figures
     (figs ++ [{| figsize := size; fig_axes := axs; fig_suptitle := Some t;
                  adjust := Some (lit 2 10,
                    fsub (of_int 1)
                         (fdiv (of_int 1) (of_int (Z.of_nat n)))) |}])%list s,
   Ok tt).
Proof.
  intros N G E.
  unfold fig_set_suptitle, subplots_adjust, update_figure, int_truediv, bind.
  subst g. rewrite E, list_lookup_middle by reflexivity.
  destruct (Z.eqb_spec (Z.of_nat n) 0) as [Z0|_]; [lia|].
  cbn [ret figures set_figures].
  rewrite insert_app_r_alt, Nat.sub_diag by lia. cbn [insert list_insert].
  rewrite list_lookup_middle by reflexivity.
  cbn [figsize fig_axes fig_suptitle adjust set_figures figures].
  rewrite insert_app_r_alt, Nat.sub_diag by lia. cbn [insert list_insert].
  destruct s; reflexivity.
Qed.

(** Both stacked entry points have one shape: a column of Axes, the
    renderer and [tick_params] on each, the figure title and the spacing. *)
Lemma stacked_shape
    (render : nat -> nat -> string -> option string -> Py F nat)
    (data : nat) (d : DataFrame F) (good : string -> Prop)
    (panel : string -> Axes F) (zero_rows : option exn) (height : Z)
    (suptitle : string) (variables : list string) (st : State F) :
  (forall s ax variable,
     frames s !! data = Some d -> axes s !! ax = Some new_axes ->
     good variable ->
     exists s' a,
       render ax data variable (Some variable) s = (s', Ok ax) /\
       axes s' = <[ax := a]> (axes s) /\
       panel variable =
         {| artists := artists a; ax_title := ax_title a;
            ax_xlabel := ax_xlabel a; ax_ylabel := ax_ylabel a;
            ylim := ylim a; labelbottom := false |} /\
       figures s' = figures s /\ frames s `prefix_of` frames s') ->
  frames st !! data = Some d ->
  Forall good variables ->
  2 <= length variables ->
  exists s',
    (let n := length variables in
     let* (fig, axes) :=
       plt_subplots zero_rows n (12, height * Z.of_nat n)%Z in
     for_enumerate 0 variables (fun i variable =>
       let* ax := subscript axes i in
       let* plot := render ax data variable (Some variable) in
       let* ax := subscript axes i in
       tick_params ax false) ;;;
     fig_set_suptitle fig suptitle ;;;
     let* q := int_truediv 1 (Z.of_nat n) in
     subplots_adjust fig (lit 2 10) (fsub (of_int 1) q)) st = (s', Ok tt) /\
    axes s' = (axes st ++ map panel variables)%list /\
    figures s' =
      (figures st ++
       [stacked_figure height (length (axes st)) (length variables)
          suptitle])%list /\
    frames st `prefix_of` frames s'.
Proof.
  intros R D G N. cbv zeta.
  set (n := length variables) in *.
  pose proof (plt_subplots_many zero_rows n (12, height * Z.of_nat n)%Z st N)
    as P.
  set (s0 := set_figures _ _) in P.
  destruct (stacked_loop render data d good panel (axes st) n [] R
              variables [] s0) as (s1 & L1 & A1 & F1 & Fr1).
  { cbn. lia. }
  { exact G. }
  { exact D. }
  { cbn. rewrite Nat.add_0_r. reflexivity. }
  cbn [length repeat app] in A1. rewrite app_nil_r in A1.
  pose proof (stacked_finish (length (figures st)) n suptitle (figures st)
                (12, height * Z.of_nat n)%Z (seq (length (axes st)) n) s1
                ltac:(lia) eq_refl F1) as Fin.
  set (s2 := set_figures _ s1) in Fin.
  exists s2. split; [|split; [|split]].
  - erewrite bind_ok; [|exact P]. cbv beta iota.
    erewrite bind_ok; [|exact L1]. exact Fin.
  - exact A1.
  - reflexivity.
  - exact Fr1.
Qed.

Lemma missingHeatMapMultiple_state
    (zero_rows : option exn) (st : State F) (data : nat) (d : DataFrame F)
    (hours : list Z) (col : string -> Series) (variables : list string)
    (title : option string) :
  frames st !! data = Some d ->
  get_column d "Hour" = Ok (IntCol hours) ->
  Forall (fun variable =>
            get_column d variable = Ok (FloatCol (col variable)) /\
            variable <> "Hour" /\ variable <> "missing") variables ->
  2 <= length variables ->
  let run := missingHeatMapMultiple zero_rows data variables title st in
  snd run = Ok tt /\
  axes (fst run) =
    (axes st ++
     map (fun variable => heat_panel hours (col variable) variable)
         variables)%list /\
  figures (fst run) =
    (figures st ++
     [stacked_figure 2 (length (axes st)) (length variables)
        (title_or title
           "Heatmaps of Missingness of Time Series Variables")])%list /\
  frames st `prefix_of` frames (fst run).
Proof.
  intros D Hh G N run.
  refine (let S := stacked_shape missingHeatMap data d _
              (fun variable => heat_panel hours (col variable) variable)
              zero_rows 2
              (title_or title
                 "Heatmaps of Missingness of Time Series Variables")
              variables st _ D G N in _).
  - destruct S as (s' & E & A & Fg & Fr).
    unfold run.
    rewrite (E : missingHeatMapMultiple zero_rows data variables title st
                 = (s', Ok tt)).
    auto.
    Unshelve.
    intros s ax variable Ds As (Gc & N1 & N2).
    destruct (missingHeatMap_state s ax data variable (Some variable) d
                new_axes hours (col variable) Ds As Hh Gc N1 N2)
      as (s1 & E1 & A1 & F1).
    exists s1. eexists. split; [exact E1|]. split; [exact A1|].
    split; [reflexivity|]. split; [exact F1|].
    pose proof (keeps_missingHeatMap (frames s) ax data variable
                  (Some variable) s (reflexivity _)) as [K _].
    rewrite E1 in K. exact K.
Qed.

Lemma boxPlotTimeSeriesMultiple_state
    (zero_rows : option exn) (st : State F) (data : nat) (d : DataFrame F)
    (hours : list Z) (col : string -> Series) (variables : list string)
    (title : option string) :
  frames st !! data = Some d ->
  get_column d "Hour" = Ok (IntCol hours) ->
  Forall (fun variable =>
            get_column d variable = Ok (FloatCol (col variable)) /\
            variable <> "Hour" /\ variable <> "quantile_low" /\
            variable <> "quantile_high" /\
            finite_bound hours (col variable) = true) variables ->
  2 <= length variables ->
  let run := boxPlotTimeSeriesMultiple zero_rows data variables title st in
  snd run = Ok tt /\
  axes (fst run) =
    (axes st ++
     map (fun variable => box_panel hours (col variable) variable)
         variables)%list /\
  figures (fst run) =
    (figures st ++
     [stacked_figure 3 (length (axes st)) (length variables)
        (title_or title
           "Boxplots of Time Series Variablesaround the hourly median")])%list /\
  frames st `prefix_of` frames (fst run).
Proof.
  intros D Hh G N run.
  refine (let S := stacked_shape boxplotTimeSeries data d _
              (fun variable => box_panel hours (col variable) variable)
              zero_rows 3
              (title_or title
                 "Boxplots of Time Series Variablesaround the hourly median")
              variables st _ D G N in _).
  - destruct S as (s' & E & A & Fg & Fr).
    unfold run.
    rewrite (E : boxPlotTimeSeriesMultiple zero_rows data variables title st
                 = (s', Ok tt)).
    auto.
    Unshelve.
    intros s ax variable Ds As (Gc & N1 & N2 & N3 & Fin).
    destruct (boxplotTimeSeries_state s ax data variable (Some variable) d
                new_axes hours (col variable) Ds As Hh Gc N1 N2 N3)
      as (s1 & E1 & A1 & F1).
    unfold finite_bound in Fin. rewrite Fin in E1, A1.
    exists s1. eexists. split; [exact E1|]. split; [exact A1|].
    split; [reflexivity|]. split; [exact F1|].
    pose proof (keeps_boxplotTimeSeries (frames s) ax data variable
                  (Some variable) s (reflexivity _)) as [K _].
    rewrite E1 in K. exact K.
Qed.

Lemma lookup_panel {A} (base : list (Axes F)) (panel : A -> Axes F)
    (l : list A) (i : nat) (x : A) :
  l !! i = Some x ->
  (base ++ map panel l)%list !! (length base + i) = Some (panel x).
Proof.
  intros L. rewrite lookup_app_r by lia.
  replace (length base + i - length base) with i by lia.
  rewrite list_lookup_fmap, L. reflexivity.
Qed.


(** X5.  Given two or more variables that are float columns of a table with
    an integral Hour column, each with a finite bound, the stacked box
    plots return normally: the i-th Axes of a new figure of size 12 by 3n
    holds the box plot of the i-th variable between minus and plus its
    bound, titled with the variable's name and with its tick labels
    switched off; the Axes that existed keep what they held; the default
    figure title lacks the blank between its two halves. *)
Theorem boxPlotTimeSeriesMultiple_draws_every_variable
    (zero_rows : option exn) (st : State F) (data : nat) (d : DataFrame F)
    (hours : list Z) (col : string -> Series) (variables : list string)
    (title : option string) :
  frames st !! data = Some d ->
  get_column d "Hour" = Ok (IntCol hours) ->
  Forall (fun variable =>
            get_column d variable = Ok (FloatCol (col variable)) /\
            variable <> "Hour" /\ variable <> "quantile_low" /\
            variable <> "quantile_high" /\
            finite_bound hours (col variable) = true) variables ->
  2 <= length variables ->
  let run := boxPlotTimeSeriesMultiple zero_rows data variables title st in
  snd run = Ok tt /\
  (forall i variable,
     variables !! i = Some variable ->
     axes (fst run) !! (length (axes st) + i) =
       Some (box_panel hours (col variable) variable)) /\
  (forall a x, axes st !! a = Some x -> axes (fst run) !! a = Some x) /\
  figures (fst run) !! length (figures st) =
    Some (stacked_figure 3 (length (axes st)) (length variables)
            (title_or title
               "Boxplots of Time Series Variablesaround the hourly median")) /\
  frames st `prefix_of` frames (fst run).
Proof.
  intros D Hh G N run.
  destruct (boxPlotTimeSeriesMultiple_state zero_rows st data d hours col
              variables title D Hh G N) as (R & A & Fg & Fr).
  fold run in R, A, Fg, Fr.
  split; [exact R|]. split; [|split; [|split]].
  - intros i variable L. rewrite A.
    exact (lookup_panel (axes st) _ variables i variable L).
  - intros a x L. rewrite A. apply lookup_app_l_Some. exact L.
  - rewrite Fg. apply list_lookup_middle. reflexivity.
  - exact Fr.
Qed.

Lemma lookup_behind {A} (base l : list A) (i : nat) :
  (base ++ l)%list !! (length base + i) = l !! i.
Proof.
  rewrite lookup_app_r by lia. f_equal. lia.
Qed.

Lemma lookup_repeat {A} (x : A) (n i : nat) :
  i < n -> repeat x n !! i = Some x.
Proof.
  revert i; induction n as [|n IH]; intros [|i] L; cbn; try lia;
    [reflexivity | apply IH; lia].
Qed.

Lemma bind_raise {A B} (c : Py F A) (k : A -> Py F B) (st st' : State F)
    (e : exn) :
  c st = (st', Raise e) -> bind c k st = (st', Raise e).
Proof. intros E. unfold bind. rewrite E. reflexivity. Qed.

(** X18.  When the variables before it are drawn and a variable's bound is
    not finite, the stacked box plots raise ValueError in the middle of
    the figure: the panels before it are complete, its own Axes holds the
    box plot and the title but no limits and still has its tick labels,
    the Axes after it are empty, and the figure has neither title nor
    spacing. *)
Theorem boxPlotTimeSeriesMultiple_aborts_at_unbounded_variable
    (zero_rows : option exn) (st : State F) (data : nat) (d : DataFrame F)
    (hours : list Z) (col : string -> Series) (before after : list string)
    (variable : string) (title : option string) :
  frames st !! data = Some d ->
  get_column d "Hour" = Ok (IntCol hours) ->
  Forall (fun variable =>
            get_column d variable = Ok (FloatCol (col variable)) /\
            variable <> "Hour" /\ variable <> "quantile_low" /\
            variable <> "quantile_high" /\
            finite_bound hours (col variable) = true) before ->
  get_column d variable = Ok (FloatCol (col variable)) ->
  variable <> "Hour" -> variable <> "quantile_low" ->
  variable <> "quantile_high" ->
  finite_bound hours (col variable) = false ->
  2 <= length (before ++ variable :: after) ->
  let variables := (before ++ variable :: after)%list in
  let run := boxPlotTimeSeriesMultiple zero_rows data variables title st in
  let first := length (axes st) in
  snd run = Raise ValueError /\
  (forall i x,
     before !! i = Some x ->
     axes (fst run) !! (first + i) = Some (box_panel hours (col x) x)) /\
  axes (fst run) !! (first + length before) =
    Some {| artists :=
              [BoxPlot (mask_select (trim_mask hours (col variable)) hours)
                       (trimmed hours (col variable))];
            ax_title :=
              title_or (Some variable)
                ("Distribution of " +:+ variable +:+ " around its median");
            ax_xlabel := ""; ax_ylabel := "";
            ylim := None; labelbottom := true |} /\
  (forall i, i < length after ->
     axes (fst run) !! (first + length before + 1 + i) = Some new_axes) /\
  figures (fst run) !! length (figures st) =
    Some {| figsize := (12, 3 * Z.of_nat (length variables))%Z;
            fig_axes := seq first (length variables);
            fig_suptitle := None; adjust := None |}.
Proof.
  intros D Hh G Gv N1 N2 N3 Inf N variables run first.
  set (n := length variables) in *.
  assert (Ln : length before + 0 + length (variable :: after) = n).
  { unfold n, variables. rewrite length_app. lia. }
  pose proof (plt_subplots_many zero_rows n (12, 3 * Z.of_nat n)%Z st N)
    as P.
  set (s0 := set_figures _ _) in P.
  set (panel := fun x => box_panel hours (col x) x).
  set (good := fun x : string =>
         get_column d x = Ok (FloatCol (col x)) /\
         x <> "Hour" /\ x <> "quantile_low" /\ x <> "quantile_high" /\
         finite_bound hours (col x) = true) in G.
  assert (Rn : forall s ax x,
     frames s !! data = Some d -> axes s !! ax = Some new_axes ->
     good x ->
     exists s' a,
       boxplotTimeSeries ax data x (Some x) s = (s', Ok ax) /\
       axes s' = <[ax := a]> (axes s) /\
       panel x =
         {| artists := artists a; ax_title := ax_title a;
            ax_xlabel := ax_xlabel a; ax_ylabel := ax_ylabel a;
            ylim := ylim a; labelbottom := false |} /\
       figures s' = figures s /\ frames s `prefix_of` frames s').
  { intros s ax x Ds As (Gc & M1 & M2 & M3 & Fin).
    destruct (boxplotTimeSeries_state s ax data x (Some x) d
                new_axes hours (col x) Ds As Hh Gc M1 M2 M3)
      as (s1 & E1 & A1 & F1).
    unfold finite_bound in Fin. rewrite Fin in E1, A1.
    exists s1. eexists. split; [exact E1|]. split; [exact A1|].
    split; [reflexivity|]. split; [exact F1|].
    pose proof (keeps_boxplotTimeSeries (frames s) ax data x
                  (Some x) s (reflexivity _)) as [K _].
    rewrite E1 in K. exact K. }
  destruct (stacked_loop boxplotTimeSeries data d good panel (axes st) n
              (variable :: after) Rn before [] s0)
    as (s1 & L1 & A1 & F1 & Fr1).
  { cbn [length]. cbn [length] in Ln. lia. }
  { exact G. }
  { exact D. }
  { cbn [length map app]. unfold s0. cbn [axes set_figures set_axes].
    f_equal. f_equal. cbn [length] in Ln. lia. }
  cbn [app length] in A1, L1.
  set (ax := first + length before).
  assert (Ax : axes s1 !! ax = Some new_axes).
  { rewrite A1. unfold ax, first.
    rewrite <- (length_map panel before). apply lookup_next_panel. }
  assert (D1 : frames s1 !! data = Some d).
  { eapply prefix_lookup_Some; [exact D | exact Fr1]. }
  destruct (boxplotTimeSeries_state s1 ax data variable (Some variable) d
              new_axes hours (col variable) D1 Ax Hh Gv N1 N2 N3)
    as (s2 & E2 & A2 & F2).
  unfold finite_bound in Inf. rewrite Inf in E2, A2.
  assert (R : boxPlotTimeSeriesMultiple zero_rows data variables title st
              = (s2, Raise ValueError)).
  { unfold boxPlotTimeSeriesMultiple. cbv zeta. fold n.
    erewrite bind_ok; [|exact P]. cbv beta iota.
    apply bind_raise. unfold variables.
    rewrite (for_enumerate_app before (variable :: after) _ 0 s0 s1 L1).
    cbn [for_enumerate Nat.add]. apply bind_raise.
    erewrite bind_ok; cycle 1.
    { unfold subscript. fold first.
      rewrite (lookup_seq_lt _ _ _) by (cbn [length] in Ln; lia).
      reflexivity. }
    apply bind_raise. exact E2. }
  assert (A : axes s2 =
    (axes st ++ (map panel before ++
       [{| artists :=
             [BoxPlot (mask_select (trim_mask hours (col variable)) hours)
                      (trimmed hours (col variable))];
           ax_title :=
             title_or (Some variable)
               ("Distribution of " +:+ variable +:+ " around its median");
           ax_xlabel := ""; ax_ylabel := "";
           ylim := None; labelbottom := true |}]) ++
     repeat new_axes (length after))%list).
  { rewrite A2, A1. unfold ax, first.
    rewrite <- (length_map panel before).
    apply insert_next_panel. }
  unfold run. rewrite R. cbn [fst snd].
  split; [reflexivity|]. split; [|split; [|split]].
  - intros i x L. rewrite A. unfold first. rewrite lookup_behind.
    apply lookup_app_l_Some, lookup_app_l_Some.
    rewrite list_lookup_fmap, L. reflexivity.
  - rewrite A. unfold ax, first. rewrite lookup_behind.
    apply lookup_app_l_Some.
    rewrite <- (length_map panel before). apply list_lookup_middle.
    reflexivity.
  - intros i L. rewrite A. unfold ax, first.
    rewrite <- !Nat.add_assoc, lookup_behind.
    rewrite lookup_app_r by (rewrite length_app, length_map; cbn; lia).
    rewrite length_app, length_map. cbn [length].
    replace (length before + (1 + i) - (length before + 1)) with i by lia.
    apply lookup_repeat. exact L.
  - rewrite F2, F1. unfold s0. cbn [figures set_figures set_axes].
    apply list_lookup_middle. reflexivity.
Qed.

End StackedFigures.

(** ** The renderers on one Axes *)

Section Renderers.

Context {F : Type} `{Float64 F}.

Local Open Scope string_scope.

(** X1.  On a table with an integral Hour column and a float column of the
    variable, the boxplot renderer draws one box plot of the trimmed centred
    values against the hours of the retained rows on the Axes it is given,
    titles it with the title passed (the default text when none or an empty
    one is passed), clears both axis labels and leaves the figures alone.
    When the bound is finite, it sets the limits to minus and plus the bound
    and returns the Axes; otherwise it raises ValueError with the plot
    already drawn and titled and the limits as they were. *)
Theorem boxplotTimeSeries_draws_trimmed_values (st : State F) (ax data : nat)
    (variable : string) (title : option string) (d : DataFrame F)
    (a0 : Axes F) (hours : list Z) (v : Series) :
  frames st !! data = Some d -> axes st !! ax = Some a0 ->
  get_column d "Hour" = Ok (IntCol hours) ->
  get_column d variable = Ok (FloatCol v) ->
  variable <> "Hour" -> variable <> "quantile_low" ->
  variable <> "quantile_high" ->
  let run := boxplotTimeSeries ax data variable title st in
  let y := y_abs_max (trimmed hours v) in
  snd run = (if finite_bound hours v then Ok ax else Raise ValueError) /\
  axes (fst run) =
    <[ax := {| artists :=
                 (artists a0 ++
                  [BoxPlot (mask_select (trim_mask hours v) hours)
                           (trimmed hours v)])%list;
               ax_title :=
                 title_or title
                   ("Distribution of " +:+ variable +:+ " around its median");
               ax_xlabel := ""; ax_ylabel := "";
               ylim := if finite_bound hours v then Some (fneg y, y)
                       else ylim a0;
               labelbottom := labelbottom a0 |}]> (axes st) /\
  figures (fst run) = figures st.
Proof.
  intros D A Hh Hv N1 N2 N3 run y.
  destruct (boxplotTimeSeries_state st ax data variable title d a0 hours v
              D A Hh Hv N1 N2 N3) as (s & E & Ax & Fg).
  unfold run. rewrite E. cbn [fst snd]. auto.
Qed.


Lemma select_absent (d : DataFrame F) (variable : string) :
  assoc "Hour" (columns d) = None \/ assoc variable (columns d) = None ->
  exists c, select d ["Hour"; variable] = Raise (KeyError c) /\
            (c = "Hour" \/ c = variable) /\ assoc c (columns d) = None.
Proof.
  intros M. cbn [select]. unfold get_column.
  destruct (assoc "Hour" (columns d)) as [vh|] eqn:Eh.
  - destruct M as [M|M]; [discriminate|]. rewrite M.
    exists variable. auto.
  - exists "Hour". auto.
Qed.

(** X3.  When the table has no Hour column or no column of the variable,
    both renderers raise KeyError for an absent column before anything is
    drawn or copied: the Axes, the figures and the tables are as before. *)
Theorem renderers_raise_KeyError_on_absent_column (st : State F)
    (ax data : nat) (variable : string) (title : option string)
    (d : DataFrame F) :
  frames st !! data = Some d ->
  assoc "Hour" (columns d) = None \/ assoc variable (columns d) = None ->
  exists c,
    (c = "Hour" \/ c = variable) /\ assoc c (columns d) = None /\
    let box := boxplotTimeSeries ax data variable title st in
    let heat := missingHeatMap ax data variable title st in
    snd box = Raise (KeyError c) /\ snd heat = Raise (KeyError c) /\
    axes (fst box) = axes st /\ axes (fst heat) = axes st /\
    figures (fst box) = figures st /\ figures (fst heat) = figures st /\
    frames (fst box) = frames st /\ frames (fst heat) = frames st.
Proof.
  intros D M. destruct (select_absent d variable M) as (c & S & Cc & Ac).
  exists c. split; [exact Cc|]. split; [exact Ac|].
  assert (G : forall k : nat -> Py F nat,
            bind (getitem_list data ["Hour"; variable]) k
              (set_sns_style (Some "whitegrid") st) =
            (set_sns_style (Some "whitegrid") st, Raise (KeyError c))).
  { intros k. unfold getitem_list, bind, read_frame, lift.
    cbn [frames set_sns_style]. rewrite D, S. reflexivity. }
  cbv zeta.
  unfold boxplotTimeSeries, missingHeatMap, sns_set.
  rewrite !(bind_ok _ _ st (set_sns_style (Some "whitegrid") st) tt eq_refl).
  rewrite !G. cbn. repeat split.
Qed.

End Renderers.

(** ** What the stacked entry points leave alone *)

Section StackedFrame.

Context {F : Type} `{Float64 F}.

Implicit Types old : list (DataFrame F).

Local Open Scope string_scope.

Lemma keeps_plt_subplots old (zero_rows : option exn) (n : nat)
    (size : Z * Z) :
  keeps old (plt_subplots zero_rows n size) (fun _ => True).
Proof.
  intros st Pre. unfold plt_subplots.
  destruct n as [|n], zero_rows as [e|]; cbn; auto.
Qed.

Lemma keeps_subscript old (a : AxesResult) (i : nat) :
  keeps old (subscript a i) (fun _ => True).
Proof.
  intros st Pre. unfold subscript.
  destruct a as [ax|axs]; [cbn; auto|].
  destruct (axs !! i); cbn; auto.
Qed.

Lemma keeps_update_figure old (g : nat) (f : Figure F -> Figure F) :
  keeps old (update_figure g f) (fun _ => True).
Proof.
  intros st Pre. unfold update_figure.
  destruct (figures st !! g); cbn; auto.
Qed.

Lemma keeps_int_truediv old (a b : Z) :
  keeps old (int_truediv a b) (fun _ => True).
Proof.
  intros st Pre. unfold int_truediv.
  destruct (Z.eqb b 0); cbn; auto.
Qed.

Lemma keeps_for_enumerate {A} old (l : list A)
    (body : nat -> A -> Py F unit) :
  (forall i x, keeps old (body i x) (fun _ => True)) ->
  forall start, keeps old (for_enumerate start l body) (fun _ => True).
Proof.
  intros B. induction l as [|x l IH]; intros start; cbn [for_enumerate].
  - apply keeps_ret. exact I.
  - eapply keeps_bind; [apply B|]. intros _ _. apply IH.
Qed.

Lemma keeps_stacked old
    (render : nat -> nat -> string -> option string -> Py F nat)
    (zero_rows : option exn) (height : Z) (suptitle : string)
    (data : nat) (variables : list string) :
  (forall ax variable,
     keeps old (render ax data variable (Some variable)) (fun _ => True)) ->
  keeps old
    (let n := length variables in
     let* (fig, axes) :=
       plt_subplots zero_rows n (12, height * Z.of_nat n)%Z in
     for_enumerate 0 variables (fun i variable =>
       let* ax := subscript axes i in
       let* plot := render ax data variable (Some variable) in
       let* ax := subscript axes i in
       tick_params ax false) ;;;
     fig_set_suptitle fig suptitle ;;;
     let* q := int_truediv 1 (Z.of_nat n) in
     subplots_adjust fig (lit 2 10) (fsub (of_int 1) q))
    (fun _ => True).
Proof.
  intros R. cbv zeta.
  eapply keeps_bind; [apply keeps_plt_subplots|]. intros [fig axs] _.
  eapply keeps_bind.
  { apply keeps_for_enumerate. intros i variable.
    eapply keeps_bind; [apply keeps_subscript|]. intros ax _.
    eapply keeps_bind; [apply R|]. intros plot _.
    eapply keeps_bind; [apply keeps_subscript|]. intros ax' _.
    apply keeps_update_axes. }
  intros _ _.
  eapply keeps_bind; [apply keeps_update_figure|]. intros _ _.
  eapply keeps_bind; [apply keeps_int_truediv|]. intros q _.
  apply keeps_update_figure.
Qed.

(** X6.  A call of a stacked entry point, whether it returns or raises and
    whatever the list of variables, leaves every table that existed before
    the call unchanged, the table it is given among them. *)
Theorem stacked_entry_points_leave_tables_unchanged
    (zero_rows : option exn) (st : State F) (data : nat)
    (variables : list string) (title : option string) (r : nat)
    (d : DataFrame F) :
  frames st !! r = Some d ->
  frames (fst (boxPlotTimeSeriesMultiple zero_rows data variables title st))
    !! r = Some d /\
  frames (fst (missingHeatMapMultiple zero_rows data variables title st))
    !! r = Some d.
Proof.
  intros L. split.
  - destruct (keeps_stacked (frames st) boxplotTimeSeries zero_rows 3
                (title_or title
                   ("Boxplots of Time Series Variables" +:+
                    "around the hourly median"))
                data variables
                (fun ax variable =>
                   keeps_boxplotTimeSeries (frames st) ax data variable
                     (Some variable))
                st (reflexivity _)) as [P _].
    eapply prefix_lookup_Some; [exact L | exact P].
  - destruct (keeps_stacked (frames st) missingHeatMap zero_rows 2
                (title_or title
                   "Heatmaps of Missingness of Time Series Variables")
                data variables
                (fun ax variable =>
                   keeps_missingHeatMap (frames st) ax data variable
                     (Some variable))
                st (reflexivity _)) as [P _].
    eapply prefix_lookup_Some; [exact L | exact P].
Qed.

End StackedFrame.

(** ** The renderers stay inside the interpreter *)

Section Quiet.

Context {F : Type} `{Float64 F}.

Local Open Scope string_scope.

Lemma quiet_ret {A} (a : A) : quiet (ret (F := F) a).
Proof. intros st. reflexivity. Qed.

Lemma quiet_raise {A} (e : exn) : quiet (raise (F := F) (A := A) e).
Proof. intros st. reflexivity. Qed.

Lemma quiet_lift {A} (r : result A) : quiet (lift (F := F) r).
Proof. intros st. reflexivity. Qed.

Lemma quiet_gets {A} (f : State F -> A) : quiet (gets f).
Proof. intros st. reflexivity. Qed.

Lemma quiet_modify (f : State F -> State F) :
  (forall st, outside (f st) = outside st) -> quiet (modify f).
Proof. intros E st. apply E. Qed.

Lemma quiet_bind {A B} (c : Py F A) (k : A -> Py F B) :
  quiet c -> (forall a, quiet (k a)) -> quiet (bind c k).
Proof.
  intros C K st. unfold bind. specialize (C st).
  destruct (c st) as [st' [a|e]]; cbn in *; [|exact C].
  rewrite (K a st'). exact C.
Qed.

Lemma quiet_alloc_frame (d : DataFrame F) : quiet (alloc_frame d).
Proof. intros st. reflexivity. Qed.

Lemma quiet_read_frame (r : nat) : quiet (read_frame (F := F) r).
Proof. intros st. unfold read_frame. destruct (frames st !! r); reflexivity. Qed.

Lemma quiet_read_axes (a : nat) : quiet (read_axes (F := F) a).
Proof. intros st. unfold read_axes. destruct (axes st !! a); reflexivity. Qed.

Lemma quiet_update_axes (a : nat) (f : Axes F -> Axes F) :
  quiet (update_axes a f).
Proof.
  apply quiet_bind; [apply quiet_read_axes|]. intros x.
  apply quiet_modify. reflexivity.
Qed.

Lemma quiet_update_figure (g : nat) (f : Figure F -> Figure F) :
  quiet (update_figure g f).
Proof.
  intros st. unfold update_figure. destruct (figures st !! g); reflexivity.
Qed.

Lemma quiet_getitem (r : nat) (c : string) : quiet (getitem (F := F) r c).
Proof.
  apply quiet_bind; [apply quiet_read_frame|]. intros d. apply quiet_lift.
Qed.

Lemma quiet_setitem (r : nat) (c : string) (v : column F) :
  quiet (setitem r c v).
Proof.
  apply quiet_bind; [apply quiet_read_frame|]. intros d.
  apply quiet_modify. reflexivity.
Qed.

Lemma quiet_groupby_transform_of (r : nat) (key c : string)
    (agg : Series -> F) :
  quiet (groupby_transform_of r key c agg).
Proof.
  apply quiet_bind; [apply quiet_getitem|]. intros k.
  apply quiet_bind; [apply quiet_lift|]. intros keys.
  apply quiet_bind; [apply quiet_getitem|]. intros v.
  apply quiet_ret.
Qed.

Lemma quiet_for_enumerate {A} (l : list A) (body : nat -> A -> Py F unit) :
  (forall i x, quiet (body i x)) ->
  forall start, quiet (for_enumerate start l body).
Proof.
  intros B. induction l as [|x l IH]; intros start; cbn [for_enumerate].
  - apply quiet_ret.
  - apply quiet_bind; [apply B|]. intros _. apply IH.
Qed.

Lemma quiet_plt_subplots (zero_rows : option exn) (n : nat) (size : Z * Z) :
  quiet (plt_subplots (F := F) zero_rows n size).
Proof.
  intros st. unfold plt_subplots.
  destruct n as [|n], zero_rows as [e|]; reflexivity.
Qed.

Lemma quiet_subscript (a : AxesResult) (i : nat) :
  quiet (subscript (F := F) a i).
Proof.
  intros st. unfold subscript.
  destruct a as [ax|axs]; [reflexivity|].
  destruct (axs !! i); reflexivity.
Qed.

Lemma quiet_int_truediv (a b : Z) : quiet (int_truediv (F := F) a b).
Proof. intros st. unfold int_truediv. destruct (Z.eqb b 0); reflexivity. Qed.

Ltac quiet_step :=
  first
    [ apply quiet_ret | apply quiet_raise | apply quiet_lift
    | apply quiet_gets | apply quiet_alloc_frame | apply quiet_read_frame
    | apply quiet_update_axes | apply quiet_update_figure
    | apply quiet_getitem | apply quiet_setitem
    | apply quiet_groupby_transform_of | apply quiet_plt_subplots
    | apply quiet_subscript | apply quiet_int_truediv
    | apply quiet_modify; reflexivity
    | apply quiet_bind; [|intros ?] ].

Lemma quiet_boxplotTimeSeries (ax data : nat) (variable : string)
    (title : option string) :
  quiet (boxplotTimeSeries ax data variable title).
Proof.
  unfold boxplotTimeSeries, sns_set, getitem_list, copy_deep, getitem_mask,
    sns_boxplot, set_title, set_xlabel, set_ylabel, set_ylim.
  repeat quiet_step.
  destruct (isfinite _ && isfinite _); quiet_step.
Qed.

Lemma quiet_missingHeatMap (ax data : nat) (variable : string)
    (title : option string) :
  quiet (missingHeatMap ax data variable title).
Proof.
  unfold missingHeatMap, sns_set, getitem_list, copy_deep,
    groupby_agg_sum_count, pivot_table, sns_heatmap, set_title, set_xlabel,
    set_ylabel.
  repeat quiet_step.
Qed.

Lemma quiet_stacked
    (render : nat -> nat -> string -> option string -> Py F nat)
    (zero_rows : option exn) (height : Z) (suptitle : string)
    (data : nat) (variables : list string) :
  (forall ax variable, quiet (render ax data variable (Some variable))) ->
  quiet
    (let n := length variables in
     let* (fig, axes) :=
       plt_subplots zero_rows n (12, height * Z.of_nat n)%Z in
     for_enumerate 0 variables (fun i variable =>
       let* ax := subscript axes i in
       let* plot := render ax data variable (Some variable) in
       let* ax := subscript axes i in
       tick_params ax false) ;;;
     fig_set_suptitle fig suptitle ;;;
     let* q := int_truediv 1 (Z.of_nat n) in
     subplots_adjust fig (lit 2 10) (fsub (of_int 1) q)).
Proof.
  intros R. cbv zeta.
  apply quiet_bind; [apply quiet_plt_subplots|]. intros [fig axs].
  apply quiet_bind.
  { apply quiet_for_enumerate. intros i variable.
    apply quiet_bind; [apply quiet_subscript|]. intros ax.
    apply quiet_bind; [apply R|]. intros plot.
    apply quiet_bind; [apply quiet_subscript|]. intros ax'.
    apply quiet_update_axes. }
  intros _.
  apply quiet_bind; [apply quiet_update_figure|]. intros _.
  apply quiet_bind; [apply quiet_int_truediv|]. intros q.
  apply quiet_update_figure.
Qed.

(** X7.  None of the four plotting functions touches the file system or
    the logger: whether a call returns or raises, the files (the log file
    among them), the directories, the logger's level and the handlers are
    what they were before the call. *)
Theorem plotting_writes_no_file_and_no_log_record (zero_rows : option exn)
    (ax data : nat) (variable : string) (variables : list string)
    (title : option string) :
  quiet (F := F) (boxplotTimeSeries ax data variable title) /\
  quiet (F := F) (missingHeatMap ax data variable title) /\
  quiet (F := F) (boxPlotTimeSeriesMultiple zero_rows data variables title) /\
  quiet (F := F) (missingHeatMapMultiple zero_rows data variables title).
Proof.
  split; [apply quiet_boxplotTimeSeries|].
  split; [apply quiet_missingHeatMap|].
  split.
  - apply (quiet_stacked boxplotTimeSeries zero_rows 3). intros ax' v'.
    apply quiet_boxplotTimeSeries.
  - apply (quiet_stacked missingHeatMap zero_rows 2). intros ax' v'.
    apply quiet_missingHeatMap.
Qed.

End Quiet.

(** ** The logging set-up in a configured process, and run twice *)

Section LoggingMore.

Context {F : Type} `{Float64 F}.

Local Open Scope string_scope.

(** X8.  When the root logger has a handler, as in a process that has
    configured logging, [hasHandlers] is true whatever the logger holds:
    the set-up removes the logger's own handlers and installs none, and
    neither creates the log directory nor opens the log file. *)
Theorem setup_logging_under_configured_root (cwd : string) (st : State F) :
  root_handlers st <> [] ->
  let st1 := fst (setup_logging cwd st) in
  snd (setup_logging cwd st) = Ok tt /\
  handlers st1 = [] /\ files st1 = files st /\ dirs st1 = dirs st /\
  logger_level st1 = Some DEBUG /\ root_handlers st1 = root_handlers st /\
  frames st1 = frames st.
Proof.
  intros R.
  unfold setup_logging, hasHandlers, bind, gets, modify, ret.
  cbn [handlers root_handlers set_logger_level set_handlers].
  destruct (root_handlers st) as [|r0 rs] eqn:Er; [congruence|].
  destruct (handlers st) as [|h0 hs] eqn:Eh; cbn; rewrite ?Er, ?Eh; cbn;
    rewrite ?Er; auto 10.
Qed.

Lemma setup_logging_fields (cwd : string) (st : State F) :
  let st1 := fst (setup_logging cwd st) in
  let fresh := match root_handlers st with [] => true | _ => false end in
  snd (setup_logging cwd st) = Ok tt /\
  frames st1 = frames st /\ axes st1 = axes st /\
  figures st1 = figures st /\ sns_style st1 = sns_style st /\
  root_handlers st1 = root_handlers st /\
  logger_level st1 = Some DEBUG /\
  handlers st1 =
    (if fresh then
       [ {| kind := FileHandler (log_file cwd); hlevel := DEBUG;
            formatter := Some log_format |};
         {| kind := StreamHandler; hlevel := CRITICAL;
            formatter := Some log_format |} ]
     else []) /\
  files st1 =
    (if fresh then <[log_file cwd := LogFile []]> (files st)
     else files st) /\
  dirs st1 =
    (if fresh then
       if decide (LOG_DIR cwd ∈ dirs st) then dirs st
       else {[LOG_DIR cwd]} ∪ dirs st
     else dirs st).
Proof.
  cbv zeta.
  unfold setup_logging, hasHandlers, bind, gets, modify, try_except,
    os_mkdir, new_FileHandler_w, addHandler, ret.
  cbn [handlers root_handlers set_logger_level set_handlers].
  destruct (root_handlers st) as [|r0 rs] eqn:Er;
    destruct (handlers st) as [|h0 hs] eqn:Eh; cbn; rewrite ?Er, ?Eh; cbn;
    rewrite ?Er; cbn;
    try (destruct (decide (LOG_DIR cwd ∈ dirs st)); cbn; rewrite ?Eh; cbn);
    repeat split; first [reflexivity | assumption | symmetry; assumption].
Qed.

Lemma state_eq (s t : State F) :
  frames s = frames t -> axes s = axes t -> figures s = figures t ->
  files s = files t -> dirs s = dirs t -> logger_level s = logger_level t ->
  handlers s = handlers t -> root_handlers s = root_handlers t ->
  sns_style s = sns_style t -> s = t.
Proof. destruct s, t; cbn; intros; subst; reflexivity. Qed.

(** X9.  Running the set-up a second time right after the first changes
    nothing: the logger holds the same handlers as after the first run, at
    most two, instead of collecting two more per run, and the second run
    returns normally although the log directory exists by then. *)
Theorem setup_logging_twice (cwd : string) (st : State F) :
  let st1 := fst (setup_logging cwd st) in
  fst (setup_logging cwd st1) = st1 /\
  snd (setup_logging cwd st1) = Ok tt /\
  length (handlers st1) <= 2.
Proof.
  intros st1.
  destruct (setup_logging_fields cwd st)
    as (_ & E1 & E2 & E3 & E4 & E5 & E6 & E7 & E8 & E9).
  destruct (setup_logging_fields cwd st1)
    as (R & G1 & G2 & G3 & G4 & G5 & G6 & G7 & G8 & G9).
  fold st1 in E1, E2, E3, E4, E5, E6, E7, E8, E9.
  cbv zeta in *.
  split; [|split; [exact R|]].
  - apply state_eq; try assumption.
    + rewrite G8, E5, E8.
      destruct (root_handlers st); [|reflexivity].
      apply insert_insert_eq.
    + rewrite G9, E5, E9.
      destruct (root_handlers st); [|reflexivity].
      destruct (decide (LOG_DIR cwd ∈ dirs st)) as [I|I].
      * destruct (decide (LOG_DIR cwd ∈ dirs st)); [reflexivity|contradiction].
      * destruct (decide (LOG_DIR cwd ∈ {[LOG_DIR cwd]} ∪ dirs st)) as [I'|I'];
          [reflexivity|].
        exfalso. apply I'. apply elem_of_union. left.
        apply elem_of_singleton. reflexivity.
    + congruence.
    + rewrite G7, E5, E7. reflexivity.
  - rewrite E7. destruct (root_handlers st); cbn; lia.
Qed.

End LoggingMore.

(** ** Which files the loader needs, and which one it reports *)

Section LoaderMore.

Context {F : Type} `{Float64 F}.

Local Open Scope string_scope.

Lemma load_loop_returns_iff (cwd : string) (todo : list string) :
  forall (acc : list (nat * nat)) (st : State F),
    (exists l, snd (load_loop cwd todo acc st) = Ok l) <->
    Forall (is_table (files st)) (paths_of cwd todo).
Proof.
  induction todo as [|s rest IH]; intros acc st.
  - cbn. split; [constructor | eauto].
  - cbn [load_loop paths_of flat_map app]. fold (paths_of cwd rest).
    unfold bind at 1. rewrite read_parquet_run.
    rewrite !Forall_cons. unfold is_table at 1 2.
    destruct (files st !! featuresPath cwd s) as [[f|recs]|] eqn:Ef;
      cbn [snd].
    + unfold bind at 1. rewrite read_parquet_run. cbn [files set_frames].
      destruct (files st !! labelsPath cwd s) as [[l|recs]|] eqn:El;
        cbn [snd].
      * rewrite IH. cbn [files set_frames]. split.
        -- intros Fa. split; [eauto|]. split; [eauto|]. exact Fa.
        -- intros (_ & _ & Fa). exact Fa.
      * split; [intros [l [=]] | intros (_ & [t [=]] & _)].
      * split; [intros [l [=]] | intros (_ & [t [=]] & _)].
    + split; [intros [l [=]] | intros ([t [=]] & _)].
    + split; [intros [l [=]] | intros ([t [=]] & _)].
Qed.

(** X10.  The loader returns a list exactly when each of the six files it
    reads is a table; in every other case it raises. *)
Theorem loadData_returns_iff_six_tables (cwd : string) (st : State F) :
  (exists l, snd (loadData cwd st) = Ok l) <->
  Forall (is_table (files st)) (read_order cwd).
Proof. apply load_loop_returns_iff. Qed.

Lemma tables_at_app (fs : gmap string (File F)) (ps qs : list string) :
  tables_at fs (ps ++ qs) = (tables_at fs ps ++ tables_at fs qs)%list.
Proof. unfold tables_at. apply flat_map_app. Qed.

Lemma load_loop_first_absent (cwd : string) (todo : list string) :
  forall (acc : list (nat * nat)) (st : State F)
         (done rest : list string) (p : string),
    paths_of cwd todo = (done ++ p :: rest)%list ->
    Forall (is_table (files st)) done ->
    files st !! p = None ->
    snd (load_loop cwd todo acc st) = Raise (FileNotFoundError p) /\
    frames (fst (load_loop cwd todo acc st)) =
      (frames st ++ tables_at (files st) done)%list.
Proof.
  induction todo as [|s todo IH]; intros acc st done rest p E D M.
  - destruct done; discriminate.
  - cbn [paths_of flat_map app] in E. fold (paths_of cwd todo) in E.
    cbn [load_loop]. unfold bind at 1 3. rewrite read_parquet_run.
    destruct done as [|d1 done].
    { injection E as <- _. rewrite M. cbn. rewrite app_nil_r. auto. }
    injection E as <- E. apply Forall_cons in D as [[f Ef] D].
    rewrite Ef. unfold bind at 1 2. rewrite read_parquet_run.
    cbn [files set_frames].
    destruct done as [|d2 done].
    { injection E as <- _. rewrite M. cbn [fst snd frames set_frames].
      cbn [tables_at flat_map]. rewrite Ef. auto. }
    injection E as <- E. apply Forall_cons in D as [[l El] D].
    rewrite El.
    destruct (IH (acc ++ [(length (frames st),
                           length (frames (set_frames
                             (frames st ++ [f])%list st)))])%list
                 (set_frames
                    (frames (set_frames (frames st ++ [f])%list st) ++ [l])%list
                    (set_frames (frames st ++ [f])%list st))
                 done rest p E D M) as [R Fr].
    split; [exact R|]. rewrite Fr. cbn [frames files set_frames].
    cbn [tables_at flat_map]. rewrite Ef, El.
    rewrite <- !app_assoc. reflexivity.
Qed.

(** X11.  When the files read before it are tables and the next file to be
    read is absent, the loader raises FileNotFoundError for that very
    path; the tables read until then stay in memory, and no list is
    returned. *)
Theorem loadData_reports_first_absent_file (cwd : string) (st : State F)
    (done rest : list string) (p : string) :
  read_order cwd = (done ++ p :: rest)%list ->
  Forall (is_table (files st)) done ->
  files st !! p = None ->
  snd (loadData cwd st) = Raise (FileNotFoundError p) /\
  frames (fst (loadData cwd st)) =
    (frames st ++ tables_at (files st) done)%list /\
  length (tables_at (files st) done) = length done.
Proof.
  intros E D M.
  destruct (load_loop_first_absent cwd names [] st done rest p E D M)
    as [R Fr].
  split; [exact R|]. split; [exact Fr|].
  clear E R Fr. induction D as [|q qs [t Et] D IH]; [reflexivity|].
  cbn [tables_at flat_map]. rewrite Et. cbn. fold (tables_at (files st) qs).
  rewrite IH. reflexivity.
Qed.

End LoaderMore.

(** ** Where the directories and the files lie *)

Section Paths.

Context {F : Type} `{Float64 F}.

Local Open Scope string_scope.

Lemma append_assoc_s (a b c : string) : (a +:+ b) +:+ c = a +:+ b +:+ c.
Proof.
  induction a as [|x a IH]; [reflexivity|].
  change (String x ((a +:+ b) +:+ c) = String x (a +:+ b +:+ c)).
  rewrite IH. reflexivity.
Qed.

Lemma append_cons (c : ascii) (a b : string) :
  String c a +:+ b = String c (a +:+ b).
Proof. reflexivity. Qed.

Lemma head_of_cons (c : ascii) (rest : string) :
  head_of (String c rest) =
  match head_of rest with
  | EmptyString => if Ascii.eqb c "/"%char then "/" else EmptyString
  | h => String c h
  end.
Proof. reflexivity. Qed.

Lemma head_of_slash_free (b : string) :
  slash_free b = true -> head_of b = "".
Proof.
  induction b as [|c b IH]; [reflexivity|].
  change (slash_free (String c b))
    with (negb (Ascii.eqb c "/"%char) && slash_free b).
  intros S. apply andb_true_iff in S as [C S].
  rewrite head_of_cons, (IH S).
  destruct (Ascii.eqb c "/"); [discriminate | reflexivity].
Qed.

Lemma head_of_app_slash (a b : string) :
  slash_free b = true -> head_of (a +:+ "/" +:+ b) = a +:+ "/".
Proof.
  intros S. induction a as [|c a IH].
  - change ("" +:+ "/" +:+ b) with (String "/"%char b).
    rewrite head_of_cons, (head_of_slash_free b S). reflexivity.
  - rewrite (append_cons c a), head_of_cons, IH. destruct a; reflexivity.
Qed.

Lemma ends_with_slash_cons (c c' : ascii) (a : string) :
  ends_with_slash (String c (String c' a)) = ends_with_slash (String c' a).
Proof. reflexivity. Qed.

Lemma ends_with_slash_snoc (a : string) :
  ends_with_slash a = true -> exists a', a = a' +:+ "/".
Proof.
  induction a as [|c a IH]; [discriminate|].
  destruct a as [|c' a].
  - intros E. change (Ascii.eqb c "/"%char = true) in E.
    apply Ascii.eqb_eq in E. subst c. exists "". reflexivity.
  - rewrite ends_with_slash_cons. intros E.
    destruct (IH E) as [a' Ea]. exists (String c a').
    rewrite append_cons, <- Ea. reflexivity.
Qed.

Lemma all_slashes_cons (c : ascii) (a : string) :
  all_slashes (String c a) = Ascii.eqb c "/"%char && all_slashes a.
Proof. reflexivity. Qed.

Lemma all_slashes_snoc (a : string) :
  all_slashes (a +:+ "/") = all_slashes a.
Proof.
  induction a as [|c a IH]; [reflexivity|].
  rewrite append_cons, !all_slashes_cons, IH. reflexivity.
Qed.

Lemma all_slashes_ends (a : string) :
  all_slashes a = true -> a <> "" -> ends_with_slash a = true.
Proof.
  induction a as [|c a IH]; [congruence|].
  rewrite all_slashes_cons. intros E _. apply andb_true_iff in E as [C A].
  destruct a as [|c' a]; [exact C|].
  rewrite ends_with_slash_cons. apply IH; [exact A|discriminate].
Qed.

Lemma rstrip_slashes_cons (c : ascii) (a : string) :
  rstrip_slashes (String c a) =
  if all_slashes (String c a) then "" else String c (rstrip_slashes a).
Proof. reflexivity. Qed.

Lemma rstrip_slashes_snoc (r : string) :
  ends_with_slash r = false -> r <> "" -> rstrip_slashes (r +:+ "/") = r.
Proof.
  induction r as [|c r IH]; [congruence|]. intros E _.
  rewrite append_cons, rstrip_slashes_cons, all_slashes_cons.
  destruct r as [|c' r].
  - change (Ascii.eqb c "/"%char = false) in E. rewrite E. reflexivity.
  - rewrite ends_with_slash_cons in E.
    assert (N : all_slashes (String c' r +:+ "/") = false).
    { rewrite all_slashes_snoc.
      destruct (all_slashes (String c' r)) eqn:A; [|reflexivity].
      rewrite (all_slashes_ends _ A) in E by discriminate. discriminate. }
    rewrite N, andb_false_r.
    f_equal. apply IH; [exact E | discriminate].
Qed.

Lemma path_join_nonempty (r b : string) :
  r <> "" ->
  path_join r b = if ends_with_slash r then r +:+ b else r +:+ "/" +:+ b.
Proof. destruct r; [congruence | reflexivity]. Qed.

(** The directory of a path joined from a tidy directory and one
    component is that directory. *)
Lemma dirname_path_join (r name : string) :
  tidy r = true -> slash_free name = true ->
  dirname (path_join r name) = r.
Proof.
  unfold tidy. intros T S.
  destruct (decide (r = "")) as [->|N].
  { change (path_join "" name) with name.
    unfold dirname. rewrite (head_of_slash_free name S). reflexivity. }
  rewrite (path_join_nonempty r name N).
  destruct (ends_with_slash r) eqn:E.
  - rewrite orb_false_r in T.
    destruct (ends_with_slash_snoc _ E) as [a ->].
    rewrite append_assoc_s. unfold dirname.
    rewrite (head_of_app_slash a name S), T. reflexivity.
  - unfold dirname. rewrite (head_of_app_slash r name S).
    rewrite all_slashes_snoc.
    destruct (all_slashes r) eqn:A.
    + rewrite (all_slashes_ends _ A N) in E. discriminate.
    + apply rstrip_slashes_snoc; [exact E | exact N].
Qed.

Lemma rstrip_slashes_tidy (p : string) :
  all_slashes p = false ->
  ends_with_slash (rstrip_slashes p) = false /\ rstrip_slashes p <> "".
Proof.
  induction p as [|c p IH]; [discriminate|]. intros A.
  rewrite rstrip_slashes_cons, A. split; [|discriminate].
  rewrite all_slashes_cons in A.
  destruct (all_slashes p) eqn:Ap.
  - assert (R : rstrip_slashes p = "").
    { destruct p as [|c' p]; [reflexivity|].
      rewrite rstrip_slashes_cons, Ap. reflexivity. }
    rewrite R. rewrite andb_true_r in A. exact A.
  - destruct (IH eq_refl) as [E N].
    destruct (rstrip_slashes p) as [|c' q]; [congruence|].
    rewrite ends_with_slash_cons. exact E.
Qed.

Lemma tidy_dirname (p : string) : tidy (dirname p) = true.
Proof.
  unfold tidy, dirname.
  destruct (all_slashes (head_of p)) eqn:A.
  - rewrite A. reflexivity.
  - destruct (rstrip_slashes_tidy _ A) as [E _]. rewrite E.
    apply orb_true_r.
Qed.

Lemma ends_with_slash_app (a b : string) :
  b <> "" -> ends_with_slash (a +:+ b) = ends_with_slash b.
Proof.
  intros N. induction a as [|c a IH]; [reflexivity|].
  rewrite append_cons. destruct (a +:+ b) as [|c' q] eqn:E.
  - destruct a; [change (b = EmptyString) in E; congruence | discriminate].
  - rewrite ends_with_slash_cons. exact IH.
Qed.

(** A path joined from any directory and a component that does not end in
    a slash is tidy, and is the component behind a prefix that depends on
    the directory only. *)
Lemma path_join_prefix (r : string) :
  exists pre, forall b, path_join r b = pre +:+ b.
Proof.
  destruct (decide (r = "")) as [->|N].
  - exists "". reflexivity.
  - destruct (ends_with_slash r) eqn:E.
    + exists r. intros b. rewrite (path_join_nonempty r b N), E. reflexivity.
    + exists (r +:+ "/"). intros b.
      rewrite (path_join_nonempty r b N), E, append_assoc_s. reflexivity.
Qed.

Lemma tidy_path_join (r b : string) :
  b <> "" -> ends_with_slash b = false -> tidy (path_join r b) = true.
Proof.
  intros N E. destruct (path_join_prefix r) as [pre P]. rewrite P.
  unfold tidy. rewrite (ends_with_slash_app pre b N), E. apply orb_true_r.
Qed.

(** X12.  Wherever the notebook runs, the data directory and the log
    directory lie directly in the parent of the working directory, the log
    file directly in the log directory, and each of the six dataset files
    directly in the data directory. *)
Theorem directories_nest (cwd : string) :
  dirname (DATA_DIR cwd) = ROOT_DIR cwd /\
  dirname (LOG_DIR cwd) = ROOT_DIR cwd /\
  dirname (log_file cwd) = LOG_DIR cwd /\
  Forall (fun p => dirname p = DATA_DIR cwd) (read_order cwd).
Proof.
  assert (T : tidy (ROOT_DIR cwd) = true) by apply tidy_dirname.
  assert (TD : tidy (DATA_DIR cwd) = true)
    by (apply tidy_path_join; [discriminate | reflexivity]).
  assert (TL : tidy (LOG_DIR cwd) = true)
    by (apply tidy_path_join; [discriminate | reflexivity]).
  split; [apply dirname_path_join; [exact T | reflexivity]|].
  split; [apply dirname_path_join; [exact T | reflexivity]|].
  split; [apply dirname_path_join; [exact TL | reflexivity]|].
  unfold read_order, paths_of, names. cbn [flat_map app].
  repeat constructor;
    apply dirname_path_join; first [exact TD | reflexivity].
Qed.

Lemma paths_behind_prefix (cwd : string) :
  exists pre,
    log_file cwd = pre +:+ "logs/data-exploration.log" /\
    forall s,
      featuresPath cwd s = pre +:+ "data/set-" +:+ s +:+ ".parquet.gzip" /\
      labelsPath cwd s =
        pre +:+ "data/set-" +:+ s +:+ "-outcomes.parquet.gzip".
Proof.
  destruct (path_join_prefix (ROOT_DIR cwd)) as [pre P]. exists pre.
  assert (K : forall dir b, dir <> "" -> ends_with_slash dir = false ->
            path_join (pre +:+ dir) b = pre +:+ dir +:+ "/" +:+ b).
  { intros dir b N E.
    assert (Ne : pre +:+ dir <> "").
    { destruct pre; [exact N | discriminate]. }
    rewrite (path_join_nonempty _ b Ne), (ends_with_slash_app pre dir N), E.
    rewrite append_assoc_s. reflexivity. }
  unfold log_file, featuresPath, labelsPath, LOG_DIR, DATA_DIR.
  rewrite !P. split.
  - rewrite K by (discriminate || reflexivity). reflexivity.
  - intros s. rewrite !K by (discriminate || reflexivity). split; reflexivity.
Qed.

(** X13.  The log file and the six dataset files are seven different
    paths, so the logging set-up, which truncates the log file, leaves
    every dataset file as it is; the loader returns a list after the
    set-up exactly when it would have returned one before. *)
Theorem setup_logging_keeps_dataset_files (cwd : string) (st : State F) :
  NoDup (log_file cwd :: read_order cwd) /\
  (forall p, In p (read_order cwd) ->
     files (fst (setup_logging cwd st)) !! p = files st !! p) /\
  ((exists l, snd (loadData cwd (fst (setup_logging cwd st))) = Ok l) <->
   (exists l, snd (loadData cwd st) = Ok l)).
Proof.
  destruct (paths_behind_prefix cwd) as (pre & L & P).
  assert (N : NoDup (log_file cwd :: read_order cwd)).
  { unfold read_order, paths_of, names. cbn [flat_map app].
    rewrite L. rewrite !(proj1 (P _)), !(proj2 (P _)).
    change (NoDup (String.append pre <$>
      [ "logs/data-exploration.log";
        "data/set-a.parquet.gzip"; "data/set-a-outcomes.parquet.gzip";
        "data/set-b.parquet.gzip"; "data/set-b-outcomes.parquet.gzip";
        "data/set-c.parquet.gzip"; "data/set-c-outcomes.parquet.gzip" ])).
    apply NoDup_fmap_2; [apply String.app_inj|].
    refine (@bool_decide_unpack _ (NoDup_dec _) _). vm_compute. exact I. }
  assert (K : forall p, In p (read_order cwd) ->
            files (fst (setup_logging cwd st)) !! p = files st !! p).
  { intros p Ip.
    destruct (setup_logging_fields cwd st)
      as (_ & _ & _ & _ & _ & _ & _ & _ & Fs & _).
    cbv zeta in Fs. rewrite Fs.
    destruct (root_handlers st); [|reflexivity].
    apply lookup_insert_ne. intros E. subst p.
    apply NoDup_cons in N as [N _]. apply N. apply list_elem_of_In. exact Ip. }
  split; [exact N|]. split; [exact K|].
  unfold loadData. rewrite !load_loop_returns_iff. fold (read_order cwd).
  rewrite !List.Forall_forall. unfold is_table.
  split; intros A p Ip; specialize (A p Ip).
  - rewrite (K p Ip) in A. exact A.
  - rewrite (K p Ip). exact A.
Qed.

End Paths.

(** ** The columns and the counts of the heat map *)

Section HeatMapCounts.

Context {F : Type} `{Float64 F}.

Lemma insert_key_bound (k b : Z) (l : list Z) :
  (b < k)%Z -> Forall (Z.lt b) l -> Forall (Z.lt b) (insert_key k l).
Proof.
  intros B. induction 1 as [|x l Bx Bl IH]; cbn.
  - repeat constructor. exact B.
  - destruct (Z.ltb_spec k x); [repeat constructor; assumption|].
    destruct (Z.eqb_spec k x); constructor; assumption.
Qed.

Lemma insert_key_sorted (k : Z) (l : list Z) :
  StronglySorted Z.lt l -> StronglySorted Z.lt (insert_key k l).
Proof.
  induction 1 as [|x l S IH B]; cbn.
  - repeat constructor.
  - destruct (Z.ltb_spec k x) as [L|L].
    + constructor; [constructor; assumption|].
      constructor; [exact L|].
      eapply List.Forall_impl; [|exact B]. intros y Y. cbn in Y. lia.
    + destruct (Z.eqb_spec k x) as [E|E]; [constructor; assumption|].
      constructor; [exact IH|].
      apply insert_key_bound; [lia | exact B].
Qed.

Lemma group_keys_sorted (keys : list Z) :
  StronglySorted Z.lt (group_keys keys).
Proof.
  unfold group_keys. induction keys as [|k keys IH]; cbn.
  - constructor.
  - apply insert_key_sorted. exact IH.
Qed.

Lemma sorted_lt_NoDup (l : list Z) : StronglySorted Z.lt l -> NoDup l.
Proof.
  induction 1 as [|x l S IH B]; constructor; [|exact IH].
  intros I. rewrite List.Forall_forall in B.
  apply list_elem_of_In in I. specialize (B x I). lia.
Qed.

Lemma length_series_truediv (a b : Series) :
  length a = length b -> length (series_truediv a b) = length a.
Proof.
  revert b; induction a as [|x a IH]; intros [|y b] E; cbn in *;
    try discriminate; [reflexivity|].
  rewrite IH by lia. reflexivity.
Qed.

(** X14.  The heat map has one cell per hour that occurs in the table: the
    hours appear once each and in ascending order, an hour without a row
    gets no cell, and there are as many fractions as hours. *)
Theorem heat_map_has_one_cell_per_hour (hours : list Z) (v : Series) :
  StronglySorted Z.lt (group_keys hours) /\
  NoDup (group_keys hours) /\
  (forall h, In h (group_keys hours) <-> In h hours) /\
  length (missing_sum hours v) = length (group_keys hours) /\
  length (missing_count hours v) = length (group_keys hours) /\
  length (pct_missing hours v) = length (group_keys hours).
Proof.
  split; [apply group_keys_sorted|].
  split; [apply sorted_lt_NoDup, group_keys_sorted|].
  split; [intros h; apply group_keys_In|].
  unfold pct_missing, missing_sum, missing_count.
  rewrite length_series_truediv; rewrite !length_map; auto.
Qed.

(** The sum of a weight over the values of a group. *)
Lemma group_values_cons {A} (k : Z) (keys : list Z) (x : A) (s : list A)
    (h : Z) :
  group_values (k :: keys) (x :: s) h =
  if Z.eqb k h then x :: group_values keys s h else group_values keys s h.
Proof. unfold group_values. cbn. destruct (Z.eqb k h); reflexivity. Qed.

Lemma sum_one_key (k x : Z) (ks : list Z) :
  NoDup ks -> In k ks ->
  sum_int (map (fun h => if Z.eqb k h then x else 0%Z) ks) = x.
Proof.
  induction 1 as [|h ks N D IH]; intros I; [destruct I|].
  cbn [map sum_int fold_right]. fold (sum_int (map (fun h => if Z.eqb k h then x else 0%Z) ks)).
  destruct (Z.eqb_spec k h) as [->|Ne].
  - assert (Z0 : sum_int (map (fun h' => if Z.eqb h h' then x else 0%Z) ks)
                 = 0%Z).
    { clear IH D I. induction ks as [|y ks IH]; [reflexivity|].
      cbn [map sum_int fold_right].
      fold (sum_int (map (fun h' => if Z.eqb h h' then x else 0%Z) ks)).
      rewrite IH by (intros I; apply N; right; exact I).
      destruct (Z.eqb_spec h y) as [->|_]; [|reflexivity].
      exfalso. apply N. left. }
    rewrite Z0. lia.
  - destruct I as [E|I]; [congruence|].
    rewrite IH by exact I. lia.
Qed.

Lemma sum_int_add (f g : Z -> Z) (ks : list Z) :
  sum_int (map (fun h => (f h + g h)%Z) ks) =
  (sum_int (map f ks) + sum_int (map g ks))%Z.
Proof.
  induction ks as [|k ks IH]; [reflexivity|].
  cbn [map sum_int fold_right].
  fold (sum_int (map (fun h => (f h + g h)%Z) ks)).
  fold (sum_int (map f ks)). fold (sum_int (map g ks)). lia.
Qed.

Lemma sum_int_ext (f g : Z -> Z) (ks : list Z) :
  (forall h, f h = g h) -> sum_int (map f ks) = sum_int (map g ks).
Proof.
  intros E. induction ks as [|k ks IH]; [reflexivity|].
  cbn [map sum_int fold_right].
  fold (sum_int (map f ks)). fold (sum_int (map g ks)).
  rewrite E, IH. reflexivity.
Qed.

(** Every row belongs to the group of exactly one key. *)
Lemma groups_partition {A} (w : A -> Z) (ks : list Z) :
  NoDup ks ->
  forall (keys : list Z) (s : list A),
    length keys = length s -> (forall k, In k keys -> In k ks) ->
    sum_int (map (fun h => sum_int (map w (group_values keys s h))) ks) =
    sum_int (map w s).
Proof.
  intros N. induction keys as [|k keys IH]; intros [|x s] E I;
    try discriminate.
  - clear. induction ks as [|h ks IH]; [reflexivity|].
    cbn [map sum_int fold_right] in *.
    fold (sum_int (map (fun h0 => sum_int (map w (group_values (A := A) [] [] h0))) ks)).
    rewrite IH. reflexivity.
  - rewrite (sum_int_ext _
      (fun h => ((if Z.eqb k h then w x else 0) +
                 sum_int (map w (group_values keys s h)))%Z)).
    2:{ intros h. rewrite group_values_cons.
        destruct (Z.eqb k h); cbn [map sum_int fold_right]; reflexivity. }
    rewrite sum_int_add, sum_one_key, IH.
    + reflexivity.
    + cbn in E. lia.
    + intros k' I'. apply I. right. exact I'.
    + exact N.
    + apply I. left. reflexivity.
Qed.

Lemma group_values_map {A B} (f : A -> B) (keys : list Z) (s : list A)
    (h : Z) :
  group_values keys (map f s) h = map f (group_values keys s h).
Proof.
  revert s; induction keys as [|k keys IH]; intros [|x s];
    try reflexivity.
  cbn [map]. rewrite !group_values_cons, IH.
  destruct (Z.eqb k h); reflexivity.
Qed.

(** X15.  Over the hours of the heat map the group sizes add up to the
    number of rows of the table, and the counts of missing observations to
    the number of missing observations of the variable: every row is
    counted in exactly one hour. *)
Theorem heat_map_counts_every_row_once (hours : list Z) (v : Series) :
  length hours = length v ->
  sum_int (missing_count hours v) = Z.of_nat (length v) /\
  sum_int (missing_sum hours v) = Z.of_nat (length (List.filter isna v)).
Proof.
  intros E.
  assert (N : NoDup (group_keys hours))
    by apply sorted_lt_NoDup, group_keys_sorted.
  assert (I : forall k, In k hours -> In k (group_keys hours))
    by (intros k; apply group_keys_In).
  split.
  - unfold missing_count, missing_flags.
    rewrite (sum_int_ext _
      (fun h => sum_int (map (fun _ => 1%Z) (group_values hours v h)))).
    2:{ intros h. rewrite group_values_map. unfold count_int.
        rewrite length_map.
        induction (group_values hours v h) as [|x l IH]; [reflexivity|].
        cbn [map sum_int fold_right length].
        fold (sum_int (map (fun _ : F => 1%Z) l)). rewrite <- IH. lia. }
    rewrite (groups_partition (fun _ => 1%Z) _ N hours v E I).
    clear. induction v as [|x v IH]; [reflexivity|].
    cbn [map sum_int fold_right length].
    fold (sum_int (map (fun _ : F => 1%Z) v)). rewrite IH. lia.
  - unfold missing_sum, missing_flags.
    rewrite (sum_int_ext _
      (fun h => sum_int (map (fun x => if isna x then 1%Z else 0%Z)
                             (group_values hours v h)))).
    2:{ intros h. rewrite group_values_map. reflexivity. }
    rewrite (groups_partition _ _ N hours v E I).
    clear. induction v as [|x v IH]; [reflexivity|].
    cbn [map sum_int fold_right List.filter].
    fold (sum_int (map (fun x : F => if isna x then 1%Z else 0%Z) v)).
    rewrite IH. destruct (isna x); cbn [length]; lia.
Qed.

End HeatMapCounts.

(** ** Hours without and hours with only missing observations *)

Section HourExtremes.

Context {F : Type} `{Float64 F}.

Lemma group_values_rows {A} (keys : list Z) (s : list A) (h : Z) (x : A) :
  In x (group_values keys s h) <->
  exists j, keys !! j = Some h /\ s !! j = Some x.
Proof.
  revert s; induction keys as [|k keys IH]; intros [|y s].
  1-3: split; [intros [] | intros (j & K & L); destruct j; discriminate].
  rewrite group_values_cons. split.
  - intros I.
    assert (C : (k = h /\ x = y) \/ In x (group_values keys s h)).
    { destruct (Z.eqb_spec k h) as [->|_]; [|auto].
      destruct I as [<-|I]; auto. }
    destruct C as [[-> ->]|I'].
    + exists 0. auto.
    + apply IH in I'. destruct I' as (j & K & L). exists (S j). auto.
  - intros ([|j] & K & L); cbn in K, L.
    + injection K as ->. injection L as ->.
      rewrite Z.eqb_refl. left. reflexivity.
    + assert (I : In x (group_values keys s h)) by (apply IH; eauto).
      destruct (Z.eqb k h); [right|]; exact I.
Qed.

Lemma flags_none (g : Series) :
  sum_int (map (fun x => if isna x then 1%Z else 0%Z) g) = 0%Z <->
  forall x, In x g -> isna x = false.
Proof.
  assert (P : forall l : Series,
            (0 <= sum_int (map (fun x => if isna x then 1%Z else 0%Z) l))%Z).
  { induction l as [|x l IH]; cbn [map sum_int fold_right]; [lia|].
    fold (sum_int (map (fun x : F => if isna x then 1%Z else 0%Z) l)).
    destruct (isna x); lia. }
  induction g as [|x g IH]; cbn [map sum_int fold_right].
  - split; [intros _ x [] | reflexivity].
  - fold (sum_int (map (fun x : F => if isna x then 1%Z else 0%Z) g)).
    pose proof (P g) as Pg. split.
    + intros E y [<-|I].
      * destruct (isna x); [lia | reflexivity].
      * apply IH; [|exact I]. destruct (isna x); lia.
    + intros A. rewrite (A x (or_introl eq_refl)).
      rewrite (proj2 IH); [reflexivity|].
      intros y I. apply A. right. exact I.
Qed.

Lemma flags_all (g : Series) :
  sum_int (map (fun x => if isna x then 1%Z else 0%Z) g) =
    Z.of_nat (length g) <->
  forall x, In x g -> isna x = true.
Proof.
  assert (P : forall l : Series,
            (sum_int (map (fun x => if isna x then 1%Z else 0%Z) l)
             <= Z.of_nat (length l))%Z).
  { induction l as [|x l IH]; cbn [map sum_int fold_right length]; [lia|].
    fold (sum_int (map (fun x : F => if isna x then 1%Z else 0%Z) l)).
    destruct (isna x); lia. }
  induction g as [|x g IH]; cbn [map sum_int fold_right length].
  - split; [intros _ x [] | reflexivity].
  - fold (sum_int (map (fun x : F => if isna x then 1%Z else 0%Z) g)).
    pose proof (P g) as Pg. split.
    + intros E y [<-|I].
      * destruct (isna x); [reflexivity | lia].
      * apply IH; [|exact I]. destruct (isna x); lia.
    + intros A. rewrite (A x (or_introl eq_refl)).
      rewrite (proj2 IH); [lia|].
      intros y I. apply A. right. exact I.
Qed.

(** The counts of one hour of the heat map, read off the rows. *)
Lemma missing_counts_of_hour (hours : list Z) (v : Series) (i : nat)
    (h : Z) :
  length hours = length v -> group_keys hours !! i = Some h ->
  exists s c,
    missing_sum hours v !! i = Some s /\
    missing_count hours v !! i = Some c /\
    (1 <= c)%Z /\ (0 <= s <= c)%Z /\
    pct_missing hours v !! i = Some (fdiv (of_int s) (of_int c)) /\
    (s = 0%Z <->
     forall j x, hours !! j = Some h -> v !! j = Some x -> isna x = false) /\
    (s = c <->
     forall j x, hours !! j = Some h -> v !! j = Some x -> isna x = true).
Proof.
  intros E K.
  destruct (missing_counts hours v i h E K)
    as (s & c & S & C & C1 & B & _ & P).
  exists s, c. repeat (split; [assumption|]).
  assert (Es : s = sum_int (map (fun x => if isna x then 1%Z else 0%Z)
                                (group_values hours v h))).
  { unfold missing_sum, missing_flags in S.
    rewrite list_lookup_fmap, K in S. cbn in S. injection S as <-.
    rewrite group_values_map. reflexivity. }
  assert (Ec : c = Z.of_nat (length (group_values hours v h))).
  { unfold missing_count, missing_flags in C.
    rewrite list_lookup_fmap, K in C. cbn in C. injection C as <-.
    rewrite group_values_map. unfold count_int. rewrite length_map.
    reflexivity. }
  split.
  - rewrite Es, flags_none. split.
    + intros A j x Kj Vj. apply A. apply group_values_rows. eauto.
    + intros A x I. apply group_values_rows in I as (j & Kj & Vj). eauto.
  - rewrite Es, Ec, flags_all. split.
    + intros A j x Kj Vj. apply A. apply group_values_rows. eauto.
    + intros A x I. apply group_values_rows in I as (j & Kj & Vj). eauto.
Qed.

End HourExtremes.

Section HourExtremesExact.

Import Exact.


End HourExtremesExact.

(** ** Exact arithmetic: the trim always removes a strict extreme *)

Section ExactExtremes.

Import Exact.

Local Notation notna := (fun y : cell => isna y = false).
Local Notation below := (fun x y : cell => fle x y = true).

(** The group of a row, split at the row. *)
Lemma group_values_split {A} (hours : list Z) (v : list A) (i : nat)
    (h : Z) (x : A) :
  hours !! i = Some h -> v !! i = Some x ->
  exists pre post,
    group_values hours v h = (pre ++ x :: post)%list /\
    forall y, In y (pre ++ post)%list <->
      exists j, j <> i /\ hours !! j = Some h /\ v !! j = Some y.
Proof.
  revert v i; induction hours as [|k hours IH]; intros [|z v] [|i] K V;
    try discriminate.
  - cbn in K, V. injection K as ->. injection V as ->.
    exists [], (group_values hours v h). split.
    + rewrite group_values_cons, Z.eqb_refl. reflexivity.
    + intros y. cbn [app]. rewrite group_values_rows. split.
      * intros (j & Kj & Vj). exists (S j). auto.
      * intros ([|j] & Nj & Kj & Vj); [congruence|]. exists j. auto.
  - cbn in K, V. destruct (IH v i K V) as (pre & post & G & M).
    rewrite group_values_cons, G.
    destruct (Z.eqb_spec k h) as [->|Ne].
    + exists (z :: pre), post. split; [reflexivity|].
      intros y. cbn [app In]. rewrite M. split.
      * intros [<-|(j & Nj & Kj & Vj)]; [exists 0; auto|].
        exists (S j). auto.
      * intros ([|j] & Nj & Kj & Vj); cbn in Kj, Vj.
        -- left. congruence.
        -- right. exists j. auto.
    + exists pre, post. split; [reflexivity|].
      intros y. rewrite M. split.
      * intros (j & Nj & Kj & Vj). exists (S j). auto.
      * intros ([|j] & Nj & Kj & Vj); cbn in Kj, Vj; [congruence|].
        exists j. auto.
Qed.

(** In a ranked list that holds [c] once, the other ranks hold the other
    values. *)
Lemma rank_of_unique (cs others : list cell) (c : cell) :
  Permutation cs (c :: others) ->
  exists p, p < length cs /\ nth p cs None = c /\
    (forall k, k < length cs -> k <> p -> In (nth k cs None) others) /\
    (forall y, In y others ->
       exists k, k < length cs /\ k <> p /\ nth k cs None = y).
Proof.
  intros P.
  assert (I : In c cs).
  { eapply Permutation_in; [symmetry; exact P | left; reflexivity]. }
  apply in_split in I as (l1 & l2 & ->).
  exists (length l1). split; [rewrite length_app; cbn; lia|].
  split; [rewrite app_nth2, Nat.sub_diag by lia; reflexivity|].
  assert (P' : Permutation others (l1 ++ l2)).
  { apply Permutation_cons_app_inv with (a := c). symmetry. exact P. }
  split.
  - intros k L N. eapply Permutation_in; [symmetry; exact P'|].
    rewrite length_app in L. cbn in L. apply in_or_app.
    destruct (Nat.lt_ge_cases k (length l1)) as [Lt|Ge].
    + left. rewrite app_nth1 by exact Lt. apply nth_In. exact Lt.
    + right. rewrite app_nth2 by exact Ge.
      destruct (k - length l1) as [|m] eqn:Ek; [lia|].
      cbn. apply nth_In. lia.
  - intros y I. apply (Permutation_in _ P') in I.
    rewrite length_app. cbn [length].
    apply in_app_or in I as [I|I];
      apply (In_nth _ _ None) in I as (k & Lk & Nk); unfold cell in *.
    + exists k. split; [lia|]. split; [lia|].
      rewrite app_nth1 by exact Lk. exact Nk.
    + exists (length l1 + S k). split; [lia|]. split; [lia|].
      rewrite app_nth2 by lia.
      replace (length l1 + S k - length l1) with (S k) by lia. exact Nk.
Qed.

(** The ranked centred values of the group of a row: the row's own centred
    value, once, and those of the other rows of the hour that are not
    missing. *)
Lemma centered_group_of_row (hours : list Z) (v : list cell) (i : nat)
    (h : Z) (a : Q) :
  length hours = length v ->
  hours !! i = Some h -> v !! i = Some (Some a) ->
  let g := group_values hours v h in
  let g' := group_values hours (centered hours v) h in
  exists mu others,
    median g = Some mu /\
    Permutation (sort_values (dropna g')) (Some (a - mu)%Q :: others) /\
    length (dropna g') = S (length others) /\
    Forall notna (sort_values (dropna g')) /\
    StronglySorted below (sort_values (dropna g')) /\
    (forall y, In y others ->
       exists j b, j <> i /\ hours !! j = Some h /\
                   v !! j = Some (Some b) /\ y = Some (b - mu)%Q) /\
    (forall j b, j <> i -> hours !! j = Some h -> v !! j = Some (Some b) ->
       In (Some (b - mu)%Q) others) /\
    length (dropna g) = length (dropna g').
Proof.
  intros E K V g g'.
  destruct (group_values_split hours v i h (Some a) K V)
    as (pre & post & G & M).
  fold g in G.
  assert (N1 : 1 <= length (dropna g)).
  { apply group_has_value. exists (Some a). split; [|reflexivity].
    rewrite G. apply in_or_app. right. left. reflexivity. }
  assert (Mu : exists mu, median g = Some mu).
  { destruct (median_exact_cases g N1)
      as [(_ & mu & Em & _)|(_ & p & q & _ & _ & Em)]; eauto. }
  destruct Mu as [mu Mu].
  set (f := fun x : cell => fsub x (Some mu)).
  assert (G' : g' = map f g).
  { unfold g'. rewrite group_values_centered by exact E. fold g.
    rewrite Mu. reflexivity. }
  assert (D : dropna g' =
              (map f (dropna pre) ++ Some (a - mu)%Q ::
               map f (dropna post))%list).
  { rewrite G', dropna_map by (intros x; apply exact_fsub_isna).
    rewrite G. unfold dropna. rewrite List.filter_app. cbn.
    rewrite map_app. reflexivity. }
  exists mu, (map f (dropna pre) ++ map f (dropna post))%list.
  assert (A : Forall notna (dropna g')).
  { unfold dropna. apply List.Forall_forall. intros y I.
    apply filter_In in I as [_ I]. destruct (isna y); [discriminate|reflexivity]. }
  split; [exact Mu|]. split.
  { rewrite sort_values_perm, D. symmetry. apply Permutation_middle. }
  split.
  { rewrite D, !length_app. cbn. lia. }
  split; [apply Forall_sort_values; exact A|].
  split; [apply sort_values_sorted; exact A|].
  assert (Mem : forall y, In y (dropna pre ++ dropna post)%list <->
            exists j b, j <> i /\ hours !! j = Some h /\
                        v !! j = Some (Some b) /\ y = Some b).
  { intros y.
    assert (I' : In y (dropna pre ++ dropna post)%list <->
                 In y (pre ++ post)%list /\ isna y = false).
    { unfold dropna. rewrite <- List.filter_app, filter_In.
      destruct (isna y); cbn; intuition congruence. }
    rewrite I', M. split.
    - intros ((j & Nj & Kj & Vj) & Ny).
      destruct y as [b|]; [|discriminate]. exists j, b. auto.
    - intros (j & b & Nj & Kj & Vj & ->). split; [eauto|reflexivity]. }
  split.
  - intros y I. rewrite <- map_app in I. apply in_map_iff in I as (z & <- & I).
    apply Mem in I. destruct I as (j & b & Nj & Kj & Vj & ->).
    exists j, b. auto.
  - split.
    + intros j b Nj Kj Vj.
      assert (I : In (Some b) (dropna pre ++ dropna post)%list).
      { apply Mem. exists j, b. auto. }
      rewrite <- map_app. apply (in_map f) in I. exact I.
    + rewrite D, G. unfold dropna. rewrite List.filter_app. cbn.
      rewrite !length_app. cbn. rewrite !length_map. reflexivity.
Qed.



End ExactExtremes.

(** ** The cell that draws the heat maps of the first partition *)

Section Cells.

Context {F : Type} `{Float64 F}.

Local Open Scope string_scope.

Lemma loadData_run (cwd : string) (st : State F)
    (fa la fb lb fc lc : DataFrame F) :
  files st !! featuresPath cwd "a" = Some (Parquet fa) ->
  files st !! labelsPath cwd "a" = Some (Parquet la) ->
  files st !! featuresPath cwd "b" = Some (Parquet fb) ->
  files st !! labelsPath cwd "b" = Some (Parquet lb) ->
  files st !! featuresPath cwd "c" = Some (Parquet fc) ->
  files st !! labelsPath cwd "c" = Some (Parquet lc) ->
  let n := length (frames st) in
  loadData cwd st =
  (set_frames (frames st ++ [fa; la; fb; lb; fc; lc])%list st,
   Ok [(n, n + 1); (n + 2, n + 3); (n + 4, n + 5)]).
Proof.
  intros Fa La Fb Lb Fc Lc n.
  unfold loadData, names.
  rewrite (load_loop_step cwd "a" _ _ st fa la Fa La).
  rewrite (load_loop_step cwd "b" _ _ (set_frames _ st) fb lb Fb Lb).
  rewrite (load_loop_step cwd "c" _ _ (set_frames _ (set_frames _ st))
             fc lc Fc Lc).
  cbn [load_loop ret frames set_frames app]. fold n.
  rewrite !length_app. cbn [length]. fold n.
  rewrite <- !app_assoc. cbn [app].
  unfold ret, set_frames. cbn.
  replace (n + 1) with (S n) by lia.
  replace (n + 3) with (S (n + 2)) by lia.
  replace (n + 5) with (S (n + 2 + 2)) by lia.
  replace (n + 4) with (n + 2 + 2) by lia.
  reflexivity.
Qed.


End Cells.

(** ** What the box plot is handed: rows of the table, hour with value *)

Section Pairs.

Context {F : Type} `{Float64 F}.

Lemma mask_select_length {A B} (m : list bool) (a : list A) (b : list B) :
  length a = length b ->
  length (mask_select m a) = length (mask_select m b).
Proof.
  revert a b; induction m as [|t m IH]; intros [|x a] [|y b] E; cbn in *;
    try discriminate; try reflexivity.
  injection E as E. destruct t; cbn; rewrite (IH a b E); reflexivity.
Qed.

Lemma mask_select_bound {A} (m : list bool) (a : list A) :
  length (mask_select m a) <= length a.
Proof.
  revert a; induction m as [|t m IH]; intros [|x a]; cbn; try lia.
  specialize (IH a). destruct t; cbn; lia.
Qed.

Lemma mask_select_from_row {A B} (m : list bool) (a : list A) (b : list B) :
  forall k x y,
    mask_select m a !! k = Some x -> mask_select m b !! k = Some y ->
    length a = length b ->
    exists i, m !! i = Some true /\ a !! i = Some x /\ b !! i = Some y.
Proof.
  revert a b; induction m as [|t m IH]; intros [|x0 a] [|y0 b] k x y Ka Kb E;
    cbn in *; try discriminate.
  injection E as E. destruct t.
  - destruct k as [|k]; cbn in Ka, Kb.
    + injection Ka as <-. injection Kb as <-. exists 0. auto.
    + destruct (IH a b k x y Ka Kb E) as (i & M & A1 & B1).
      exists (S i). auto.
  - destruct (IH a b k x y Ka Kb E) as (i & M & A1 & B1).
    exists (S i). auto.
Qed.

Lemma mask_select_of_row {A B} (m : list bool) (a : list A) (b : list B) :
  forall i x y,
    m !! i = Some true -> a !! i = Some x -> b !! i = Some y ->
    exists k, mask_select m a !! k = Some x /\ mask_select m b !! k = Some y.
Proof.
  revert a b; induction m as [|t m IH]; intros [|x0 a] [|y0 b] i x y M Ka Kb;
    try (destruct i; discriminate).
  destruct i as [|i]; cbn in M, Ka, Kb.
  - injection M as ->. injection Ka as <-. injection Kb as <-.
    exists 0. auto.
  - destruct (IH a b i x y M Ka Kb) as (k & A1 & B1).
    destruct t; [exists (S k) | exists k]; auto.
Qed.


End Pairs.

(** ** Instances of the further properties *)

Section MoreInstances.

Import Binary64 Exact Examples Cases.

Local Open Scope string_scope.

Lemma boxplotTimeSeries_draws_trimmed_values_witness :
  snd (boxplotTimeSeries 0 0 "X" None (state_with scenario_table)) = Ok 0 /\
  figures (fst (boxplotTimeSeries 0 0 "X" None (state_with scenario_table)))
    = [].
Proof.
  destruct (boxplotTimeSeries_draws_trimmed_values
              (state_with scenario_table) 0 0 "X" None scenario_table
              new_axes scenario_hours scenario_X
              eq_refl eq_refl eq_refl eq_refl
              ltac:(discriminate) ltac:(discriminate) ltac:(discriminate))
    as (R & _ & Fg).
  split; [|exact Fg].
  rewrite R. vm_compute. reflexivity.
Defined.


Lemma renderers_raise_KeyError_on_absent_column_witness :
  snd (boxplotTimeSeries 0 0 "HR" None (state_with scenario_table)) =
    Raise (KeyError "HR").
Proof.
  destruct (renderers_raise_KeyError_on_absent_column
              (state_with scenario_table) 0 0 "HR" None scenario_table
              eq_refl (or_intror eq_refl))
    as (c & [C|C] & A & B & _); subst c.
  - discriminate A.
  - exact B.
Defined.


Lemma boxPlotTimeSeriesMultiple_draws_every_variable_witness :
  snd (boxPlotTimeSeriesMultiple None 0 ["X"; "Y"] None
         (state_with two_variable_table)) = Ok tt.
Proof.
  destruct (boxPlotTimeSeriesMultiple_draws_every_variable None
              (state_with two_variable_table) 0 two_variable_table
              scenario_hours two_variable_column ["X"; "Y"] None
              eq_refl eq_refl) as (R & _).
  - repeat constructor; try discriminate; vm_compute; reflexivity.
  - cbn. lia.
  - exact R.
Defined.

Lemma stacked_entry_points_leave_tables_unchanged_witness :
  frames (fst (boxPlotTimeSeriesMultiple None 0 ["X"; "Y"] None
                 (state_with two_variable_table))) !! 0 =
    Some two_variable_table.
Proof.
  destruct (stacked_entry_points_leave_tables_unchanged None
              (state_with two_variable_table) 0 ["X"; "Y"] None 0
              two_variable_table eq_refl) as [B _].
  exact B.
Defined.

Lemma setup_logging_under_configured_root_witness :
  root_handlers configured_state <> [] /\
  handlers (fst (setup_logging cwd configured_state)) = [] /\
  files (fst (setup_logging cwd configured_state)) = ∅.
Proof.
  assert (R : root_handlers configured_state <> []) by discriminate.
  split; [exact R|].
  destruct (setup_logging_under_configured_root cwd configured_state R)
    as (_ & Hd & Fs & _).
  split; [exact Hd | exact Fs].
Defined.

Lemma loadData_reports_first_absent_file_witness :
  snd (loadData cwd disk_without_b_outcomes) =
    Raise (FileNotFoundError (labelsPath cwd "b")) /\
  length (frames (fst (loadData cwd disk_without_b_outcomes))) = 3.
Proof.
  destruct (loadData_reports_first_absent_file cwd disk_without_b_outcomes
              [featuresPath cwd "a"; labelsPath cwd "a"; featuresPath cwd "b"]
              [featuresPath cwd "c"; labelsPath cwd "c"]
              (labelsPath cwd "b") eq_refl) as (R & Fr & Ln).
  - repeat constructor.
    + exists scenario_table. vm_compute. reflexivity.
    + exists outcomes. vm_compute. reflexivity.
    + exists scenario_table. vm_compute. reflexivity.
  - vm_compute. reflexivity.
  - split; [exact R|]. rewrite Fr, length_app, Ln. reflexivity.
Defined.

Lemma heat_map_counts_every_row_once_witness :
  sum_int (missing_count scenario_hours scenario_X) = 5%Z /\
  sum_int (missing_sum scenario_hours scenario_X) = 1%Z.
Proof.
  exact (heat_map_counts_every_row_once scenario_hours scenario_X eq_refl).
Defined.




Lemma boxPlotTimeSeriesMultiple_aborts_at_unbounded_variable_witness :
  snd (boxPlotTimeSeriesMultiple None 0 ["X"; "Y"] None
         (state_with half_missing_table)) = Raise ValueError.
Proof.
  destruct (boxPlotTimeSeriesMultiple_aborts_at_unbounded_variable None
              (state_with half_missing_table) 0 half_missing_table
              missing_hours half_missing_column ["X"] [] "Y" None
              eq_refl eq_refl) as (R & _).
  - repeat constructor; try discriminate; vm_compute; reflexivity.
  - reflexivity.
  - discriminate.
  - discriminate.
  - discriminate.
  - vm_compute. reflexivity.
  - cbn. lia.
  - exact R.
Defined.



End MoreInstances.
